(** * Car image validation: the heuristic decision core and its verdicts

    A shallow embedding of the three validation pipelines of the repository

    - [V1]: version1_yolo_opencv (detector + handcrafted heuristics),
    - [V2]: version2_yolo_sam_classifier (detector + coarse segmentation +
      rule-based orientation scorer),
    - [V3]: version3_prompt_engineering (vision-model adapter),

    together with the properties the specification states about them.

    Modelling conventions.

    - Python [int]s are [Z].  Python [float]s are exact rationals [Q].  The
      floats of the decision core are quotients of integers, means of 8-bit
      samples and one product by 0.6, each compared against a decimal
      constant; for the coordinates and pixel counts of real images the
      correctly rounded value and the exact one fall on the same side of
      the constant, so the comparisons of the model are those of the code.
    - An image is what [cv2.imread] returns with its default flag: an
      h x w x 3 array of 8-bit samples, here a list of rows of BGR triples.
      With that flag the array always has three axes, so the pipelines
      never take the grayscale branches of the sources
      ([len(image.shape) == 3] being false); the one of the background
      check is modelled as a function of its own.
    - A Python [dict] is an association list in insertion order; the result
      records are values of a small JSON type.
    - Exceptions are explicit: fallible code lives in the monad [res].
    - The detector, the file system, the clock, OpenCV's grayscale
      statistics and the JSON parser are collaborators: the pipelines take
      them as a record of functions.
    - Console output is not modelled: of the code that prints, the model
      keeps the values returned and the exceptions raised. *)

From Stdlib Require Import ZArith QArith Qminmax Lia Lqa String Ascii.
From stdpp Require Import base option list strings sorting.

Local Open Scope string_scope.
Local Open Scope list_scope.
Local Open Scope Z_scope.
Set Warnings "-register-all".

(** ** Python runtime *)

Module Py.

Inductive exn : Type :=
| ZeroDivisionError
| Exception (msg : string).

(** [str(e)] *)
Definition str (e : exn) : string :=
  match e with
  | ZeroDivisionError => "division by zero"
  | Exception msg => msg
  end.

Inductive res (A : Type) : Type :=
| Ok (a : A)
| Raise (e : exn).
Arguments Ok {A} a.
Arguments Raise {A} e.

#[export] Instance res_ret : MRet res := fun A a => Ok a.
#[export] Instance res_bind : MBind res := fun A B f m =>
  match m with
  | Ok a => f a
  | Raise e => Raise e
  end.

(** [a / b] on two Python ints: true division, raising on a zero divisor. *)
Definition true_div (a b : Z) : res Q :=
  if b =? 0 then Raise ZeroDivisionError
  else Ok (inject_Z a / inject_Z b)%Q.

(** Comparisons of floats, as booleans. *)
Definition ge (x y : Q) : bool := Qle_bool y x.
Definition le (x y : Q) : bool := Qle_bool x y.
Definition gt (x y : Q) : bool := negb (Qle_bool x y).
Definition lt (x y : Q) : bool := negb (Qle_bool y x).

(** The position a slice bound [i] denotes in a sequence of length [n]:
    negative bounds count from the end, and everything is clamped. *)
Definition slice_index (n : nat) (i : Z) : nat :=
  if i <? 0 then Z.to_nat (Z.max (i + Z.of_nat n) 0)
  else Z.to_nat (Z.min i (Z.of_nat n)).

(** [l[a:b]] *)
Definition slice {A} (a b : Z) (l : list A) : list A :=
  let lo := slice_index (length l) a in
  let hi := slice_index (length l) b in
  take (hi - lo) (drop lo l).

(** [l[a:b] = vals], for [vals] of the length of the slice. *)
Definition set_slice {A} (a b : Z) (vals l : list A) : list A :=
  let lo := slice_index (length l) a in
  let hi := slice_index (length l) b in
  take lo l ++ vals ++ drop (lo + (hi - lo)) l.

(** [i] lies in the index range of [l[a:b]]. *)
Definition in_slice (n : nat) (a b : Z) (i : nat) : bool :=
  bool_decide (slice_index n a ≤ i)%nat && bool_decide (i < slice_index n b)%nat.

(** Strings: a Python [str] is held as its UTF-8 encoding, one [ascii] per
    byte.  [s.strip()], [s.startswith(p)], [s.endswith(p)], [s[a:b]],
    [p in s].  [strip] removes the white space of [str.isspace]: the ASCII
    one (codes 9 to 13 and 28 to 32) and U+0085, U+00A0, U+1680, U+2000 to
    U+200A, U+2028, U+2029, U+202F, U+205F and U+3000, which take two or
    three bytes. *)
Definition is_space (c : ascii) : bool :=
  let n := nat_of_ascii c in
  ((9 <=? n) && (n <=? 13) || (28 <=? n) && (n <=? 32))%nat.

(** U+0085 and U+00A0: C2 85 and C2 A0. *)
Definition is_space2 (c1 c2 : ascii) : bool :=
  let n1 := nat_of_ascii c1 in
  let n2 := nat_of_ascii c2 in
  ((n1 =? 194) && ((n2 =? 133) || (n2 =? 160)))%nat.

(** U+1680: E1 9A 80; U+2000 to U+200A, U+2028, U+2029 and U+202F:
    E2 80 80 to E2 80 8A, E2 80 A8, E2 80 A9 and E2 80 AF; U+205F:
    E2 81 9F; U+3000: E3 80 80. *)
Definition is_space3 (c1 c2 c3 : ascii) : bool :=
  let n1 := nat_of_ascii c1 in
  let n2 := nat_of_ascii c2 in
  let n3 := nat_of_ascii c3 in
  ((n1 =? 225) && ((n2 =? 154) && (n3 =? 128))
   || (n1 =? 226)
      && ((n2 =? 128)
          && ((128 <=? n3) && (n3 <=? 138)
              || (n3 =? 168) || (n3 =? 169) || (n3 =? 175))
          || (n2 =? 129) && (n3 =? 159))
   || (n1 =? 227) && ((n2 =? 128) && (n3 =? 128)))%nat.

Definition chars (s : string) : list ascii := list_ascii_of_string s.
Definition of_chars (l : list ascii) : string := string_of_list_ascii l.

(** The white space dropped from the front of the bytes; with [back], from
    the front of the reversed bytes, that is, from the end of the string. *)
Fixpoint lstrip_bytes (back : bool) (l : list ascii) : list ascii :=
  match l with
  | c1 :: l1 =>
      if is_space c1 then lstrip_bytes back l1
      else
        match l1 with
        | c2 :: l2 =>
            if (if back then is_space2 c2 c1 else is_space2 c1 c2)
            then lstrip_bytes back l2
            else
              match l2 with
              | c3 :: l3 =>
                  if (if back then is_space3 c3 c2 c1
                      else is_space3 c1 c2 c3)
                  then lstrip_bytes back l3
                  else l
              | [] => l
              end
        | [] => l
        end
  | [] => []
  end.

Definition lstrip_chars (l : list ascii) : list ascii := lstrip_bytes false l.
Definition rstrip_chars (l : list ascii) : list ascii :=
  reverse (lstrip_bytes true (reverse l)).

Definition strip (s : string) : string :=
  of_chars (rstrip_chars (lstrip_chars (chars s))).

Definition startswith (s p : string) : bool := String.prefix p s.
Definition endswith (s p : string) : bool :=
  String.prefix (of_chars (reverse (chars p))) (of_chars (reverse (chars s))).

Definition str_slice (a b : Z) (s : string) : string :=
  of_chars (slice a b (chars s)).
(** [s[a:]] *)
Definition str_from (a : Z) (s : string) : string :=
  str_slice a (Z.of_nat (String.length s)) s.

Definition contains (s p : string) : bool :=
  match String.index 0 p s with
  | Some _ => true
  | None => false
  end.

(** [s.replace(old, new)]: the occurrences of [old] are replaced from the
    left, without overlap; an empty [old] matches before every character
    and at the end. *)
Fixpoint replace_from (old new : string) (skip : nat) (s : string) : string :=
  match s with
  | EmptyString => EmptyString
  | String c s' =>
      match skip with
      | S k => replace_from old new k s'
      | O =>
          if String.prefix old s
          then new +:+ replace_from old new (String.length old - 1) s'
          else String c (replace_from old new 0 s')
      end
  end.

Fixpoint replace_between (new : string) (s : string) : string :=
  match s with
  | EmptyString => EmptyString
  | String c s' => String c (new +:+ replace_between new s')
  end.

Definition replace (old new s : string) : string :=
  match old with
  | EmptyString => new +:+ replace_between new s
  | _ => replace_from old new 0 s
  end.

(** [sorted(l)] on strings: the order of the code points, which on byte
    strings is the lexicographic order of the bytes. *)
Definition str_le (a b : string) : Prop := String.leb a b = true.

#[export] Instance str_le_dec : RelDecision str_le :=
  fun a b => bool_eq_dec (String.leb a b) true.

Definition sorted (l : list string) : list string := merge_sort str_le l.

End Py.
Export Py.

(** ** Result records *)

Inductive json : Type :=
| JNull
| JBool (b : bool)
| JInt (z : Z)
| JFloat (q : Q)
| JStr (s : string)
| JArr (l : list json)
| JObj (kv : list (string * json)).

Definition dict : Type := list (string * json).

(** [d.get(k)] *)
Fixpoint dict_get (k : string) (d : dict) : option json :=
  match d with
  | [] => None
  | (k', v) :: d' => if String.eqb k k' then Some v else dict_get k d'
  end.

(** [d[k] = v]: an existing key keeps its place, a new one goes last. *)
Fixpoint dict_set (k : string) (v : json) (d : dict) : dict :=
  match d with
  | [] => [(k, v)]
  | (k', v') :: d' =>
      if String.eqb k k' then (k', v) :: d' else (k', v') :: dict_set k v d'
  end.

(** [d.update(new)] *)
Definition dict_update (new d : dict) : dict :=
  foldl (fun acc kv => dict_set kv.1 kv.2 acc) d new.

Definition strings (l : list string) : json := JArr (JStr <$> l).

(** [sep.join(l)] *)
Fixpoint join (sep : string) (l : list string) : string :=
  match l with
  | [] => ""
  | [s] => s
  | s :: l' => s +:+ sep +:+ join sep l'
  end.

(** ** Arrays *)

Module Np.

(** A pixel of a colour image: its three channel samples. *)
Definition pixel : Type := Z * Z * Z.
Definition channels (p : pixel) : list Z := [p.1.1; p.1.2; p.2].

Abbreviation grid A := (list (list A)) (only parsing).
Abbreviation image := (list (list pixel)) (only parsing).

(** [a.shape[0]], [a.shape[1]] *)
Definition shape0 {A} (a : grid A) : nat := length a.
Definition shape1 {A} (a : grid A) : nat :=
  match a with
  | [] => 0%nat
  | row :: _ => length row
  end.

(** All rows have the width of the array, as in every numpy array. *)
Definition rectangular {A} (a : grid A) : Prop :=
  Forall (fun row => length row = shape1 a) a.

(** Row-major flattening; [a.size] for a two-axis array. *)
Definition ravel {A} (a : grid A) : list A := concat a.
Definition size {A} (a : grid A) : nat := length (ravel a).

Definition bbox : Type := Z * Z * Z * Z.

(** [a[y1:y2, x1:x2]] *)
Definition region {A} (y1 y2 x1 x2 : Z) (a : grid A) : grid A :=
  slice x1 x2 <$> slice y1 y2 a.

(** [a[y1:y2, x1:x2] = blk], for [blk] of the shape of the region. *)
Definition set_region {A} (y1 y2 x1 x2 : Z) (blk a : grid A) : grid A :=
  set_slice y1 y2 (zip_with (set_slice x1 x2) blk (slice y1 y2 a)) a.

(** [np.zeros((h, w))], [np.ones((h, w))], [np.ones_like(a)] *)
Definition full (h w : nat) (v : Z) : grid Z := replicate h (replicate w v).
Definition full_like {A} (a : grid A) (v : Z) : grid Z :=
  (fun row => replicate (length row) v) <$> a.

(** [a[m == v]]: the entries of [a] where the mask [m] holds [v], in
    row-major order. *)
Definition select {A} (a : grid A) (m : grid Z) (v : Z) : list A :=
  fst <$> filter (fun am => am.2 = v) (zip (ravel a) (ravel m)).

(** [a[y1:y2, x1:x2] = v] for a scalar [v] *)
Definition fill_region (y1 y2 x1 x2 : Z) (v : Z) (a : grid Z) : grid Z :=
  set_region y1 y2 x1 x2 (full_like (region y1 y2 x1 x2 a) v) a.

(** [np.sum(P(m))] for an entrywise test [P], as in [np.sum(m == 1)]. *)
Definition count (P : Z -> Prop) `{!forall x, Decision (P x)} (m : grid Z)
  : nat :=
  length (filter P (ravel m)).

(** [np.mean(v)] of a vector of integers. *)
Definition mean (v : list Z) : Q :=
  (inject_Z (foldr Z.add 0%Z v) / inject_Z (Z.of_nat (length v)))%Q.

(** [np.mean(pixels, axis=0)], one mean per channel. *)
Definition sum_channel (c : pixel -> Z) (ps : list pixel) : Z :=
  foldr Z.add 0 (c <$> ps).
Definition mean_channel (c : pixel -> Z) (ps : list pixel) : Q :=
  (inject_Z (sum_channel c ps) / inject_Z (Z.of_nat (length ps)))%Q.
Definition mean_axis0 (ps : list pixel) : list Q :=
  [mean_channel (fun p => p.1.1) ps;
   mean_channel (fun p => p.1.2) ps;
   mean_channel (fun p => p.2) ps].

(** [np.max(v)], [np.min(v)] of a non-empty vector. *)
Definition max_of (v : list Q) : Q :=
  match v with
  | [] => 0%Q
  | x :: v' => foldl Qmax x v'
  end.
Definition min_of (v : list Q) : Q :=
  match v with
  | [] => 0%Q
  | x :: v' => foldl Qmin x v'
  end.

End Np.
Export Np.

(** ** The detector's output *)

(** One row of [results[0].boxes.data]: corner coordinates, confidence and
    class id, all floats. *)
Record detection : Type := Detection {
  det_x1 : Q; det_y1 : Q; det_x2 : Q; det_y2 : Q;
  det_conf : Q;
  det_cls : Q
}.

(** [int(x)] on a float: truncation towards zero. *)
Definition int_of_float (x : Q) : Z := Z.quot (Qnum x) (Z.pos (Qden x)).

Definition det_bbox (d : detection) : bbox :=
  (int_of_float (det_x1 d), int_of_float (det_y1 d),
   int_of_float (det_x2 d), int_of_float (det_y2 d)).

(** ** The choice of the mode *)

(** [get_user_choice] of versions 1 and 3, over the lines the user types:
    the mode and the lines left, or [EOFError] when the input ends before
    an answer.  The printed text is not modelled. *)
Fixpoint get_user_choice (inputs : list string) : res (string * list string) :=
  match inputs with
  | [] => Raise (Exception "EOF when reading a line")
  | line :: rest =>
      let choice := strip line in
      if String.eqb choice "1" then mret ("simple", rest)
      else if String.eqb choice "2" then mret ("detailed", rest)
      else get_user_choice rest
  end.

(** ** Batches *)

(** What the batch functions need of the operating system and of [str]. *)
Record directory : Type := {
  (** [os.listdir]; it raises on what is no directory *)
  listdir : string -> res (list string);
  (** [os.path.splitext] *)
  splitext : string -> string * string;
  (** [str.lower] *)
  lower : string -> string;
  (** [os.path.join] *)
  path_join : string -> string -> string
}.

(** The name of the type of a decoded JSON value. *)
Definition type_name (v : json) : string :=
  match v with
  | JNull => "NoneType"
  | JBool _ => "bool"
  | JInt _ => "int"
  | JFloat _ => "float"
  | JStr _ => "str"
  | JArr _ => "list"
  | JObj _ => "dict"
  end.

(** [r.get("result") == v] on a record. *)
Definition has_result (v : string) (r : dict) : bool :=
  match dict_get "result" r with
  | Some (JStr s) => String.eqb s v
  | _ => false
  end.

(** The console report of [validate_multiple_images] on one result, the
    same in versions 1 and 3.  The printed text is not modelled; the
    exceptions are: only a dict has [get], and in the loop over the
    reasons a str, a list or a dict can be iterated, the other values
    cannot. *)
Definition print_result (mode : string) (result : json) : res unit :=
  match result with
  | JObj r =>
      let status_is_no := has_result "No" r in
      match dict_get "failure_reasons" r with
      | Some reasons =>
          if String.eqb mode "detailed" && status_is_no then
            match reasons with
            | JStr _ | JArr _ | JObj _ => mret tt
            | _ =>
                Raise (Exception
                         ("'" +:+ type_name reasons
                          +:+ "' object is not iterable"))
            end
          else mret tt
      | None => mret tt
      end
  | _ =>
      Raise (Exception
               ("'" +:+ type_name result +:+ "' object has no attribute 'get'"))
  end.

(** [r[k]]: a missing key raises [KeyError], whose text is the quoted
    key. *)
Definition get_item (k : string) (r : dict) : res json :=
  match dict_get k r with
  | Some v => mret v
  | None => Raise (Exception ("'" +:+ k +:+ "'"))
  end.

(** [sum(1 for r in rs if r.get("result") == v)]: only a dict has [get]. *)
Fixpoint count_results (v : string) (rs : list json) : res nat :=
  match rs with
  | [] => mret 0%nat
  | JObj r :: rs' =>
      n ← count_results v rs';
      mret (if has_result v r then S n else n)
  | r :: _ =>
      Raise (Exception
               ("'" +:+ type_name r +:+ "' object has no attribute 'get'"))
  end.

(** The numbers [main] of versions 1 and 3 prints under "Summary" after a
    directory run: total, passed, failed and errors; [None] when the
    results have the key [error] and nothing is printed. *)
Definition summary (results : dict)
  : res (option (nat * nat * nat * nat)) :=
  if bool_decide (is_Some (dict_get "error" results)) then mret None
  else
    let total := length results in
    passed ← count_results "Yes" results.*2;
    failed ← count_results "No" results.*2;
    errors ← count_results "Error" results.*2;
    mret (Some (total, passed, failed, errors)).

(** * Version 1: detector and handcrafted heuristics *)

Module V1.

(** *** utils.py *)

Definition check_size_ratio (b : bbox) (image_shape : nat * nat) : res bool :=
  let '(x1, y1, x2, y2) := b in
  let box_area := (x2 - x1) * (y2 - y1) in
  let img_area := Z.of_nat image_shape.1 * Z.of_nat image_shape.2 in
  ratio ← true_div box_area img_area;
  mret (ge ratio 0.25).

(** The mask of [check_background_white]: ones, with the box zeroed. *)
Definition background_mask {A} (img : grid A) (b : bbox) : grid Z :=
  let '(x1, y1, x2, y2) := b in
  let mask := full (shape0 img) (shape1 img) 1 in
  fill_region y1 y2 x1 x2 0 mask.

Definition bg_pixels {A} (img : grid A) (b : bbox) : list A :=
  select img (background_mask img b) 1.

(** [check_background_white] on a colour image, the case of the pipeline. *)
Definition check_background_white (img : image) (b : bbox) : bool :=
  let bg := bg_pixels img b in
  if (length bg =? 0)%nat then false
  else
    let avg_color := mean_axis0 bg in
    forallb (fun a => gt a 180) avg_color.

(** [check_background_white] on a two-axis array of intensities, its
    grayscale branch. *)
Definition check_background_white_gray (img : grid Z) (b : bbox) : bool :=
  let bg := bg_pixels img b in
  if (length bg =? 0)%nat then false
  else
    let avg_brightness := mean bg in
    gt avg_brightness 180.

Definition aspect_ratio (b : bbox) : Q :=
  let '(x1, y1, x2, y2) := b in
  let width := x2 - x1 in
  let height := y2 - y1 in
  if height >? 0 then (inject_Z width / inject_Z height)%Q else 0%Q.

Definition heuristic_orientation_check (b : bbox) : bool :=
  ge (aspect_ratio b) 1.8.

Definition check_car_orientation_left (b : bbox) (image_shape : nat * nat)
  : res bool :=
  let '(x1, y1, x2, y2) := b in
  let car_center_x := (x1 + x2) / 2 in
  let image_width := Z.of_nat image_shape.2 in
  relative_position ← true_div car_center_x image_width;
  mret (le 0.3 relative_position && le relative_position 0.8).

(** *** The collaborators of the pipeline *)

Record collaborators : Type := {
  (** [os.path.exists] *)
  path_exists : string -> bool;
  (** [cv2.imread]: [None] for a file that is no image *)
  imread : string -> option image;
  (** [np.mean(cv2.cvtColor(image, cv2.COLOR_BGR2GRAY))] *)
  gray_mean : image -> Q;
  (** the loaded YOLO model, [None] when loading failed; it yields the
      rows of [results[0].boxes.data] *)
  model : option (image -> res (list detection));
  (** [datetime.now().isoformat()] *)
  now : string
}.

Definition validate_image_quality (E : collaborators) (img : image)
  : bool * string :=
  let h := shape0 img in
  let w := shape1 img in
  if bool_decide (h < 100)%nat || bool_decide (w < 100)%nat
  then (false, "Image resolution too low")
  else
    let mean_brightness := gray_mean E img in
    if lt mean_brightness 30 then (false, "Image too dark")
    else if gt mean_brightness 250 then (false, "Image too bright")
    else (true, "OK").

(** *** yolov8_loader.py *)

(** The loop of [detect_car]: keep the first row of class 2 whose
    confidence is above 0.5 and strictly above the best so far. *)
Definition best_car_step (acc : option bbox * Q) (r : detection)
  : option bbox * Q :=
  let '(best_car, best_confidence) := acc in
  let confidence := det_conf r in
  let cls := int_of_float (det_cls r) in
  if (cls =? 2) && gt confidence 0.5 then
    if gt confidence best_confidence then (Some (det_bbox r), confidence)
    else acc
  else acc.

Definition detect_car (E : collaborators) (img : image) : bool * option bbox :=
  match model E with
  | None => (false, None)
  | Some run =>
      match run img with
      | Raise _ => (false, None)
      | Ok rows =>
          match (foldl best_car_step (None, 0%Q) rows).1 with
          | Some best_car => (true, Some best_car)
          | None => (false, None)
          end
      end
  end.

(** *** main.py *)

Definition no_car_criteria : dict :=
  [("contains_car", JBool false);
   ("side_view", JBool false);
   ("white_background", JBool false);
   ("proper_size", JBool false);
   ("correct_orientation", JBool false)].

Definition size_reason : string :=
  "Car does not occupy sufficient portion of image (< 1/4)".
Definition background_reason : string :=
  "Background is not sufficiently white".
Definition side_view_reason : string :=
  "Car does not appear to be in side view (width/height ratio)".
Definition facing_reason : string :=
  "Car does not appear to be facing left".

(** The statements of [verify_image] from "Collect failure reasons" on,
    once the four evaluators have returned. *)
Definition report (E : collaborators) (image_path : string)
  (is_car size_ok background_white side_view facing_left : bool) : dict :=
  let failure_reasons := [] in
  let failure_reasons :=
    if negb size_ok then failure_reasons ++ [size_reason]
    else failure_reasons in
  let failure_reasons :=
    if negb background_white then failure_reasons ++ [background_reason]
    else failure_reasons in
  let failure_reasons :=
    if negb side_view then failure_reasons ++ [side_view_reason]
    else failure_reasons in
  let failure_reasons :=
    if negb facing_left then failure_reasons ++ [facing_reason]
    else failure_reasons in
  let all_passed :=
    forallb id [is_car; size_ok; background_white; side_view; facing_left] in
  let result : dict :=
    [("result", JStr (if all_passed then "Yes" else "No"));
     ("criteria", JObj
        [("contains_car", JBool is_car);
         ("side_view", JBool side_view);
         ("white_background", JBool background_white);
         ("proper_size", JBool size_ok);
         ("correct_orientation", JBool facing_left)]);
     ("timestamp", JStr (now E));
     ("model_used", JStr "yolov8n + opencv");
     ("image_path", JStr image_path)] in
  if negb all_passed
  then dict_set "failure_reasons" (strings failure_reasons) result
  else result.

(** The statements of [verify_image] after a car was found. *)
Definition evaluate (E : collaborators) (image_path : string) (img : image)
  (is_car : bool) (b : bbox) : res dict :=
  size_ok ← check_size_ratio b (shape0 img, shape1 img);
  let background_white := check_background_white img b in
  let side_view := heuristic_orientation_check b in
  facing_left ← check_car_orientation_left b (shape0 img, shape1 img);
  mret (report E image_path is_car size_ok background_white side_view
          facing_left).

(** The body of the [try] block. *)
Definition verify_image_try (E : collaborators) (image_path mode : string)
  : res dict :=
  if negb (path_exists E image_path) then
    mret [("result", JStr "Error");
          ("error", JStr "File not found");
          ("timestamp", JStr (now E))]
  else
    match imread E image_path with
    | None =>
        mret [("result", JStr "Error");
              ("error", JStr "Invalid image format");
              ("timestamp", JStr (now E))]
    | Some img =>
        let '(is_valid, quality_msg) := validate_image_quality E img in
        if negb is_valid then
          mret [("result", JStr "Error");
                ("error", JStr ("Image quality issue: " +:+ quality_msg));
                ("timestamp", JStr (now E))]
        else
          match detect_car E img with
          | (true, Some b) => evaluate E image_path img true b
          | _ =>
              mret [("result", JStr "No");
                    ("criteria", JObj no_car_criteria);
                    ("failure_reasons", strings ["No car detected in image"]);
                    ("timestamp", JStr (now E));
                    ("model_used", JStr "yolov8n + opencv");
                    ("image_path", JStr image_path)]
          end
    end.

Definition verify_image (E : collaborators) (image_path mode : string)
  : dict :=
  match verify_image_try E image_path mode with
  | Ok result => result
  | Raise e =>
      [("result", JStr "Error");
       ("error", JStr (str e));
       ("timestamp", JStr (now E));
       ("image_path", JStr image_path)]
  end.

(** [validate_multiple_images]: the results of the image files of a
    directory, keyed by file name. *)
Definition image_extensions : list string :=
  [".jpg"; ".jpeg"; ".png"; ".bmp"; ".tiff"; ".webp"].

Definition image_files (D : directory) (names : list string) : list string :=
  filter (fun f => (splitext D (lower D f)).2 ∈ image_extensions) names.

Definition validate_multiple_images (E : collaborators) (D : directory)
  (image_dir mode : string) : res dict :=
  let results : dict := [] in
  if negb (path_exists E image_dir) then
    mret [("error", JStr ("Directory not found: " +:+ image_dir))]
  else
    names ← listdir D image_dir;
    foldl (fun acc image_file =>
             results ← acc;
             let image_path := path_join D image_dir image_file in
             let result := verify_image E image_path mode in
             let results := dict_set image_file (JObj result) results in
             _ ← print_result mode (JObj result);
             mret results)
      (mret results) (image_files D names).

(** *** yolov8_loader.py, continued *)

(** [cars.sort(key=lambda x: x[0], reverse=True)]: the sort is stable, so
    among equal confidences the order of the list is kept.  Insertion from
    the right puts an entry before the ones it does not fall below. *)
Fixpoint insert_by_confidence (x : Q * bbox) (l : list (Q * bbox))
  : list (Q * bbox) :=
  match l with
  | [] => [x]
  | y :: l' =>
      if gt y.1 x.1 then y :: insert_by_confidence x l' else x :: l
  end.

Definition sort_by_confidence (l : list (Q * bbox)) : list (Q * bbox) :=
  foldr insert_by_confidence [] l.

(** The classes of [get_multiple_cars]: car, motorcycle, bus, truck. *)
Definition vehicle_classes : list Z := [2; 3; 5; 7].

Definition get_multiple_cars (E : collaborators) (img : image)
  : list (Q * bbox) :=
  match model E with
  | None => []
  | Some run =>
      match run img with
      | Raise _ => []
      | Ok rows =>
          let cars :=
            (fun r => (det_conf r, det_bbox r))
              <$> filter (fun r => int_of_float (det_cls r) ∈ vehicle_classes
                                   /\ gt (det_conf r) 0.5 = true) rows in
          sort_by_confidence cars
      end
  end.

End V1.

(** * Version 2: detector, coarse segmentation and orientation scorer *)

Module V2.

(** *** utils.py *)

(** [car_pixels] is a numpy integer, so a zero [total_pixels] gives nan
    (no exception), and [nan >= 0.20] is false. *)
Definition check_area_ratio (mask : grid Z) : bool :=
  let total_pixels := size mask in
  let car_pixels := count (fun x => x = 1) mask in
  if (total_pixels =? 0)%nat then false
  else
    let ratio := (inject_Z (Z.of_nat car_pixels) /
                  inject_Z (Z.of_nat total_pixels))%Q in
    ge ratio 0.20.

Definition check_white_background (img : image) (mask : grid Z) : bool :=
  let bg_pixels := select img mask 0 in
  if (length bg_pixels =? 0)%nat then false
  else
    let avg_color := mean_axis0 bg_pixels in
    let white_threshold := 200%Q in
    let color_balance_threshold := 20%Q in
    let is_bright := forallb (fun a => gt a white_threshold) avg_color in
    let is_balanced :=
      lt (max_of avg_color - min_of avg_color)%Q color_balance_threshold in
    is_bright && is_balanced.

(** *** sam_module.py *)

(** [np.all(p >= white_threshold)] over the channels of one pixel. *)
Definition very_white (p : pixel) : bool :=
  forallb (fun c => c >=? 240) (channels p).

(** Nothing in the [try] block raises on a three-axis image, so its
    handler (the plain bounding box) is not part of the model. *)
Definition segment_car (img : image) (b : bbox) : grid Z :=
  let '(x1, y1, x2, y2) := b in
  let h := shape0 img in
  let w := shape1 img in
  let mask := full h w 0 in
  let car_region := region y1 y2 x1 x2 img in
  let car_mask : grid Z :=
    fmap (M:=list) (fun p => if negb (very_white p) then 1 else 0)
      <$> car_region in
  let car_pixels := count (fun x => 0 < x) car_mask in
  let total_pixels := size car_mask in
  let car_mask :=
    if lt (inject_Z (Z.of_nat car_pixels))
          (inject_Z (Z.of_nat total_pixels) * 0.6)%Q
    then full_like car_mask 1
    else car_mask in
  set_region y1 y2 x1 x2 car_mask mask.

(** *** orientation_classifier.py *)

Record orientation : Type := Orientation {
  side_view : bool;
  facing_left : bool;
  confidence_scores : dict
}.

Definition aspect_ratio (b : bbox) : Q :=
  let '(x1, y1, x2, y2) := b in
  let width := x2 - x1 in
  let height := y2 - y1 in
  if height >? 0 then (inject_Z width / inject_Z height)%Q else 0%Q.

(** The side-view bands. *)
Definition side_view_of (aspect_ratio : Q) : bool :=
  if ge aspect_ratio 2.9 then true
  else if ge aspect_ratio 2.15 && le aspect_ratio 2.2 then true
  else false.

(** The score of the left-facing test, from the relative position of the
    box centre and the ratio of the free space on both sides. *)
Definition facing_left_score (relative_position space_ratio : Q) : Z :=
  let facing_left_score := 0 in
  let facing_left_score :=
    if le 0.48 relative_position && le relative_position 0.51
    then facing_left_score + 1 else facing_left_score in
  if le space_ratio 0.15 then facing_left_score + 2
  else if le 0.7 space_ratio && le space_ratio 1.0 then facing_left_score + 2
  else if le 0.4 space_ratio && le space_ratio 0.69 then facing_left_score + 1
  else facing_left_score.

Definition classify_orientation (img : image) (b : bbox) : res orientation :=
  let '(x1, y1, x2, y2) := b in
  let height := y2 - y1 in
  let aspect_ratio := aspect_ratio b in
  let car_center_x := (x1 + x2) / 2 in
  let image_width := Z.of_nat (shape1 img) in
  relative_position ← true_div car_center_x image_width;
  let scores : dict :=
    [("aspect_ratio", if height >? 0 then JFloat aspect_ratio else JInt 0);
     ("position", JFloat relative_position)] in
  if side_view_of aspect_ratio then
    let left_space := x1 in
    let right_space := image_width - x2 in
    space_ratio ← true_div left_space (right_space + 1);
    let facing_left_score := facing_left_score relative_position space_ratio in
    mret {| side_view := true;
            facing_left := facing_left_score >=? 2;
            confidence_scores :=
              dict_update
                [("left_facing_factors", JObj
                    [("position_factor",
                      JBool (le 0.48 relative_position
                             && le relative_position 0.51));
                     ("left_bias", JBool true);
                     ("left_space", JInt left_space);
                     ("right_space", JInt right_space);
                     ("facing_score", JInt facing_left_score);
                     ("space_ratio", JFloat space_ratio)])]
                scores |}
  else
    mret {| side_view := false;
            facing_left := false;
            confidence_scores := scores |}.

(** *** The collaborators of the pipeline *)

Record collaborators : Type := {
  (** [os.path.exists] *)
  path_exists : string -> bool;
  (** [cv2.imread]: [None] for a file that is no image *)
  imread : string -> option image;
  (** mean and standard deviation of [cv2.cvtColor(image, COLOR_BGR2GRAY)]
      and the variance of its Laplacian *)
  gray_mean : image -> Q;
  gray_std : image -> Q;
  laplacian_var : image -> Q;
  (** the YOLO model, giving for each box its corners, confidence and
      class *)
  model : image -> res (list detection);
  (** [datetime.now().isoformat()] *)
  now : string
}.

Definition validate_image_quality (E : collaborators) (img : image)
  : bool * Q * list string :=
  let h := shape0 img in
  let w := shape1 img in
  let issues : list string := [] in
  let quality_score := 1.0%Q in
  let '(issues, quality_score) :=
    if bool_decide (h < 200)%nat || bool_decide (w < 200)%nat
    then (issues ++ ["Low resolution"], (quality_score - 0.3)%Q)
    else (issues, quality_score) in
  let mean_brightness := gray_mean E img in
  let '(issues, quality_score) :=
    if lt mean_brightness 50
    then (issues ++ ["Too dark"], (quality_score - 0.2)%Q)
    else if gt mean_brightness 240
    then (issues ++ ["Too bright/overexposed"], (quality_score - 0.2)%Q)
    else (issues, quality_score) in
  let contrast := gray_std E img in
  let '(issues, quality_score) :=
    if lt contrast 20
    then (issues ++ ["Low contrast"], (quality_score - 0.2)%Q)
    else (issues, quality_score) in
  let blur_score := laplacian_var E img in
  let '(issues, quality_score) :=
    if lt blur_score 100
    then (issues ++ ["Image appears blurry"], (quality_score - 0.3)%Q)
    else (issues, quality_score) in
  let quality_score := Qmax 0.0 quality_score in
  let is_valid := gt quality_score 0.5 && bool_decide (length issues < 3)%nat in
  (is_valid, quality_score, issues).

(** *** yolo_module.py *)

Definition detect_car (E : collaborators) (img : image)
  : res (bool * option bbox) :=
  rows ← model E img;
  if (length rows =? 0)%nat then mret (false, None)
  else
    let car_detections :=
      filter (fun r => int_of_float (det_cls r) = 2
                       ∧ gt (det_conf r) 0.5 = true) rows in
    match car_detections with
    | [] => mret (false, None)
    | d :: ds =>
        let best_detection :=
          foldl (fun best x => if gt (det_conf x) (det_conf best)
                               then x else best) d ds in
        mret (true, Some (det_bbox best_detection))
    end.

(** *** main.py *)

Definition no_car_criteria : dict :=
  [("contains_car", JBool false);
   ("proper_segmentation", JBool false);
   ("white_background", JBool false);
   ("proper_size", JBool false);
   ("side_view", JBool false);
   ("facing_left", JBool false)].

Definition size_reason : string :=
  "Car does not occupy sufficient portion of image (< 20%)".
Definition background_reason : string :=
  "Background is not sufficiently white".
Definition side_view_reason : string :=
  "Car does not appear to be in side view".
Definition facing_reason : string :=
  "Car does not appear to be facing left".

(** The statements of [verify_image] from "Collect failure reasons" on,
    once the evaluators have returned. *)
Definition report (E : collaborators) (image_path mode : string)
  (quality_score : Q) (is_car area_ok background_white : bool)
  (orientation_result : orientation) : dict :=
  let side_view := side_view orientation_result in
  let facing_left := facing_left orientation_result in
  let failure_reasons := [] in
  let failure_reasons :=
    if negb area_ok then failure_reasons ++ [size_reason]
    else failure_reasons in
  let failure_reasons :=
    if negb background_white then failure_reasons ++ [background_reason]
    else failure_reasons in
  let failure_reasons :=
    if negb side_view then failure_reasons ++ [side_view_reason]
    else failure_reasons in
  let failure_reasons :=
    if negb facing_left then failure_reasons ++ [facing_reason]
    else failure_reasons in
  let all_passed :=
    forallb id [is_car; area_ok; background_white; side_view; facing_left] in
  let result : dict :=
    [("result", JStr (if all_passed then "Yes" else "No"));
     ("timestamp", JStr (now E));
     ("model_used", JStr "yolov8n + sam + classifier")] in
  if String.eqb mode "detailed" then
    let result :=
      dict_update
        [("criteria", JObj
            [("contains_car", JBool is_car);
             ("proper_segmentation", JBool true);
             ("white_background", JBool background_white);
             ("proper_size", JBool area_ok);
             ("side_view", JBool side_view);
             ("facing_left", JBool facing_left)]);
         ("orientation_confidence",
          JObj (confidence_scores orientation_result));
         ("quality_score", JFloat quality_score);
         ("image_path", JStr image_path)]
        result in
    if negb all_passed
    then dict_set "failure_reasons" (strings failure_reasons) result
    else result
  else if negb all_passed then
    dict_set "failure_reasons" (strings failure_reasons) result
  else result.

(** The statements of [verify_image] after a car was found. *)
Definition evaluate (E : collaborators) (image_path mode : string)
  (img : image) (quality_score : Q) (is_car : bool) (b : bbox) : res dict :=
  let mask := segment_car img b in
  let area_ok := check_area_ratio mask in
  let background_white := check_white_background img mask in
  orientation_result ← classify_orientation img b;
  mret (report E image_path mode quality_score is_car area_ok
          background_white orientation_result).

(** The body of the [try] block. *)
Definition verify_image_try (E : collaborators) (image_path mode : string)
  : res dict :=
  if negb (path_exists E image_path) then
    mret [("result", JStr "Error");
          ("error", JStr "File not found");
          ("timestamp", JStr (now E))]
  else
    match imread E image_path with
    | None =>
        mret [("result", JStr "Error");
              ("error", JStr "Invalid image format");
              ("timestamp", JStr (now E))]
    | Some img =>
        let '(is_quality_ok, quality_score, quality_issues) :=
          validate_image_quality E img in
        if negb is_quality_ok then
          mret [("result", JStr "Error");
                ("error", JStr ("Image quality issues: "
                                +:+ join ", " quality_issues));
                ("quality_score", JFloat quality_score);
                ("timestamp", JStr (now E))]
        else
          detection ← detect_car E img;
          match detection with
          | (true, Some b) =>
              evaluate E image_path mode img quality_score true b
          | _ =>
              let result : dict :=
                [("result", JStr "No");
                 ("failure_reasons", strings ["No car detected in image"]);
                 ("timestamp", JStr (now E));
                 ("model_used", JStr "yolov8n + sam + classifier")] in
              mret (if String.eqb mode "detailed" then
                      dict_update
                        [("criteria", JObj no_car_criteria);
                         ("image_path", JStr image_path);
                         ("quality_score", JFloat quality_score)]
                        result
                    else result)
          end
    end.

Definition verify_image (E : collaborators) (image_path mode : string)
  : dict :=
  match verify_image_try E image_path mode with
  | Ok result => result
  | Raise e =>
      [("result", JStr "Error");
       ("error", JStr ("Processing error: " +:+ str e));
       ("timestamp", JStr (now E))]
  end.

(** *** main.py, the directory run *)

Definition image_extensions : list string :=
  [".jpg"; ".jpeg"; ".png"; ".bmp"; ".tiff"].

Definition image_files (D : directory) (names : list string) : list string :=
  filter (fun f => existsb (endswith (lower D f)) image_extensions = true)
    names.

(** The progress report on one result.  The printed text is not modelled;
    the exceptions are: a missing result, and reasons that cannot be
    sliced. *)
Definition print_progress (result : dict) : res unit :=
  status ← get_item "result" result;
  match status with
  | JStr "No" =>
      let reasons := default (JArr []) (dict_get "failure_reasons" result) in
      match reasons with
      | JArr _ | JStr _ => mret tt
      | JObj _ => Raise (Exception "unhashable type: 'slice'")
      | _ =>
          Raise (Exception
                   ("'" +:+ type_name reasons
                    +:+ "' object is not subscriptable"))
      end
  | _ => mret tt
  end.

Definition validate_multiple_images (E : collaborators) (D : directory)
  (directory_path mode : string) : res dict :=
  if negb (path_exists E directory_path) then
    mret [("error", JStr ("Directory not found: " +:+ directory_path))]
  else
    let results : dict := [] in
    names ← listdir D directory_path;
    let image_files := image_files D names in
    if (length image_files =? 0)%nat then
      mret [("error", JStr "No image files found in directory")]
    else
      foldl (fun acc filename =>
               results ← acc;
               let file_path := path_join D directory_path filename in
               let result := verify_image E file_path mode in
               let clean_key :=
                 replace ".jpeg" ""
                   (replace ".jpg" "" (replace ".png" "" filename)) in
               results ←
                 (if String.eqb mode "simple" then
                    verdict ← get_item "result" result;
                    mret (dict_set clean_key (JObj [("result", verdict)])
                            results)
                  else mret (dict_set filename (JObj result) results));
               _ ← print_progress result;
               mret results)
        (mret results) (sorted image_files).

(** The numbers [main] prints under "Summary": total, passed, failed and
    errors, the last one by subtraction; [None] when the results have the
    key [error] and [main] stops before. *)
Definition is_dict_with (v : string) (r : json) : bool :=
  match r with
  | JObj kv => has_result v kv
  | _ => false
  end.

Definition summary (results : dict) : option (nat * nat * nat * Z) :=
  if bool_decide (is_Some (dict_get "error" results)) then None
  else
    let total := length results in
    let passed :=
      length (filter (fun r => is_dict_with "Yes" r || is_dict_with "Yes" r
                               = true) results.*2) in
    let failed :=
      length (filter (fun r => is_dict_with "No" r || is_dict_with "No" r
                               = true) results.*2) in
    let errors := Z.of_nat total - Z.of_nat passed - Z.of_nat failed in
    Some (total, passed, failed, errors).

End V2.

(** * Version 3: the vision-model adapter *)

Module V3.

Record collaborators : Type := {
  (** reading and encoding the file, the chat completion request and the
      access to [response.choices[0].message.content]: the text of the
      answer, or the exception raised on the way *)
  ask_model : string -> res string;
  (** [json.loads]: [None] stands for [json.JSONDecodeError] *)
  json_loads : string -> option json
}.

(** The clean-up of markdown code blocks around the answer. *)
Definition clean (content : string) : string :=
  let raw_text := strip content in
  let raw_text :=
    if startswith raw_text "```json" then str_from 7 raw_text
    else raw_text in
  let raw_text :=
    if endswith raw_text "```" then str_slice 0 (-3) raw_text
    else raw_text in
  strip raw_text.

Definition criteria_all (b : bool) : dict :=
  [("contains_car", JBool b);
   ("side_view", JBool b);
   ("white_background", JBool b);
   ("proper_size", JBool b);
   ("correct_orientation", JBool b)].

Definition is_str (s : string) (v : json) : bool :=
  match v with
  | JStr s' => String.eqb s' s
  | _ => false
  end.

(** The statements of the [try] block after [json.loads] returned.  Only
    a dict has [get]; membership on a list or a string is defined, on the
    other values it raises. *)
Definition complete (result : json) : res json :=
  match result with
  | JObj kv =>
      let verdict := dict_get "result" kv in
      if negb (bool_decide (is_Some (dict_get "criteria" kv)))
         && (from_option (is_str "Yes") false verdict
             || from_option (is_str "No") false verdict)
      then
        let yes := from_option (is_str "Yes") false verdict in
        let kv := dict_set "criteria" (JObj (criteria_all yes)) kv in
        let kv :=
          if from_option (is_str "No") false verdict
          then dict_set "failure_reasons"
                 (strings ["Detailed analysis not available"]) kv
          else kv in
        mret (JObj kv)
      else mret result
  | JArr l =>
      if negb (existsb (is_str "criteria") l)
      then Raise (Exception "'list' object has no attribute 'get'")
      else mret result
  | JStr s =>
      if negb (contains s "criteria")
      then Raise (Exception "'str' object has no attribute 'get'")
      else mret result
  | _ =>
      Raise (Exception
               ("argument of type '" +:+ type_name result
                +:+ "' is not iterable"))
  end.

Definition fallback : dict :=
  [("result", JStr "No");
   ("criteria", JObj (criteria_all false));
   ("failure_reasons", strings ["Failed to parse GPT response"]);
   ("error", JStr "JSON parsing failed")].

Definition check_car_image (E : collaborators) (image_path : string)
  : res json :=
  content ← ask_model E image_path;
  let raw_text := clean content in
  match json_loads E raw_text with
  | Some result => complete result
  | None => mret (JObj fallback)
  end.

(** *** main.py *)

(** What [validate_single_image] needs besides the adapter. *)
Record environment : Type := {
  adapter : collaborators;
  (** [os.path.exists] *)
  path_exists : string -> bool;
  (** [datetime.now().isoformat()] *)
  now : string
}.

(** [result[key] = value] on what the adapter returned: only a dict takes
    a string key. *)
Definition set_item (key : string) (value : json) (result : json) : res json :=
  match result with
  | JObj kv => mret (JObj (dict_set key value kv))
  | JArr _ =>
      Raise (Exception "list indices must be integers or slices, not str")
  | JStr _ => Raise (Exception "'str' object does not support item assignment")
  | JNull =>
      Raise (Exception "'NoneType' object does not support item assignment")
  | JBool _ =>
      Raise (Exception "'bool' object does not support item assignment")
  | JInt _ => Raise (Exception "'int' object does not support item assignment")
  | JFloat _ =>
      Raise (Exception "'float' object does not support item assignment")
  end.

(** The body of the [try] block. *)
Definition validate_single_image_try (E : environment)
  (image_path mode : string) : res json :=
  if negb (path_exists E image_path) then
    mret (JObj [("result", JStr "Error");
                ("error", JStr "File not found");
                ("timestamp", JStr (now E))])
  else
    result ← check_car_image (adapter E) image_path;
    result ← set_item "timestamp" (JStr (now E)) result;
    result ← set_item "model_used" (JStr "gpt-4o") result;
    result ← set_item "image_path" (JStr image_path) result;
    mret result.

Definition validate_single_image (E : environment) (image_path mode : string)
  : json :=
  match validate_single_image_try E image_path mode with
  | Ok result => result
  | Raise e =>
      JObj [("result", JStr "Error");
            ("error", JStr (str e));
            ("timestamp", JStr (now E));
            ("image_path", JStr image_path)]
  end.

(** [validate_multiple_images]: as in version 1, over
    [validate_single_image]. *)
Definition image_extensions : list string :=
  [".jpg"; ".jpeg"; ".png"; ".bmp"; ".tiff"; ".webp"].

Definition image_files (D : directory) (names : list string) : list string :=
  filter (fun f => (splitext D (lower D f)).2 ∈ image_extensions) names.

Definition validate_multiple_images (E : environment) (D : directory)
  (image_dir mode : string) : res dict :=
  let results : dict := [] in
  if negb (path_exists E image_dir) then
    mret [("error", JStr ("Directory not found: " +:+ image_dir))]
  else
    names ← listdir D image_dir;
    foldl (fun acc image_file =>
             results ← acc;
             let image_path := path_join D image_dir image_file in
             let result := validate_single_image E image_path mode in
             let results := dict_set image_file result results in
             _ ← print_result mode result;
             mret results)
      (mret results) (image_files D names).

End V3.

(** * Vocabulary of the specification *)

(** ** Bounding boxes *)

(** Width over height of a box, the aspect ratio of the specification. *)
Definition box_ratio (b : bbox) : Q :=
  let '(x1, y1, x2, y2) := b in
  (inject_Z (x2 - x1) / inject_Z (y2 - y1))%Q.

Definition box_area (b : bbox) : Z :=
  let '(x1, y1, x2, y2) := b in
  (x2 - x1) * (y2 - y1).

Definition box_height (b : bbox) : Z := let '(_, y1, _, y2) := b in y2 - y1.
Definition box_right (b : bbox) : Z := let '(_, _, x2, _) := b in x2.
Definition box_left (b : bbox) : Z := let '(x1, _, _, _) := b in x1.

(** [a[r, c]], when the position exists. *)
Definition at2 {A} (a : list (list A)) (r c : nat) : option A :=
  a !! r ≫= fun row => row !! c.

(** The position lies in the bounding box, read as the slices
    [y1:y2] and [x1:x2] of the image. *)
Definition in_box {A} (img : list (list A)) (b : bbox) (r c : nat) : bool :=
  let '(x1, y1, x2, y2) := b in
  in_slice (shape0 img) y1 y2 r && in_slice (shape1 img) x1 x2 c.

(** ** The facing score *)

(** [x] lies in the closed band from [lo] to [hi]. *)
Definition in_band (lo hi x : Q) : bool := le lo x && le x hi.

(** One term per rule: +1 for the position band, +2 for a small space
    ratio, +2 for the balanced band, +1 for the moderate band. *)
Definition facing_score_spec (relative_position space_ratio : Q) : Z :=
  (if in_band 0.48 0.51 relative_position then 1 else 0)
  + (if le space_ratio 0.15 then 2 else 0)
  + (if in_band 0.7 1.0 space_ratio then 2 else 0)
  + (if in_band 0.4 0.69 space_ratio then 1 else 0).

(** ** Verdicts, criteria and reasons *)

Definition verdict (r : dict) (v : string) : Prop :=
  dict_get "result" r = Some (JStr v).

Definition all_true (cs : dict) : Prop :=
  Forall (fun kv => kv.2 = JBool true) cs.

Definition some_false (cs : dict) : Prop :=
  Exists (fun kv => kv.2 = JBool false) cs.

(** A record that carries criteria says "Yes" exactly when all of them
    hold, and "No" as soon as one fails. *)
Definition verdict_follows_criteria (r : dict) : Prop :=
  forall cs,
    dict_get "criteria" r = Some (JObj cs) ->
    (verdict r "Yes" <-> all_true cs) /\ (some_false cs -> verdict r "No").

Definition has_criteria (r : dict) : Prop :=
  exists cs, dict_get "criteria" r = Some (JObj cs).

(** The value is the boolean [b]. *)
Definition is_bool (b : bool) (v : json) : bool :=
  match v with
  | JBool b' => Bool.eqb b b'
  | _ => false
  end.

(** One sentence per failing check, in the order of the checks; passing
    checks contribute nothing. *)
Definition reasons_spec (checks : list (bool * string)) : list string :=
  omap (fun c : bool * string => if c.1 then None else Some c.2) checks.

(** ** Stages of the pipelines *)

(** The file is there, it is an image, the quality gate lets it through and
    the detector found the box [b]. *)
Definition V1_car_found (E : V1.collaborators) (p : string)
  (img : list (list pixel)) (b : bbox) : Prop :=
  V1.path_exists E p = true
  /\ V1.imread E p = Some img
  /\ (V1.validate_image_quality E img).1 = true
  /\ V1.detect_car E img = (true, Some b).

Definition V2_car_found (E : V2.collaborators) (p : string)
  (img : list (list pixel)) (b : bbox) : Prop :=
  V2.path_exists E p = true
  /\ V2.imread E p = Some img
  /\ (V2.validate_image_quality E img).1.1 = true
  /\ V2.detect_car E img = Ok (true, Some b).

(** The detector reported no car: [found] is false or the box is missing. *)
Definition no_car (d : bool * option bbox) : Prop := d.1 = false \/ d.2 = None.

(** ** Segmentation *)

(** The pixels of the box, and those of them the white test excludes. *)
Definition box_pixels (img : list (list pixel)) (b : bbox) : list pixel :=
  let '(x1, y1, x2, y2) := b in
  ravel (region y1 y2 x1 x2 img).

Definition excluded (img : list (list pixel)) (b : bbox) : nat :=
  length (filter (fun p => V2.very_white p = true) (box_pixels img b)).

(** The exclusion removes more than 40% of the pixels of the box. *)
Definition over_excluded (img : list (list pixel)) (b : bbox) : bool :=
  bool_decide (40 * length (box_pixels img b) < 100 * excluded img b)%nat.

(** ** Background *)

(** The average colour of the pixels exceeds [t] in every channel. *)
Definition exceeds (t : Q) (ps : list pixel) : Prop :=
  Forall (fun m => (t < m)%Q) (mean_axis0 ps).

(** No two channels of the average colour are [t] or more apart, that is,
    the largest channel minus the smallest stays below [t]. *)
Definition balanced (t : Q) (ps : list pixel) : Prop :=
  Forall (fun m => Forall (fun m' => (m - m' < t)%Q) (mean_axis0 ps))
    (mean_axis0 ps).

(** ** Sample inputs *)

Definition paint (h w : nat) (f : nat -> nat -> pixel) : list (list pixel) :=
  (fun r => f r <$> seq 0 w) <$> seq 0 h.

Definition white : pixel := (255, 255, 255).
Definition dark : pixel := (40, 40, 40).
(** Bright in every channel, but warm: the channels are 45 apart. *)
Definition warm : pixel := (205, 230, 250).

(** A dark car, 90 by 40, in the middle of a white frame of 100 by 100. *)
Definition studio_photo : list (list pixel) :=
  paint 100 100 (fun r c =>
    if ((30 <=? r) && (r <? 70) && (5 <=? c) && (c <? 95))%nat
    then dark else white).

Definition studio_box : bbox := (5, 30, 95, 70).

(** A detector row for a car in the box [b], with confidence 0.9. *)
Definition car_row (b : bbox) : detection :=
  let '(x1, y1, x2, y2) := b in
  {| det_x1 := inject_Z x1; det_y1 := inject_Z y1;
     det_x2 := inject_Z x2; det_y2 := inject_Z y2;
     det_conf := 0.9; det_cls := 2 |}.

(** The simple pipeline over one photo and one detector output. *)
Definition studio_v1 (img : list (list pixel)) (rows : list detection)
  : V1.collaborators :=
  {| V1.path_exists := fun _ => true;
     V1.imread := fun _ => Some img;
     V1.gray_mean := fun _ => 170%Q;
     V1.model := Some (fun _ => Ok rows);
     V1.now := "2025-01-01T12:00:00" |}.

(** A dark car filling the three lower rows of a white frame of 4 by 12. *)
Definition thumbnail : list (list pixel) :=
  paint 4 12 (fun r c => if (1 <=? r)%nat then dark else white).

Definition thumbnail_box : bbox := (0, 1, 12, 4).

(** The same car on a warm background. *)
Definition warm_thumbnail : list (list pixel) :=
  paint 4 12 (fun r c => if (1 <=? r)%nat then dark else warm).

(** The richer pipeline over one photo and one detector output. *)
Definition studio_v2 (img : list (list pixel)) (rows : list detection)
  : V2.collaborators :=
  {| V2.path_exists := fun _ => true;
     V2.imread := fun _ => Some img;
     V2.gray_mean := fun _ => 150%Q;
     V2.gray_std := fun _ => 50%Q;
     V2.laplacian_var := fun _ => 500%Q;
     V2.model := fun _ => Ok rows;
     V2.now := "2025-01-01T12:00:00" |}.

(** A vision model that answers in prose, and a parser that rejects it. *)
Definition prose_model : V3.collaborators :=
  {| V3.ask_model := fun _ => Ok "The image shows a red car.";
     V3.json_loads := fun _ => None |}.

(** ** The background, pixel by pixel *)

(** The entries of the row at the columns where [keep] holds, counting
    columns from [c]; the entries of the array at the positions where
    [keep] holds, in row-major order. *)
Fixpoint row_where {A} (keep : nat -> bool) (c : nat) (row : list A)
  : list A :=
  match row with
  | [] => []
  | px :: row' =>
      if keep c then px :: row_where keep (S c) row'
      else row_where keep (S c) row'
  end.

Fixpoint rows_where {A} (keep : nat -> nat -> bool) (r : nat)
  (a : list (list A)) : list A :=
  match a with
  | [] => []
  | row :: a' => row_where (keep r) 0 row ++ rows_where keep (S r) a'
  end.

Definition pixels_where {A} (keep : nat -> nat -> bool) (a : list (list A))
  : list A :=
  rows_where keep 0 a.

(** The pixels outside the bounding box. *)
Definition outside_box {A} (img : list (list A)) (b : bbox) : list A :=
  pixels_where (fun r c => negb (in_box img b r c)) img.

(** The pixels at whose position the mask holds [v]. *)
Definition masked {A} (img : list (list A)) (mask : list (list Z)) (v : Z)
  : list A :=
  pixels_where (fun r c => bool_decide (at2 mask r c = Some v)) img.

(** The mask has the rows and columns of the image. *)
Definition same_shape {A B} (a : list (list A)) (m : list (list B)) : Prop :=
  Forall2 (fun row mrow => length row = length mrow) a m.

(** A wall of an even light gray, 2 by 2, and the mask without a car. *)
Definition gray_wall : list (list pixel) :=
  paint 2 2 (fun _ _ => (190, 190, 190)).

Definition no_car_mask : list (list Z) := full 2 2 0.

(** ** Vocabulary of the further properties *)

(** The entries a result record of the heuristic pipelines must agree on:
    the result is one of the three verdicts, [error] comes with "Error"
    only, [failure_reasons] with "No" only, and the time stamp is there. *)
Definition coherent_record (now : string) (r : dict) : Prop :=
  (verdict r "Yes" \/ verdict r "No" \/ verdict r "Error")
  /\ (verdict r "Error" <-> is_Some (dict_get "error" r))
  /\ (verdict r "No" <-> is_Some (dict_get "failure_reasons" r))
  /\ (verdict r "Error" -> dict_get "criteria" r = None)
  /\ dict_get "timestamp" r = Some (JStr now).

(** A row the car detector accepts: class 2, confidence above 0.5. *)
Definition accepted_car (r : detection) : Prop :=
  int_of_float (det_cls r) = 2 /\ (0.5 < det_conf r)%Q.

(** The better of two rows: the later one only when strictly more
    confident. *)
Definition better (best x : detection) : detection :=
  if gt (det_conf x) (det_conf best) then x else best.

(** [r] is the first row of [rows] among the accepted ones of greatest
    confidence. *)
Definition first_best (rows : list detection) (r : detection) : Prop :=
  exists pre post,
    rows = pre ++ r :: post
    /\ accepted_car r
    /\ (forall x, x ∈ pre -> accepted_car x -> (det_conf x < det_conf r)%Q)
    /\ (forall x, x ∈ post -> accepted_car x -> (det_conf x <= det_conf r)%Q).

(** [a] goes before [b]: it is at least as confident. *)
Definition by_confidence (a b : Q * bbox) : Prop := (b.1 <= a.1)%Q.

(** The rows [get_multiple_cars] collects, in the order of the model. *)
Definition vehicles (rows : list detection) : list (Q * bbox) :=
  (fun r => (det_conf r, det_bbox r))
    <$> filter (fun r => int_of_float (det_cls r) ∈ V1.vehicle_classes
                         /\ gt (det_conf r) 0.5 = true) rows.

(** The entries of confidence [q]. *)
Definition of_confidence (q : Q) (l : list (Q * bbox)) : list (Q * bbox) :=
  filter (fun c => Qeq_bool c.1 q = true) l.

(** The four findings of the richer gate. *)
Definition low_resolution (img : list (list pixel)) : Prop :=
  (shape0 img < 200)%nat \/ (shape1 img < 200)%nat.

Definition bad_light (E : V2.collaborators) (img : list (list pixel)) : Prop :=
  (V2.gray_mean E img < 50)%Q \/ (240 < V2.gray_mean E img)%Q.

Definition low_contrast (E : V2.collaborators) (img : list (list pixel))
  : Prop :=
  (V2.gray_std E img < 20)%Q.

Definition blurry (E : V2.collaborators) (img : list (list pixel)) : Prop :=
  (V2.laplacian_var E img < 100)%Q.

(** The mask before the safety valve: 1 for a pixel that is not very
    white. *)
Definition raw_car_mask (img : list (list pixel)) (b : bbox) : list (list Z) :=
  let '(x1, y1, x2, y2) := b in
  fmap (M:=list) (fun p => if negb (V2.very_white p) then 1 else 0)
    <$> region y1 y2 x1 x2 img.

(** A string of ASCII whitespace. *)
Definition blank (s : string) : Prop :=
  Forall (fun c => is_space c = true) (chars s).

(** A byte of ASCII that is no white space. *)
Definition plain (c : ascii) : bool :=
  negb (is_space c) && (nat_of_ascii c <? 128)%nat.

(** A value that is a record, and one whose verdict is one of the three. *)
Definition is_record (v : json) : Prop := exists r, v = JObj r.

Definition has_verdict (v : json) : Prop :=
  exists r, v = JObj r
            /\ (verdict r "Yes" \/ verdict r "No" \/ verdict r "Error").

(** A record on which the console report of a batch breaks: in detailed
    mode, a "No" whose reasons cannot be iterated. *)
Definition unprintable (mode : string) (v : json) : Prop :=
  mode = "detailed"
  /\ exists r reasons,
       v = JObj r
       /\ verdict r "No"
       /\ dict_get "failure_reasons" r = Some reasons
       /\ match reasons with
          | JStr _ | JArr _ | JObj _ => False
          | _ => True
          end.

(** The results of a batch that ran through: one entry per file. *)
Definition results_of (g : string -> json) (files : list string) : dict :=
  (fun f => (f, g f)) <$> files.

(** A directory with one photo and one text file. *)
Definition sample_directory : directory :=
  {| listdir := fun _ => Ok ["car.jpg"; "notes.txt"];
     splitext := fun s => if String.eqb s "car.jpg" then ("car", ".jpg")
                          else (s, "");
     lower := fun s => s;
     path_join := fun d f => d +:+ "/" +:+ f |}.

(** A vision model whose reasons are a number. *)
Definition terse_model : V3.collaborators :=
  {| V3.ask_model := fun _ => Ok "(an answer)";
     V3.json_loads := fun _ =>
       Some (JObj [("result", JStr "No");
                   ("criteria", JObj (V3.criteria_all false));
                   ("failure_reasons", JInt 3)]) |}.

(** A value of a run in simple mode: the verdict and nothing else. *)
Definition bare_verdict (v : json) : Prop :=
  exists s, v = JObj [("result", JStr s)].

(** The number of records with the verdict [v]. *)
Definition tally (v : string) (rs : list json) : nat :=
  length (filter (fun r => V2.is_dict_with v r = true) rs).

(** Two cars and a truck, as a detector lists them. *)
Definition street : list detection :=
  [car_row studio_box;
   {| det_x1 := 0; det_y1 := 0; det_x2 := 50; det_y2 := 20;
      det_conf := 0.9; det_cls := 7 |};
   car_row thumbnail_box].


(** * Properties *)

(** ** Comparisons and quotients *)

Section Comparisons.

Implicit Types x y : Q.

Lemma ge_true x y : ge x y = true <-> (y <= x)%Q.
Proof. apply Qle_bool_iff. Qed.

Lemma le_true x y : le x y = true <-> (x <= y)%Q.
Proof. apply Qle_bool_iff. Qed.

Lemma Qle_bool_false x y : Qle_bool x y = false <-> (y < x)%Q.
Proof.
  rewrite <- not_true_iff_false, Qle_bool_iff.
  split; [apply Qnot_le_lt | apply Qlt_not_le].
Qed.

Lemma gt_true x y : gt x y = true <-> (y < x)%Q.
Proof. unfold gt. rewrite negb_true_iff. apply Qle_bool_false. Qed.

Lemma lt_true x y : lt x y = true <-> (x < y)%Q.
Proof. unfold lt. rewrite negb_true_iff. apply Qle_bool_false. Qed.

Lemma ge_false x y : ge x y = false <-> (x < y)%Q.
Proof. apply Qle_bool_false. Qed.

Lemma le_false x y : le x y = false <-> (y < x)%Q.
Proof. apply Qle_bool_false. Qed.

(** A quotient of integers against a fraction, cleared of denominators. *)
Lemma quotient_ge (a b n : Z) (d : positive) :
  0 < b ->
  ((n # d) <= inject_Z a / inject_Z b)%Q <-> n * b <= a * Z.pos d.
Proof.
  intros Hb. destruct b as [|p|p]; try lia.
  unfold Qle, Qdiv, Qmult, Qinv, inject_Z; simpl. lia.
Qed.

Lemma quotient_le (a b n : Z) (d : positive) :
  0 < b ->
  (inject_Z a / inject_Z b <= (n # d))%Q <-> a * Z.pos d <= n * b.
Proof.
  intros Hb. destruct b as [|p|p]; try lia.
  unfold Qle, Qdiv, Qmult, Qinv, inject_Z; simpl. lia.
Qed.

Lemma true_div_ok (a b : Z) :
  b <> 0 -> true_div a b = Ok (inject_Z a / inject_Z b)%Q.
Proof. intros Hb. unfold true_div. by rewrite (proj2 (Z.eqb_neq b 0) Hb). Qed.

Lemma true_div_zero (a : Z) : true_div a 0 = Raise ZeroDivisionError.
Proof. reflexivity. Qed.

End Comparisons.

(** ** Bounding boxes *)

Lemma V1_aspect_ratio_pos b :
  0 < box_height b -> V1.aspect_ratio b = box_ratio b.
Proof.
  destruct b as [[[x1 y1] x2] y2]; simpl; intros H.
  by rewrite (proj2 (Z.gtb_lt _ _)).
Qed.

Lemma V1_aspect_ratio_flat b :
  box_height b <= 0 -> V1.aspect_ratio b = 0%Q.
Proof.
  destruct b as [[[x1 y1] x2] y2]; simpl; intros H.
  destruct (Z.gtb_spec (y2 - y1) 0); [lia | done].
Qed.

Lemma V2_aspect_ratio_eq b : V2.aspect_ratio b = V1.aspect_ratio b.
Proof. by destruct b as [[[x1 y1] x2] y2]. Qed.

(** The side-view bands of the orientation classifier, as a proposition. *)
Lemma side_view_of_true (r : Q) :
  V2.side_view_of r = true <->
  (2.9 <= r)%Q \/ ((2.15 <= r)%Q /\ (r <= 2.2)%Q).
Proof.
  unfold V2.side_view_of.
  destruct (ge r 2.9) eqn:H1.
  { apply ge_true in H1. tauto. }
  apply ge_false in H1.
  destruct (ge r 2.15 && le r 2.2) eqn:H2.
  - apply andb_true_iff in H2 as [H2 H3].
    apply ge_true in H2. apply le_true in H3. tauto.
  - split; [done |]. intros [H | [H3 H4]].
    + exfalso. eapply Qlt_not_le; eauto.
    + apply ge_true in H3. apply le_true in H4.
      rewrite H3, H4 in H2. done.
Qed.

(** What [classify_orientation] returns when the side-view test fails: the
    space ratio is not touched, whatever the right edge of the box is. *)
Lemma classify_orientation_not_side (img : list (list pixel)) (b : bbox) :
  (0 < shape1 img)%nat ->
  V2.side_view_of (V2.aspect_ratio b) = false ->
  exists scores,
    V2.classify_orientation img b =
      Ok {| V2.side_view := false; V2.facing_left := false;
            V2.confidence_scores := scores |}
    /\ dict_get "left_facing_factors" scores = None.
Proof.
  intros Hw Hside. destruct b as [[[x1 y1] x2] y2].
  unfold V2.classify_orientation.
  rewrite (true_div_ok _ (Z.of_nat (shape1 img))) by lia. cbn [mbind res_bind].
  rewrite Hside. eexists; split; [reflexivity |].
  by destruct (y2 - y1 >? 0).
Qed.

(** What it returns when the side-view test passes. *)
Lemma classify_orientation_side (img : list (list pixel)) (b : bbox) :
  (0 < shape1 img)%nat ->
  Z.of_nat (shape1 img) - box_right b + 1 <> 0 ->
  V2.side_view_of (V2.aspect_ratio b) = true ->
  exists scores,
    V2.classify_orientation img b =
      Ok {| V2.side_view := true;
            V2.facing_left :=
              V2.facing_left_score
                (inject_Z ((box_left b + box_right b) / 2)
                 / inject_Z (Z.of_nat (shape1 img)))
                (inject_Z (box_left b)
                 / inject_Z (Z.of_nat (shape1 img) - box_right b + 1)) >=? 2;
            V2.confidence_scores := scores |}.
Proof.
  intros Hw Hright Hside. destruct b as [[[x1 y1] x2] y2].
  unfold V2.classify_orientation, box_right, box_left in *.
  rewrite (true_div_ok _ (Z.of_nat (shape1 img))) by lia. cbn [mbind res_bind].
  rewrite Hside. rewrite true_div_ok by lia. cbn [mbind res_bind mret res_ret].
  eexists; reflexivity.
Qed.

(** ** The facing score *)

Ltac compare_all :=
  repeat match goal with
         | H : (_ && _) = true |- _ => apply andb_true_iff in H as [? ?]
         | H : le _ _ = true |- _ => apply le_true in H
         | H : le _ _ = false |- _ => apply le_false in H
         | H : ge _ _ = true |- _ => apply ge_true in H
         | H : ge _ _ = false |- _ => apply ge_false in H
         end.

(** The bands of the space ratio exclude each other, so the chain of
    [elif]s adds exactly the terms of the specification. *)
Lemma facing_left_score_spec (rp sr : Q) :
  V2.facing_left_score rp sr = facing_score_spec rp sr.
Proof.
  unfold V2.facing_left_score, facing_score_spec, in_band.
  destruct (le 0.48 rp && le rp 0.51);
    destruct (le sr 0.15) eqn:H1;
    destruct (le 0.7 sr && le sr 1.0) eqn:H2;
    destruct (le 0.4 sr && le sr 0.69) eqn:H3;
    try reflexivity; exfalso; compare_all; lra.
Qed.

(** C5. The side-view criterion of the simple pipeline holds exactly when
    width over height of the box is at least 1.8; the one of the
    orientation-classifier pipeline holds exactly when that ratio is at
    least 2.9 or lies in the band from 2.15 to 2.2, so that every other
    ratio, the range from 2.3 to 2.7 included, is rejected. *)
Theorem side_view_thresholds (img : list (list pixel)) (b : bbox) :
  0 < box_height b ->
  (0 < shape1 img)%nat ->
  box_right b <= Z.of_nat (shape1 img) ->
  (V1.heuristic_orientation_check b = true <-> (1.8 <= box_ratio b)%Q)
  /\ exists o,
       V2.classify_orientation img b = Ok o
       /\ (V2.side_view o = true <->
           (2.9 <= box_ratio b)%Q
           \/ ((2.15 <= box_ratio b)%Q /\ (box_ratio b <= 2.2)%Q))
       /\ ((2.3 <= box_ratio b)%Q -> (box_ratio b <= 2.7)%Q ->
           V2.side_view o = false).
Proof.
  intros Hh Hw Hr. split.
  - unfold V1.heuristic_orientation_check.
    rewrite V1_aspect_ratio_pos by done. apply ge_true.
  - pose proof (side_view_of_true (V2.aspect_ratio b)) as Hband.
    destruct (V2.side_view_of (V2.aspect_ratio b)) eqn:Hside;
      rewrite V2_aspect_ratio_eq, V1_aspect_ratio_pos in Hband by done.
    + destruct (classify_orientation_side img b) as [scores Ho];
        [done | lia | done |].
      eexists; split; [exact Ho |]. simpl. split; [exact Hband |].
      intros H1 H2. destruct Hband as [Hband _].
      destruct (Hband eq_refl) as [H | [H H']]; lra.
    + destruct (classify_orientation_not_side img b) as [scores [Ho _]];
        [done | done |].
      eexists; split; [exact Ho |]. simpl. split; [exact Hband | done].
Qed.

(** C10. A box of zero height gets the aspect ratio 0 and is not a side
    view: neither side-view evaluator divides by the height. *)
Theorem zero_height_is_not_side_view (img : list (list pixel)) (x1 y x2 : Z) :
  (0 < shape1 img)%nat ->
  V1.aspect_ratio (x1, y, x2, y) = 0%Q
  /\ V1.heuristic_orientation_check (x1, y, x2, y) = false
  /\ V2.aspect_ratio (x1, y, x2, y) = 0%Q
  /\ exists scores,
       V2.classify_orientation img (x1, y, x2, y) =
         Ok {| V2.side_view := false; V2.facing_left := false;
               V2.confidence_scores := scores |}.
Proof.
  intros Hw.
  assert (Hflat : V1.aspect_ratio (x1, y, x2, y) = 0%Q)
    by (apply V1_aspect_ratio_flat; simpl; lia).
  split; [done |]. split.
  { unfold V1.heuristic_orientation_check. by rewrite Hflat. }
  split; [by rewrite V2_aspect_ratio_eq |].
  destruct (classify_orientation_not_side img (x1, y, x2, y)) as [scores [Ho _]];
    [done | by rewrite V2_aspect_ratio_eq, Hflat |].
  by exists scores.
Qed.

(** ** The size criterion *)

(** The box passes when its area is at least a quarter of the image. *)
Lemma check_size_ratio_true (b : bbox) (h w : nat) :
  V1.check_size_ratio b (h, w) = Ok true <->
  (0 < h * w)%nat /\ Z.of_nat (h * w) <= 4 * box_area b.
Proof.
  destruct b as [[[x1 y1] x2] y2].
  unfold V1.check_size_ratio, true_div, box_area. cbn [fst snd].
  destruct (Z.eqb_spec (Z.of_nat h * Z.of_nat w) 0) as [H0 | H0].
  { cbn. split; [done | nia]. }
  cbn [mbind res_bind mret res_ret].
  split.
  - intros [= H]. apply ge_true in H.
    rewrite quotient_ge in H by nia. nia.
  - intros [Hpos H]. f_equal. apply ge_true.
    rewrite quotient_ge by nia. nia.
Qed.

(** The mask passes when its car pixels are at least a fifth of it. *)
Lemma check_area_ratio_true (mask : list (list Z)) :
  V2.check_area_ratio mask = true <->
  (0 < size mask)%nat /\ (size mask <= 5 * count (fun x => x = 1%Z) mask)%nat.
Proof.
  unfold V2.check_area_ratio.
  destruct (Nat.eqb_spec (size mask) 0) as [H0 | H0].
  { split; [done | lia]. }
  rewrite ge_true, quotient_ge by lia. lia.
Qed.

(** C9. The size criterion is monotone: over the same image, a box of at
    least the area of a passing box passes, and a mask with at least the
    car pixels of a passing mask passes. *)
Theorem size_check_monotone :
  (forall (h w : nat) (b1 b2 : bbox),
      box_area b1 <= box_area b2 ->
      V1.check_size_ratio b1 (h, w) = Ok true ->
      V1.check_size_ratio b2 (h, w) = Ok true)
  /\ (forall m1 m2 : list (list Z),
         size m1 = size m2 ->
         (count (fun x => x = 1%Z) m1 <= count (fun x => x = 1%Z) m2)%nat ->
         V2.check_area_ratio m1 = true ->
         V2.check_area_ratio m2 = true).
Proof.
  split.
  - intros h w b1 b2 Harea. rewrite !check_size_ratio_true. lia.
  - intros m1 m2 Hsize Hcount. rewrite !check_area_ratio_true. lia.
Qed.

(** C4. In the orientation classifier the facing test is gated by the
    side-view test.  When the side-view test fails the result has
    [facing_left] false and carries no left-facing factors, and the space
    ratio is not computed: the call returns even where that quotient would
    divide by zero.  When the side-view test passes, [facing_left] holds
    exactly when the score of the specification is at least 2, taken at the
    relative position of the box centre and at the space ratio
    x1 / (image_width - x2 + 1). *)
Theorem facing_left_only_after_side_view (img : list (list pixel)) (b : bbox) :
  (0 < shape1 img)%nat ->
  let image_width := Z.of_nat (shape1 img) in
  let relative_position :=
    (inject_Z ((box_left b + box_right b) / 2) / inject_Z image_width)%Q in
  let space_ratio :=
    (inject_Z (box_left b) / inject_Z (image_width - box_right b + 1))%Q in
  (V2.side_view_of (V2.aspect_ratio b) = false ->
   exists scores,
     V2.classify_orientation img b =
       Ok {| V2.side_view := false; V2.facing_left := false;
             V2.confidence_scores := scores |}
     /\ dict_get "left_facing_factors" scores = None)
  /\ (V2.side_view_of (V2.aspect_ratio b) = true ->
      image_width - box_right b + 1 <> 0 ->
      exists o,
        V2.classify_orientation img b = Ok o
        /\ V2.side_view o = true
        /\ (V2.facing_left o = true <->
            2 <= facing_score_spec relative_position space_ratio))
  /\ (V2.side_view_of (V2.aspect_ratio b) = true ->
      image_width - box_right b + 1 = 0 ->
      V2.classify_orientation img b = Raise ZeroDivisionError).
Proof.
  intros Hw image_width relative_position space_ratio.
  split; [| split].
  - intros Hside. by apply classify_orientation_not_side.
  - intros Hside Hright.
    destruct (classify_orientation_side img b) as [scores Ho]; [done | done | done |].
    eexists; split; [exact Ho |]. simpl. split; [done |].
    rewrite facing_left_score_spec.
    fold image_width. fold relative_position. fold space_ratio.
    destruct (Z.geb_spec (facing_score_spec relative_position space_ratio) 2);
      split; intros; try done; lia.
  - intros Hside Hright. destruct b as [[[x1 y1] x2] y2].
    unfold V2.classify_orientation. simpl in Hright. subst image_width.
    rewrite (true_div_ok _ (Z.of_nat (shape1 img))) by lia.
    cbn [mbind res_bind]. rewrite Hside, Hright. reflexivity.
Qed.

(** ** Verdicts and criteria *)

Lemma is_bool_true b v : is_bool b v = true <-> v = JBool b.
Proof.
  destruct v; simpl; try (split; [discriminate | congruence]).
  rewrite Bool.eqb_true_iff. split; congruence.
Qed.

Lemma all_true_forallb cs :
  all_true cs <-> forallb (fun kv => is_bool true kv.2) cs = true.
Proof.
  unfold all_true. induction cs as [| kv cs IH]; simpl.
  - split; [done | constructor].
  - rewrite Forall_cons, andb_true_iff, is_bool_true, IH. done.
Qed.

Lemma some_false_existsb cs :
  some_false cs <-> existsb (fun kv => is_bool false kv.2) cs = true.
Proof.
  unfold some_false. induction cs as [| kv cs IH]; simpl.
  - rewrite Exists_nil. split; [done | discriminate].
  - rewrite Exists_cons, orb_true_iff, is_bool_true, IH. done.
Qed.

Lemma no_criteria_follows (r : dict) :
  dict_get "criteria" r = None -> verdict_follows_criteria r.
Proof. intros H cs. by rewrite H. Qed.

Lemma all_true_not_some_false cs : all_true cs -> some_false cs -> False.
Proof.
  unfold all_true, some_false. rewrite Forall_forall, Exists_exists.
  intros Hall (kv & Hin & Hkv). specialize (Hall kv Hin). congruence.
Qed.

(** It is enough to look up both entries of the record and to decide the
    criteria. *)
Lemma follows_from_lookups (r cs : dict) :
  dict_get "criteria" r = Some (JObj cs) ->
  dict_get "result" r =
    Some (JStr (if forallb (fun kv => is_bool true kv.2) cs
                then "Yes" else "No")) ->
  verdict_follows_criteria r.
Proof.
  intros Hcs Hres cs' Hcs'. rewrite Hcs in Hcs'. injection Hcs' as <-.
  unfold verdict. rewrite Hres.
  pose proof (all_true_forallb cs) as Hall.
  destruct (forallb _ cs).
  - split; [tauto |]. intros Hsome. exfalso.
    eapply all_true_not_some_false; [by apply Hall | done].
  - split; [| done]. split; [discriminate |].
    intros H. apply Hall in H. discriminate.
Qed.

Ltac criteria_cases := eapply follows_from_lookups; reflexivity.

Lemma V1_report_follows E p (is_car size_ok bg sv fl : bool) :
  verdict_follows_criteria (V1.report E p is_car size_ok bg sv fl).
Proof. destruct is_car, size_ok, bg, sv, fl; criteria_cases. Qed.

Lemma V2_report_follows E p mode q (is_car area_ok bg : bool) o :
  verdict_follows_criteria (V2.report E p mode q is_car area_ok bg o).
Proof.
  destruct o as [sv fl scores]. unfold V2.report.
  destruct (String.eqb mode "detailed");
    [| apply no_criteria_follows; by destruct is_car, area_ok, bg, sv, fl].
  destruct is_car, area_ok, bg, sv, fl; criteria_cases.
Qed.

Lemma V1_report_has_criteria E p (is_car size_ok bg sv fl : bool) :
  has_criteria (V1.report E p is_car size_ok bg sv fl).
Proof. destruct is_car, size_ok, bg, sv, fl; eexists; reflexivity. Qed.

Lemma V2_report_has_criteria E p q (is_car area_ok bg : bool) o :
  has_criteria (V2.report E p "detailed" q is_car area_ok bg o).
Proof.
  destruct o as [sv fl scores].
  destruct is_car, area_ok, bg, sv, fl; eexists; reflexivity.
Qed.

Lemma V1_verify_follows E p mode :
  verdict_follows_criteria (V1.verify_image E p mode).
Proof.
  unfold V1.verify_image, V1.verify_image_try.
  destruct (V1.path_exists E p); [| by apply no_criteria_follows].
  destruct (V1.imread E p) as [img |]; [| by apply no_criteria_follows].
  destruct (V1.validate_image_quality E img) as [[|] msg];
    [| by apply no_criteria_follows].
  cbn [negb].
  assert (Hno : verdict_follows_criteria
                  [("result", JStr "No");
                   ("criteria", JObj V1.no_car_criteria);
                   ("failure_reasons", strings ["No car detected in image"]);
                   ("timestamp", JStr (V1.now E));
                   ("model_used", JStr "yolov8n + opencv");
                   ("image_path", JStr p)]).
  { criteria_cases. }
  destruct (V1.detect_car E img) as [[|] [b |]]; try exact Hno.
  unfold V1.evaluate.
  destruct (V1.check_size_ratio b _) as [size_ok | e];
    [| by apply no_criteria_follows].
  cbn [mbind res_bind].
  destruct (V1.check_car_orientation_left b _) as [fl | e];
    [| by apply no_criteria_follows].
  apply V1_report_follows.
Qed.

Lemma V2_verify_follows E p mode :
  verdict_follows_criteria (V2.verify_image E p mode).
Proof.
  unfold V2.verify_image, V2.verify_image_try.
  destruct (V2.path_exists E p); [| by apply no_criteria_follows].
  destruct (V2.imread E p) as [img |]; [| by apply no_criteria_follows].
  destruct (V2.validate_image_quality E img) as [[[|] q] issues];
    [| by apply no_criteria_follows].
  cbn [negb].
  destruct (V2.detect_car E img) as [[found bb] | e];
    [| by apply no_criteria_follows].
  cbn [mbind res_bind].
  assert (Hno : verdict_follows_criteria
    (if String.eqb mode "detailed"
     then dict_update
            [("criteria", JObj V2.no_car_criteria);
             ("image_path", JStr p);
             ("quality_score", JFloat q)]
            [("result", JStr "No");
             ("failure_reasons", strings ["No car detected in image"]);
             ("timestamp", JStr (V2.now E));
             ("model_used", JStr "yolov8n + sam + classifier")]
     else [("result", JStr "No");
           ("failure_reasons", strings ["No car detected in image"]);
           ("timestamp", JStr (V2.now E));
           ("model_used", JStr "yolov8n + sam + classifier")])).
  { destruct (String.eqb mode "detailed");
      [criteria_cases | by apply no_criteria_follows]. }
  destruct found, bb as [b |]; try exact Hno.
  unfold V2.evaluate.
  destruct (V2.classify_orientation img b) as [o | e];
    [| by apply no_criteria_follows].
  apply V2_report_follows.
Qed.

(** ** Reaching the evaluators *)

Lemma V1_quality_shape E (img : list (list pixel)) :
  (V1.validate_image_quality E img).1 = true ->
  (100 <= shape0 img)%nat /\ (100 <= shape1 img)%nat.
Proof.
  unfold V1.validate_image_quality.
  destruct (bool_decide (shape0 img < 100)%nat) eqn:Hh;
    destruct (bool_decide (shape1 img < 100)%nat) eqn:Hw;
    cbn [orb fst]; try discriminate.
  apply bool_decide_eq_false in Hh, Hw. lia.
Qed.

(** After the quality gate of the simple pipeline no evaluator raises. *)
Lemma V1_verify_car_found E p mode img b :
  V1_car_found E p img b ->
  exists size_ok fl,
    V1.check_size_ratio b (shape0 img, shape1 img) = Ok size_ok
    /\ V1.check_car_orientation_left b (shape0 img, shape1 img) = Ok fl
    /\ V1.verify_image E p mode =
         V1.report E p true size_ok (V1.check_background_white img b)
           (V1.heuristic_orientation_check b) fl.
Proof.
  intros (Hp & Hi & Hq & Hd).
  destruct (V1_quality_shape E img Hq) as [Hh Hw].
  destruct b as [[[x1 y1] x2] y2].
  unfold V1.verify_image, V1.verify_image_try, V1.evaluate.
  rewrite Hp, Hi. cbn [negb].
  destruct (V1.validate_image_quality E img) as [v msg]. simpl in Hq. subst v.
  cbn [negb]. rewrite Hd.
  unfold V1.check_size_ratio, V1.check_car_orientation_left. cbn [fst snd].
  rewrite !true_div_ok by nia. cbn [mbind res_bind mret res_ret].
  eauto.
Qed.

Lemma V2_verify_car_found E p mode img b o :
  V2_car_found E p img b ->
  V2.classify_orientation img b = Ok o ->
  V2.verify_image E p mode =
    V2.report E p mode (V2.validate_image_quality E img).1.2 true
      (V2.check_area_ratio (V2.segment_car img b))
      (V2.check_white_background img (V2.segment_car img b)) o.
Proof.
  intros (Hp & Hi & Hq & Hd) Ho.
  unfold V2.verify_image, V2.verify_image_try, V2.evaluate.
  rewrite Hp, Hi. cbn [negb].
  destruct (V2.validate_image_quality E img) as [[v q] issues].
  simpl in Hq. subst v. cbn [negb fst snd].
  rewrite Hd. cbn [mbind res_bind]. rewrite Ho. reflexivity.
Qed.

(** ** Failure reasons *)

Lemma V1_report_reasons E p (size_ok bg sv fl : bool) :
  let r := V1.report E p true size_ok bg sv fl in
  let reasons :=
    reasons_spec [(size_ok, V1.size_reason); (bg, V1.background_reason);
                  (sv, V1.side_view_reason); (fl, V1.facing_reason)] in
  (verdict r "No" ->
   dict_get "failure_reasons" r = Some (strings reasons) /\ reasons <> [])
  /\ (verdict r "Yes" -> dict_get "failure_reasons" r = None).
Proof.
  unfold verdict.
  destruct size_ok, bg, sv, fl; cbn; split; intros H;
    try discriminate; done.
Qed.

Lemma V2_report_reasons E p mode q (area_ok bg : bool) o :
  let r := V2.report E p mode q true area_ok bg o in
  let reasons :=
    reasons_spec [(area_ok, V2.size_reason); (bg, V2.background_reason);
                  (V2.side_view o, V2.side_view_reason);
                  (V2.facing_left o, V2.facing_reason)] in
  (verdict r "No" ->
   dict_get "failure_reasons" r = Some (strings reasons) /\ reasons <> [])
  /\ (verdict r "Yes" -> dict_get "failure_reasons" r = None).
Proof.
  unfold verdict, V2.report. destruct o as [sv fl scores].
  destruct (String.eqb mode "detailed");
    destruct area_ok, bg, sv, fl; cbn; split; intros H;
    try discriminate; done.
Qed.

(** ** The verdict *)

(** C1. Once a car was found and the evaluators ran, the record carries the
    criteria, its result is "Yes" exactly when every criterion is true, and
    it is "No" as soon as one criterion is false.  The same relation holds
    for every record of either pipeline that carries criteria. *)
Theorem yes_iff_all_criteria_true :
  (forall E p mode img b,
      V1_car_found E p img b ->
      exists cs,
        dict_get "criteria" (V1.verify_image E p mode) = Some (JObj cs)
        /\ (verdict (V1.verify_image E p mode) "Yes" <-> all_true cs)
        /\ (some_false cs -> verdict (V1.verify_image E p mode) "No"))
  /\ (forall E p img b o,
         V2_car_found E p img b ->
         V2.classify_orientation img b = Ok o ->
         exists cs,
           dict_get "criteria" (V2.verify_image E p "detailed")
             = Some (JObj cs)
           /\ (verdict (V2.verify_image E p "detailed") "Yes" <-> all_true cs)
           /\ (some_false cs -> verdict (V2.verify_image E p "detailed") "No"))
  /\ (forall E p mode, verdict_follows_criteria (V1.verify_image E p mode))
  /\ (forall E p mode, verdict_follows_criteria (V2.verify_image E p mode)).
Proof.
  split; [| split; [| split]].
  - intros E p mode img b Hfound.
    destruct (V1_verify_car_found E p mode img b Hfound)
      as (size_ok & fl & _ & _ & Hr).
    assert (Hc : has_criteria (V1.verify_image E p mode)).
    { rewrite Hr. apply V1_report_has_criteria. }
    destruct Hc as [cs Hcs]. exists cs. split; [done |].
    by apply V1_verify_follows.
  - intros E p img b o Hfound Ho.
    assert (Hc : has_criteria (V2.verify_image E p "detailed")).
    { rewrite (V2_verify_car_found E p "detailed" img b o Hfound Ho).
      apply V2_report_has_criteria. }
    destruct Hc as [cs Hcs]. exists cs. split; [done |].
    by apply V2_verify_follows.
  - apply V1_verify_follows.
  - apply V2_verify_follows.
Qed.

Lemma studio_v1_car_found :
  V1_car_found (studio_v1 studio_photo [car_row studio_box]) "car.jpg"
    studio_photo studio_box.
Proof. repeat split; vm_compute; reflexivity. Qed.

Lemma studio_v2_car_found :
  V2_car_found (studio_v2 thumbnail [car_row thumbnail_box]) "car.jpg"
    thumbnail thumbnail_box.
Proof. repeat split; vm_compute; reflexivity. Qed.

Lemma yes_iff_all_criteria_true_witness :
  let r := V1.verify_image (studio_v1 studio_photo [car_row studio_box])
             "car.jpg" "detailed" in
  exists cs,
    dict_get "criteria" r = Some (JObj cs)
    /\ (verdict r "Yes" <-> all_true cs)
    /\ (some_false cs -> verdict r "No").
Proof.
  apply (proj1 yes_iff_all_criteria_true
           (studio_v1 studio_photo [car_row studio_box]) "car.jpg" "detailed"
           studio_photo studio_box).
  repeat split; vm_compute; reflexivity.
Defined.

Lemma V1_report_criteria E p (is_car size_ok bg sv fl : bool) :
  dict_get "criteria" (V1.report E p is_car size_ok bg sv fl)
  = Some (JObj [("contains_car", JBool is_car);
                ("side_view", JBool sv);
                ("white_background", JBool bg);
                ("proper_size", JBool size_ok);
                ("correct_orientation", JBool fl)]).
Proof. by destruct is_car, size_ok, bg, sv, fl. Qed.

Lemma V2_report_criteria E p q (is_car area_ok bg : bool) o :
  dict_get "criteria" (V2.report E p "detailed" q is_car area_ok bg o)
  = Some (JObj [("contains_car", JBool is_car);
                ("proper_segmentation", JBool true);
                ("white_background", JBool bg);
                ("proper_size", JBool area_ok);
                ("side_view", JBool (V2.side_view o));
                ("facing_left", JBool (V2.facing_left o))]).
Proof. destruct o as [sv fl scores]. by destruct is_car, area_ok, bg, sv, fl. Qed.

(** C2. After a completed evaluation the criteria are the outcomes of the
    four checks, and when the result is "No", [failure_reasons] holds one
    fixed sentence per failing check, in the order size, background, side
    view, facing direction, and nothing for the passing ones; the list is
    not empty. *)
Theorem failure_reasons_in_fixed_order :
  (forall E p mode img b,
      V1_car_found E p img b ->
      exists size_ok fl,
        V1.check_size_ratio b (shape0 img, shape1 img) = Ok size_ok
        /\ V1.check_car_orientation_left b (shape0 img, shape1 img) = Ok fl
        /\ dict_get "criteria" (V1.verify_image E p mode)
           = Some (JObj
               [("contains_car", JBool true);
                ("side_view", JBool (V1.heuristic_orientation_check b));
                ("white_background", JBool (V1.check_background_white img b));
                ("proper_size", JBool size_ok);
                ("correct_orientation", JBool fl)])
        /\ let reasons :=
             reasons_spec
               [(size_ok, V1.size_reason);
                (V1.check_background_white img b, V1.background_reason);
                (V1.heuristic_orientation_check b, V1.side_view_reason);
                (fl, V1.facing_reason)] in
           verdict (V1.verify_image E p mode) "No" ->
           dict_get "failure_reasons" (V1.verify_image E p mode)
             = Some (strings reasons)
           /\ reasons <> [])
  /\ (forall E p mode img b o,
         V2_car_found E p img b ->
         V2.classify_orientation img b = Ok o ->
         verdict (V2.verify_image E p mode) "No" ->
         let mask := V2.segment_car img b in
         let reasons :=
           reasons_spec
             [(V2.check_area_ratio mask, V2.size_reason);
              (V2.check_white_background img mask, V2.background_reason);
              (V2.side_view o, V2.side_view_reason);
              (V2.facing_left o, V2.facing_reason)] in
         dict_get "failure_reasons" (V2.verify_image E p mode)
           = Some (strings reasons)
         /\ reasons <> [])
  /\ (forall E p img b o,
         V2_car_found E p img b ->
         V2.classify_orientation img b = Ok o ->
         let mask := V2.segment_car img b in
         dict_get "criteria" (V2.verify_image E p "detailed")
         = Some (JObj
             [("contains_car", JBool true);
              ("proper_segmentation", JBool true);
              ("white_background",
               JBool (V2.check_white_background img mask));
              ("proper_size", JBool (V2.check_area_ratio mask));
              ("side_view", JBool (V2.side_view o));
              ("facing_left", JBool (V2.facing_left o))])).
Proof.
  split; [| split].
  - intros E p mode img b Hfound.
    destruct (V1_verify_car_found E p mode img b Hfound)
      as (size_ok & fl & Hs & Hf & Hr).
    exists size_ok, fl. split; [done |]. split; [done |].
    rewrite Hr. split; [apply V1_report_criteria |].
    apply V1_report_reasons.
  - intros E p mode img b o Hfound Ho.
    rewrite (V2_verify_car_found E p mode img b o Hfound Ho).
    apply V2_report_reasons.
  - intros E p img b o Hfound Ho.
    rewrite (V2_verify_car_found E p "detailed" img b o Hfound Ho).
    apply V2_report_criteria.
Qed.

Lemma failure_reasons_in_fixed_order_witness :
  let E := studio_v2 warm_thumbnail [car_row thumbnail_box] in
  exists o,
    V2.classify_orientation warm_thumbnail thumbnail_box = Ok o
    /\ let mask := V2.segment_car warm_thumbnail thumbnail_box in
       let reasons :=
         reasons_spec
           [(V2.check_area_ratio mask, V2.size_reason);
            (V2.check_white_background warm_thumbnail mask,
             V2.background_reason);
            (V2.side_view o, V2.side_view_reason);
            (V2.facing_left o, V2.facing_reason)] in
       dict_get "failure_reasons" (V2.verify_image E "car.jpg" "simple")
         = Some (strings reasons)
       /\ reasons <> [].
Proof.
  eexists. split; [vm_compute; reflexivity |].
  apply (proj1 (proj2 failure_reasons_in_fixed_order)
           (studio_v2 warm_thumbnail [car_row thumbnail_box]) "car.jpg"
           "simple" warm_thumbnail thumbnail_box).
  - repeat split; vm_compute; reflexivity.
  - vm_compute; reflexivity.
  - vm_compute; reflexivity.
Defined.

(** ** No detection *)

(** C3, as the code has it.  When the detector reports no car the result is
    "No" (and no error) with the single reason "No car detected in image".
    The simple pipeline attaches the criteria all the same, every one of
    them false; the richer pipeline attaches them, all false, in detailed
    mode and leaves them out in any other mode. *)
Theorem no_car_gives_no_with_reason :
  (forall E p mode img,
      V1.path_exists E p = true ->
      V1.imread E p = Some img ->
      (V1.validate_image_quality E img).1 = true ->
      no_car (V1.detect_car E img) ->
      let r := V1.verify_image E p mode in
      verdict r "No"
      /\ dict_get "failure_reasons" r
           = Some (strings ["No car detected in image"])
      /\ dict_get "error" r = None
      /\ dict_get "criteria" r
           = Some (JObj [("contains_car", JBool false);
                         ("side_view", JBool false);
                         ("white_background", JBool false);
                         ("proper_size", JBool false);
                         ("correct_orientation", JBool false)]))
  /\ (forall E p mode img d,
         V2.path_exists E p = true ->
         V2.imread E p = Some img ->
         (V2.validate_image_quality E img).1.1 = true ->
         V2.detect_car E img = Ok d ->
         no_car d ->
         let r := V2.verify_image E p mode in
         verdict r "No"
         /\ dict_get "failure_reasons" r
              = Some (strings ["No car detected in image"])
         /\ dict_get "error" r = None
         /\ dict_get "criteria" r
              = if String.eqb mode "detailed"
                then Some (JObj [("contains_car", JBool false);
                                 ("proper_segmentation", JBool false);
                                 ("white_background", JBool false);
                                 ("proper_size", JBool false);
                                 ("side_view", JBool false);
                                 ("facing_left", JBool false)])
                else None).
Proof.
  split.
  - intros E p mode img Hp Hi Hq Hno.
    unfold V1.verify_image, V1.verify_image_try.
    rewrite Hp, Hi. cbn [negb].
    destruct (V1.validate_image_quality E img) as [v msg]. simpl in Hq. subst v.
    cbn [negb].
    destruct (V1.detect_car E img) as [[|] [b |]];
      try (repeat split; reflexivity).
    destruct Hno as [Hno | Hno]; discriminate Hno.
  - intros E p mode img d Hp Hi Hq Hd Hno.
    unfold V2.verify_image, V2.verify_image_try.
    rewrite Hp, Hi. cbn [negb].
    destruct (V2.validate_image_quality E img) as [[v q] issues].
    simpl in Hq. subst v. cbn [negb].
    rewrite Hd. cbn [mbind res_bind].
    destruct d as [[|] [b |]];
      try (destruct (String.eqb mode "detailed"); repeat split; reflexivity).
    destruct Hno as [Hno | Hno]; discriminate Hno.
Qed.

Lemma no_car_gives_no_with_reason_witness :
  let r := V1.verify_image (studio_v1 studio_photo []) "car.jpg" "detailed" in
  verdict r "No"
  /\ dict_get "failure_reasons" r = Some (strings ["No car detected in image"])
  /\ dict_get "error" r = None
  /\ dict_get "criteria" r
       = Some (JObj [("contains_car", JBool false);
                     ("side_view", JBool false);
                     ("white_background", JBool false);
                     ("proper_size", JBool false);
                     ("correct_orientation", JBool false)]).
Proof.
  apply (proj1 no_car_gives_no_with_reason
           (studio_v1 studio_photo []) "car.jpg" "detailed" studio_photo).
  - reflexivity.
  - reflexivity.
  - vm_compute; reflexivity.
  - left. vm_compute; reflexivity.
Defined.

(** The detector finds nothing in the photo, the simple pipeline answers
    "No", and the record it returns does carry criteria. *)
Lemma no_car_result_carries_criteria :
  let E := studio_v1 studio_photo [] in
  let r := V1.verify_image E "car.jpg" "detailed" in
  V1.detect_car E studio_photo = (false, None)
  /\ verdict r "No"
  /\ dict_get "criteria" r = Some (JObj V1.no_car_criteria)
  /\ dict_get "criteria" r <> None.
Proof. repeat split; try (vm_compute; reflexivity). discriminate. Qed.

(** ** The vision-model adapter *)

(** C8, as the code has it.  When the answer of the model does not parse as
    JSON, the adapter returns (it does not raise) the record with result
    "No", the five criteria false, the single reason
    "Failed to parse GPT response" and the error "JSON parsing failed". *)
Theorem parse_failure_gives_fallback (E : V3.collaborators)
  (p content : string) :
  V3.ask_model E p = Ok content ->
  V3.json_loads E (V3.clean content) = None ->
  exists r,
    V3.check_car_image E p = Ok (JObj r)
    /\ verdict r "No"
    /\ dict_get "criteria" r
         = Some (JObj [("contains_car", JBool false);
                       ("side_view", JBool false);
                       ("white_background", JBool false);
                       ("proper_size", JBool false);
                       ("correct_orientation", JBool false)])
    /\ dict_get "failure_reasons" r
         = Some (strings ["Failed to parse GPT response"])
    /\ dict_get "error" r = Some (JStr "JSON parsing failed").
Proof.
  intros Hask Hparse. unfold V3.check_car_image.
  rewrite Hask. cbn [mbind res_bind]. rewrite Hparse.
  eexists. split; [reflexivity |]. repeat split; reflexivity.
Qed.

Lemma parse_failure_gives_fallback_witness :
  exists r,
    V3.check_car_image prose_model "car.jpg" = Ok (JObj r)
    /\ verdict r "No"
    /\ dict_get "criteria" r
         = Some (JObj [("contains_car", JBool false);
                       ("side_view", JBool false);
                       ("white_background", JBool false);
                       ("proper_size", JBool false);
                       ("correct_orientation", JBool false)])
    /\ dict_get "failure_reasons" r
         = Some (strings ["Failed to parse GPT response"])
    /\ dict_get "error" r = Some (JStr "JSON parsing failed").
Proof.
  apply (parse_failure_gives_fallback prose_model "car.jpg"
           "The image shows a red car."); reflexivity.
Defined.

(** The answer is prose, parsing fails, and the reason the adapter gives is
    not "Failed to parse model response". *)
Lemma parse_failure_reason_is_not_generic :
  V3.json_loads prose_model (V3.clean "The image shows a red car.") = None
  /\ exists r,
       V3.check_car_image prose_model "car.jpg" = Ok (JObj r)
       /\ dict_get "failure_reasons" r
            = Some (strings ["Failed to parse GPT response"])
       /\ dict_get "failure_reasons" r
            <> Some (strings ["Failed to parse model response"]).
Proof.
  split; [reflexivity |]. eexists. split; [reflexivity |].
  split; [reflexivity | discriminate].
Qed.

(** ** Sample runs of the geometric criteria *)

Lemma side_view_thresholds_witness :
  (V1.heuristic_orientation_check thumbnail_box = true
   <-> (1.8 <= box_ratio thumbnail_box)%Q)
  /\ exists o,
       V2.classify_orientation thumbnail thumbnail_box = Ok o
       /\ (V2.side_view o = true <->
           (2.9 <= box_ratio thumbnail_box)%Q
           \/ ((2.15 <= box_ratio thumbnail_box)%Q
               /\ (box_ratio thumbnail_box <= 2.2)%Q))
       /\ ((2.3 <= box_ratio thumbnail_box)%Q ->
           (box_ratio thumbnail_box <= 2.7)%Q ->
           V2.side_view o = false).
Proof.
  apply (side_view_thresholds thumbnail thumbnail_box).
  - reflexivity.
  - vm_compute; lia.
  - vm_compute; discriminate.
Defined.

Lemma zero_height_is_not_side_view_witness :
  V1.aspect_ratio (2, 3, 9, 3) = 0%Q
  /\ V1.heuristic_orientation_check (2, 3, 9, 3) = false
  /\ V2.aspect_ratio (2, 3, 9, 3) = 0%Q
  /\ exists scores,
       V2.classify_orientation thumbnail (2, 3, 9, 3) =
         Ok {| V2.side_view := false; V2.facing_left := false;
               V2.confidence_scores := scores |}.
Proof.
  apply (zero_height_is_not_side_view thumbnail 2 3 9). vm_compute; lia.
Defined.

Lemma size_check_monotone_witness :
  V1.check_size_ratio (0, 0, 60, 50) (100, 100)%nat = Ok true
  /\ V2.check_area_ratio [[1; 1; 0]; [1; 0; 0]] = true.
Proof.
  split.
  - apply (proj1 size_check_monotone 100%nat 100%nat (0, 0, 50, 50)
             (0, 0, 60, 50)); [vm_compute; discriminate | reflexivity].
  - apply (proj2 size_check_monotone [[1; 0; 0]; [1; 0; 0]]
             [[1; 1; 0]; [1; 0; 0]]);
      [reflexivity | vm_compute; lia | reflexivity].
Defined.

Lemma facing_left_only_after_side_view_witness :
  exists o,
    V2.classify_orientation thumbnail thumbnail_box = Ok o
    /\ V2.side_view o = true
    /\ (V2.facing_left o = true <->
        2 <= facing_score_spec (inject_Z ((0 + 12) / 2) / inject_Z 12)
               (inject_Z 0 / inject_Z (12 - 12 + 1))).
Proof.
  apply (proj1 (proj2 (facing_left_only_after_side_view thumbnail
                         thumbnail_box ltac:(vm_compute; lia)))).
  - reflexivity.
  - vm_compute; discriminate.
Defined.

(** ** Slices *)

Section Slices.

Context {A : Type}.
Implicit Types l vals : list A.

Lemma slice_index_le (n : nat) (i : Z) : (slice_index n i <= n)%nat.
Proof. unfold slice_index. destruct (Z.ltb_spec i 0); lia. Qed.

(** Inside the sequence a bound denotes itself. *)
Lemma slice_index_inside (n : nat) (i : Z) :
  0 <= i <= Z.of_nat n -> slice_index n i = Z.to_nat i.
Proof. intros H. unfold slice_index. destruct (Z.ltb_spec i 0); lia. Qed.

Lemma length_slice (a b : Z) l :
  length (slice a b l)
  = (slice_index (length l) b - slice_index (length l) a)%nat.
Proof.
  unfold slice. rewrite length_take, length_drop.
  pose proof (slice_index_le (length l) b). lia.
Qed.

Lemma lookup_slice (a b : Z) l (i : nat) :
  slice a b l !! i =
    if decide (i < slice_index (length l) b - slice_index (length l) a)%nat
    then l !! (slice_index (length l) a + i)%nat
    else None.
Proof. unfold slice. by rewrite lookup_take, lookup_drop. Qed.

Lemma in_slice_true (n : nat) (a b : Z) (i : nat) :
  in_slice n a b i = true <->
  (slice_index n a <= i < slice_index n b)%nat.
Proof.
  unfold in_slice.
  rewrite andb_true_iff, !bool_decide_eq_true. done.
Qed.

(** Reading a sequence after a slice assignment. *)
Lemma lookup_set_slice (a b : Z) vals l (i : nat) :
  length vals = (slice_index (length l) b - slice_index (length l) a)%nat ->
  set_slice a b vals l !! i =
    if in_slice (length l) a b i
    then vals !! (i - slice_index (length l) a)%nat
    else l !! i.
Proof.
  intros Hlen. unfold set_slice.
  set (lo := slice_index (length l) a) in *.
  set (hi := slice_index (length l) b) in *.
  pose proof (slice_index_le (length l) a) as Hlo. fold lo in Hlo.
  assert (Htake : length (take lo l) = lo) by (rewrite length_take; lia).
  destruct (in_slice (length l) a b i) eqn:Hin.
  - apply in_slice_true in Hin. fold lo hi in Hin.
    rewrite lookup_app_r by lia. rewrite Htake.
    rewrite lookup_app_l by lia. done.
  - assert (Hout : (i < lo \/ (lo <= i /\ hi <= i))%nat).
    { destruct (decide (i < lo)%nat); [by left | right].
      split; [lia |].
      destruct (decide (hi <= i)%nat); [done |].
      assert (in_slice (length l) a b i = true)
        by (apply in_slice_true; fold lo hi; lia).
      congruence. }
    destruct Hout as [Hout | [Hout1 Hout2]].
    + rewrite lookup_app_l by lia.
      rewrite lookup_take. by destruct (decide (i < lo)%nat).
    + rewrite lookup_app_r by lia. rewrite Htake.
      rewrite lookup_app_r by lia. rewrite lookup_drop. f_equal. lia.
Qed.

Lemma length_set_slice (a b : Z) vals l :
  length vals = (slice_index (length l) b - slice_index (length l) a)%nat ->
  length (set_slice a b vals l) = length l.
Proof.
  intros Hlen. unfold set_slice.
  pose proof (slice_index_le (length l) a).
  pose proof (slice_index_le (length l) b).
  rewrite !length_app, length_take, length_drop. lia.
Qed.

End Slices.

(** ** Regions of arrays *)

Section Regions.

Context {A : Type}.
Implicit Types a blk : list (list A).

Lemma rectangular_lookup a (r : nat) (row : list A) :
  rectangular a -> a !! r = Some row -> length row = shape1 a.
Proof.
  unfold rectangular. rewrite Forall_lookup. intros Hrect Hrow.
  exact (Hrect r row Hrow).
Qed.

Lemma lookup_region (y1 y2 x1 x2 : Z) a (i : nat) :
  region y1 y2 x1 x2 a !! i =
    if decide (i < slice_index (length a) y2 - slice_index (length a) y1)%nat
    then slice x1 x2 <$> a !! (slice_index (length a) y1 + i)%nat
    else None.
Proof.
  unfold region. rewrite list_lookup_fmap, lookup_slice.
  by destruct (decide _).
Qed.

Lemma length_region (y1 y2 x1 x2 : Z) a :
  length (region y1 y2 x1 x2 a)
  = (slice_index (length a) y2 - slice_index (length a) y1)%nat.
Proof. unfold region. by rewrite length_fmap, length_slice. Qed.

(** Reading a row after a region assignment. *)
Lemma lookup_set_region (y1 y2 x1 x2 : Z) blk a (r : nat) :
  length blk
  = (slice_index (length a) y2 - slice_index (length a) y1)%nat ->
  set_region y1 y2 x1 x2 blk a !! r =
    if in_slice (length a) y1 y2 r
    then brow ← blk !! (r - slice_index (length a) y1)%nat;
         row ← a !! r;
         Some (set_slice x1 x2 brow row)
    else a !! r.
Proof.
  intros Hlen. unfold set_region.
  rewrite lookup_set_slice
    by (rewrite length_zip_with, length_slice; lia).
  destruct (in_slice (length a) y1 y2 r) eqn:Hin; [| done].
  apply in_slice_true in Hin.
  rewrite lookup_zip_with, lookup_slice.
  destruct (decide _) as [_ | Hn]; [| lia].
  by replace (slice_index (length a) y1 + (r - slice_index (length a) y1))%nat
    with r by lia.
Qed.

End Regions.

Lemma concat_fmap_fmap {A B} (f : A -> B) (g : list (list A)) :
  concat (fmap (M:=list) f <$> g) = f <$> concat g.
Proof.
  induction g as [| row g IH]; [done |].
  cbn [fmap list_fmap concat]. rewrite fmap_app. f_equal. exact IH.
Qed.

Lemma length_filter_fmap {A B} (P : B -> Prop) `{!forall y, Decision (P y)}
  (f : A -> B) (l : list A) :
  length (filter P (f <$> l)) = length (filter (fun x => P (f x)) l).
Proof.
  induction l as [| x l IH]; [done |].
  cbn [fmap list_fmap]. rewrite !filter_cons.
  destruct (decide (P (f x))); simpl; by rewrite IH.
Qed.

Lemma length_filter_split {A} (P : A -> Prop) `{!forall x, Decision (P x)}
  (l : list A) :
  (length (filter P l) + length (filter (fun x => ~ P x) l) = length l)%nat.
Proof.
  induction l as [| x l IH]; [done |].
  rewrite !filter_cons.
  destruct (decide (P x)), (decide (~ P x)); simpl; try tauto; lia.
Qed.

Lemma length_filter_ext {A} (P Q : A -> Prop) `{!forall x, Decision (P x)}
  `{!forall x, Decision (Q x)} (l : list A) :
  (forall x, P x <-> Q x) ->
  length (filter P l) = length (filter Q l).
Proof.
  intros HPQ. induction l as [| x l IH]; [done |].
  rewrite !filter_cons.
  destruct (decide (P x)), (decide (Q x)); simpl; try (by rewrite IH);
    exfalso; destruct (HPQ x); tauto.
Qed.

(** ** The default segmentation *)

Lemma very_white_true (p : pixel) :
  V2.very_white p = true <-> 240 <= p.1.1 /\ 240 <= p.1.2 /\ 240 <= p.2.
Proof.
  unfold V2.very_white, channels. cbn [forallb].
  rewrite !andb_true_iff, !Z.geb_le. tauto.
Qed.

(** For a box within the image the slices are the coordinate ranges. *)
Lemma in_box_inside (img : list (list pixel)) (x1 y1 x2 y2 : Z) (r c : nat) :
  0 <= x1 <= Z.of_nat (shape1 img) ->
  0 <= x2 <= Z.of_nat (shape1 img) ->
  0 <= y1 <= Z.of_nat (shape0 img) ->
  0 <= y2 <= Z.of_nat (shape0 img) ->
  in_box img (x1, y1, x2, y2) r c = true <->
  y1 <= Z.of_nat r < y2 /\ x1 <= Z.of_nat c < x2.
Proof.
  intros Hx1 Hx2 Hy1 Hy2. unfold in_box.
  rewrite andb_true_iff, !in_slice_true.
  rewrite !slice_index_inside by done. lia.
Qed.

(** The safety valve of [segment_car] fires exactly on over-exclusion. *)
Lemma safety_valve (img : list (list pixel)) (b : bbox) :
  let '(x1, y1, x2, y2) := b in
  let car_mask : list (list Z) :=
    fmap (M:=list) (fun p => if negb (V2.very_white p) then 1 else 0)
      <$> region y1 y2 x1 x2 img in
  lt (inject_Z (Z.of_nat (count (fun x => 0 < x) car_mask)))
     (inject_Z (Z.of_nat (size car_mask)) * 0.6)%Q
  = over_excluded img b.
Proof.
  destruct b as [[[x1 y1] x2] y2]. cbv zeta.
  unfold over_excluded, excluded, box_pixels, count, size, ravel.
  rewrite concat_fmap_fmap, length_fmap, length_filter_fmap.
  set (ps := concat (region y1 y2 x1 x2 img)).
  pose proof (length_filter_split (fun p => V2.very_white p = true) ps) as Hsplit.
  rewrite (length_filter_ext
             (fun p => 0 < (if negb (V2.very_white p) then 1 else 0))
             (fun p => ~ V2.very_white p = true)).
  2: { intros p. destruct (V2.very_white p); simpl; split; intros; try lia; done. }
  set (car := length (filter (fun p => ~ V2.very_white p = true) ps)) in *.
  set (ex := length (filter (fun p => V2.very_white p = true) ps)) in *.
  apply eq_true_iff_eq. rewrite lt_true, bool_decide_eq_true.
  unfold Qlt. simpl. lia.
Qed.

(** C7. The default segmentation gives every position of the image a
    label.  Outside the bounding box the label is 0.  Inside it the label
    is 1 except for the pixels that are at least 240 in every channel,
    which get 0, unless that exclusion removes more than 40% of the pixels
    of the box: then every position of the box gets 1. *)
Theorem segmentation_is_box_minus_white (img : list (list pixel)) (b : bbox)
  (r c : nat) (px : pixel) :
  rectangular img ->
  at2 img r c = Some px ->
  at2 (V2.segment_car img b) r c =
    Some (if in_box img b r c
          then if over_excluded img b then 1
               else if V2.very_white px then 0 else 1
          else 0)
  /\ (V2.very_white px = true
      <-> 240 <= px.1.1 /\ 240 <= px.1.2 /\ 240 <= px.2).
Proof.
  intros Hrect Hpx. split; [| apply very_white_true].
  pose proof (safety_valve img b) as Hvalve.
  destruct b as [[[x1 y1] x2] y2]. cbv zeta in Hvalve.
  unfold V2.segment_car. rewrite Hvalve. clear Hvalve.
  unfold at2 in *.
  destruct (img !! r) as [row |] eqn:Hrow; [| done]. simpl in Hpx.
  assert (Hr : (r < length img)%nat) by (by eapply lookup_lt_Some).
  assert (Hc : (c < length row)%nat) by (by eapply lookup_lt_Some).
  assert (Hw : length row = shape1 img) by (by eapply rectangular_lookup).
  set (f := fun p : pixel => if negb (V2.very_white p) then 1 else 0).
  set (car_mask := fmap (M:=list) f <$> region y1 y2 x1 x2 img).
  set (blk := if over_excluded img (x1, y1, x2, y2)
              then full_like car_mask 1 else car_mask).
  assert (Hmask : full (shape0 img) (shape1 img) 0 !! r
                  = Some (replicate (shape1 img) 0)).
  { unfold full. apply lookup_replicate. done. }
  assert (Hfull : length (full (shape0 img) (shape1 img) 0) = length img).
  { unfold full. by rewrite length_replicate. }
  assert (Hblk : length blk
                 = (slice_index (length img) y2 - slice_index (length img) y1)%nat).
  { unfold blk, car_mask, full_like.
    destruct (over_excluded _ _); by rewrite !length_fmap, length_region. }
  rewrite lookup_set_region by (by rewrite Hfull).
  rewrite Hfull, Hmask. unfold in_box, shape0.
  destruct (in_slice (length img) y1 y2 r) eqn:Hiny; cbn [andb].
  2: { simpl. rewrite lookup_replicate_2 by lia. done. }
  apply in_slice_true in Hiny.
  assert (Hreg : region y1 y2 x1 x2 img !! (r - slice_index (length img) y1)%nat
                 = Some (slice x1 x2 row)).
  { rewrite lookup_region. destruct (decide _) as [_ | Hn]; [| lia].
    replace (slice_index (length img) y1 + (r - slice_index (length img) y1))%nat
      with r by lia.
    by rewrite Hrow. }
  assert (Hbrow : blk !! (r - slice_index (length img) y1)%nat
                  = Some (if over_excluded img (x1, y1, x2, y2)
                          then replicate (length (slice x1 x2 row)) 1
                          else f <$> slice x1 x2 row)).
  { unfold blk, car_mask, full_like.
    destruct (over_excluded _ _);
      rewrite !list_lookup_fmap, Hreg; simpl; by rewrite ?length_fmap. }
  rewrite Hbrow. simpl.
  rewrite lookup_set_slice.
  2: { rewrite length_replicate.
       destruct (over_excluded _ _);
         rewrite ?length_replicate, ?length_fmap, length_slice; by rewrite Hw. }
  rewrite length_replicate.
  destruct (in_slice (shape1 img) x1 x2 c) eqn:Hinx.
  2: { rewrite lookup_replicate_2 by lia. done. }
  apply in_slice_true in Hinx.
  destruct (over_excluded _ _).
  - rewrite lookup_replicate_2; [done |].
    rewrite length_slice, Hw. lia.
  - rewrite list_lookup_fmap, lookup_slice, Hw.
    destruct (decide _) as [_ | Hn]; [| lia].
    replace (slice_index (shape1 img) x1 + (c - slice_index (shape1 img) x1))%nat
      with c by lia.
    rewrite Hpx. simpl. unfold f. by destruct (V2.very_white px).
Qed.

Lemma segmentation_is_box_minus_white_witness :
  at2 (V2.segment_car thumbnail thumbnail_box) 2 5 =
    Some (if in_box thumbnail thumbnail_box 2 5
          then if over_excluded thumbnail thumbnail_box then 1
               else if V2.very_white dark then 0 else 1
          else 0)
  /\ (V2.very_white dark = true
      <-> 240 <= dark.1.1 /\ 240 <= dark.1.2 /\ 240 <= dark.2).
Proof.
  apply (segmentation_is_box_minus_white thumbnail thumbnail_box 2 5 dark).
  - unfold rectangular. repeat constructor.
  - reflexivity.
Defined.

(** ** Background whiteness *)

Lemma spread_of_three (a b c t : Q) :
  (Qmax (Qmax a b) c - Qmin (Qmin a b) c < t)%Q <->
  ((a - a < t /\ a - b < t /\ a - c < t)
   /\ (b - a < t /\ b - b < t /\ b - c < t)
   /\ (c - a < t /\ c - b < t /\ c - c < t))%Q.
Proof.
  destruct (Q.max_spec a b) as [[H1 E1] | [H1 E1]];
    destruct (Q.max_spec (Qmax a b) c) as [[H2 E2] | [H2 E2]];
    destruct (Q.min_spec a b) as [[H3 E3] | [H3 E3]];
    destruct (Q.min_spec (Qmin a b) c) as [[H4 E4] | [H4 E4]];
    rewrite E2, E4; rewrite ?E1, ?E3 in *;
    split; intros; repeat split; lra.
Qed.

Lemma exceeds_forallb (t : Q) (ps : list pixel) :
  forallb (fun a => gt a t) (mean_axis0 ps) = true <-> exceeds t ps.
Proof.
  unfold exceeds, mean_axis0. cbn [forallb].
  rewrite !andb_true_iff, !gt_true, !Forall_cons, Forall_nil. tauto.
Qed.

Lemma balanced_lt (t : Q) (ps : list pixel) :
  lt (max_of (mean_axis0 ps) - min_of (mean_axis0 ps))%Q t = true
  <-> balanced t ps.
Proof.
  unfold balanced, mean_axis0, max_of, min_of. cbn [foldl].
  rewrite lt_true, spread_of_three, !Forall_cons, !Forall_nil. tauto.
Qed.

Lemma exceeds_weaken (t t' : Q) (ps : list pixel) :
  (t' <= t)%Q -> exceeds t ps -> exceeds t' ps.
Proof.
  unfold exceeds. intros Ht Hall. eapply Forall_impl; [exact Hall |].
  intros m Hm. simpl in Hm. eapply Qle_lt_trans; eauto.
Qed.

Lemma V1_check_background_white_true (img : list (list pixel)) (b : bbox) :
  V1.check_background_white img b = true <->
  V1.bg_pixels img b <> [] /\ exceeds 180 (V1.bg_pixels img b).
Proof.
  unfold V1.check_background_white.
  destruct (V1.bg_pixels img b) as [| p ps] eqn:Hbg.
  { simpl. split; [discriminate | by intros [? _]]. }
  cbn [length Nat.eqb]. rewrite exceeds_forallb. split; [done | tauto].
Qed.

Lemma V2_check_white_background_true (img : list (list pixel))
  (mask : list (list Z)) :
  V2.check_white_background img mask = true <->
  select img mask 0 <> []
  /\ exceeds 200 (select img mask 0)
  /\ balanced 20 (select img mask 0).
Proof.
  unfold V2.check_white_background.
  destruct (select img mask 0) as [| p ps] eqn:Hbg.
  { simpl. split; [discriminate | by intros [? _]]. }
  cbn [length Nat.eqb].
  rewrite andb_true_iff, exceeds_forallb, balanced_lt. split; [done | tauto].
Qed.

(** The mask of the simple pipeline is 0 in the box and 1 outside it. *)
Lemma V1_background_mask_at {A} (img : list (list A)) (b : bbox)
  (r c : nat) (px : A) :
  rectangular img ->
  at2 img r c = Some px ->
  at2 (V1.background_mask img b) r c
  = Some (if in_box img b r c then 0 else 1).
Proof.
  intros Hrect Hpx. destruct b as [[[x1 y1] x2] y2].
  unfold V1.background_mask, fill_region, at2 in *.
  destruct (img !! r) as [row |] eqn:Hrow; [| done]. simpl in Hpx.
  assert (Hr : (r < length img)%nat) by (by eapply lookup_lt_Some).
  assert (Hc : (c < length row)%nat) by (by eapply lookup_lt_Some).
  assert (Hw : length row = shape1 img) by (by eapply rectangular_lookup).
  set (mask := full (shape0 img) (shape1 img) 1).
  assert (Hmask : forall i, (i < length img)%nat ->
                            mask !! i = Some (replicate (shape1 img) 1)).
  { intros i Hi. unfold mask, full. apply lookup_replicate. done. }
  assert (Hfull : length mask = length img).
  { unfold mask, full. by rewrite length_replicate. }
  rewrite lookup_set_region
    by (unfold full_like; by rewrite length_fmap, length_region).
  rewrite Hfull, Hmask by done. unfold in_box, shape0.
  destruct (in_slice (length img) y1 y2 r) eqn:Hiny; cbn [andb].
  2: { simpl. rewrite lookup_replicate_2 by lia. done. }
  apply in_slice_true in Hiny.
  unfold full_like. rewrite list_lookup_fmap, lookup_region, Hfull.
  destruct (decide _) as [_ | Hn]; [| lia].
  rewrite Hmask by lia. simpl.
  rewrite lookup_set_slice
    by (by rewrite length_replicate, length_slice).
  rewrite length_replicate.
  destruct (in_slice (shape1 img) x1 x2 c) eqn:Hinx.
  - apply in_slice_true in Hinx.
    rewrite lookup_replicate_2; [done |].
    rewrite length_slice, length_replicate. lia.
  - rewrite lookup_replicate_2 by lia. done.
Qed.

Lemma V1_check_background_white_gray_true (img : list (list Z)) (b : bbox) :
  V1.check_background_white_gray img b = true <->
  V1.bg_pixels img b <> [] /\ (180 < mean (V1.bg_pixels img b))%Q.
Proof.
  unfold V1.check_background_white_gray.
  destruct (V1.bg_pixels img b) as [| p ps] eqn:Hbg.
  { simpl. split; [discriminate | by intros [? _]]. }
  cbn [length Nat.eqb]. rewrite gt_true. split; [done | tauto].
Qed.

(** ** Sample runs of the pipelines *)

(** The studio photo passes every check of the simple pipeline. *)
Example studio_photo_is_accepted :
  verdict (V1.verify_image (studio_v1 studio_photo [car_row studio_box])
             "car.jpg" "detailed") "Yes".
Proof. vm_compute. reflexivity. Qed.

(** A detection that covers 3% of the frame fails on size alone. *)
Example small_box_fails_on_size_only :
  let r := V1.verify_image
             (studio_v1 studio_photo [car_row (35, 40, 65, 50)])
             "car.jpg" "detailed" in
  verdict r "No"
  /\ dict_get "failure_reasons" r = Some (strings [V1.size_reason]).
Proof. split; vm_compute; reflexivity. Qed.

(** The thumbnail passes every check of the richer pipeline. *)
Example thumbnail_is_accepted :
  verdict (V2.verify_image (studio_v2 thumbnail [car_row thumbnail_box])
             "car.jpg" "detailed") "Yes".
Proof. vm_compute. reflexivity. Qed.

(** On the warm background the brightness bound holds and the balance
    fails: the richer pipeline rejects the photo for its background only. *)
Example warm_background_is_rejected :
  let mask := V2.segment_car warm_thumbnail thumbnail_box in
  let r := V2.verify_image (studio_v2 warm_thumbnail [car_row thumbnail_box])
             "car.jpg" "detailed" in
  exceeds 200 (select warm_thumbnail mask 0)
  /\ V2.check_white_background warm_thumbnail mask = false
  /\ dict_get "failure_reasons" r = Some (strings [V2.background_reason]).
Proof.
  split; [| split; vm_compute; reflexivity].
  unfold exceeds. vm_compute mean_axis0. repeat constructor.
Qed.

(** Without a detection the richer pipeline, in simple mode, returns no
    criteria. *)
Example no_car_simple_mode_has_no_criteria :
  let r := V2.verify_image (studio_v2 thumbnail []) "car.jpg" "simple" in
  verdict r "No" /\ dict_get "criteria" r = None.
Proof. split; vm_compute; reflexivity. Qed.

(** An answer that parses but has no criteria is completed by the adapter. *)
Example bare_verdict_is_completed :
  let E := {| V3.ask_model := fun _ => Ok "(a bare verdict)";
              V3.json_loads := fun _ => Some (JObj [("result", JStr "No")]) |} in
  V3.check_car_image E "car.jpg" =
    Ok (JObj [("result", JStr "No");
              ("criteria", JObj (V3.criteria_all false));
              ("failure_reasons",
               strings ["Detailed analysis not available"])]).
Proof. reflexivity. Qed.

(** * Further properties of the code *)

(** ** The shape of the result records *)

Lemma coherent_from_lookups (now : string) (r : dict) (v : string) :
  dict_get "result" r = Some (JStr v) ->
  (String.eqb v "Yes" || String.eqb v "No" || String.eqb v "Error") = true ->
  bool_decide (is_Some (dict_get "error" r)) = String.eqb v "Error" ->
  bool_decide (is_Some (dict_get "failure_reasons" r)) = String.eqb v "No" ->
  (String.eqb v "Error" = true -> dict_get "criteria" r = None) ->
  dict_get "timestamp" r = Some (JStr now) ->
  coherent_record now r.
Proof.
  intros Hres Hv Herr Hreasons Hcrit Hts. unfold coherent_record, verdict.
  rewrite Hres.
  assert (Heq : forall s, Some (JStr v) = Some (JStr s) <-> String.eqb v s = true).
  { intros s. rewrite String.eqb_eq. split; [by intros [= ->] | by intros ->]. }
  rewrite !Heq. repeat match goal with |- _ /\ _ => split end.
  - rewrite !orb_true_iff in Hv. tauto.
  - rewrite <- Herr, bool_decide_eq_true. done.
  - rewrite <- Hreasons, bool_decide_eq_true. done.
  - exact Hcrit.
  - exact Hts.
Qed.

Ltac coherent_cases :=
  eapply coherent_from_lookups;
  [reflexivity | reflexivity | reflexivity | reflexivity
  | first [discriminate | reflexivity | (intros _; reflexivity)]
  | reflexivity].

Lemma V1_report_coherent E p (is_car size_ok bg sv fl : bool) :
  coherent_record (V1.now E) (V1.report E p is_car size_ok bg sv fl).
Proof. destruct is_car, size_ok, bg, sv, fl; coherent_cases. Qed.

Lemma V2_report_coherent E p mode q (is_car area_ok bg : bool) o :
  coherent_record (V2.now E) (V2.report E p mode q is_car area_ok bg o).
Proof.
  destruct o as [sv fl scores]. unfold V2.report.
  destruct (String.eqb mode "detailed");
    destruct is_car, area_ok, bg, sv, fl; coherent_cases.
Qed.

(** After its quality gate the simple pipeline divides by nothing that can
    be zero: the body of [verify_image] returns, and the handler of the
    [try] block is never entered. *)
Lemma V1_verify_image_try_returns E p mode :
  V1.verify_image_try E p mode = Ok (V1.verify_image E p mode).
Proof.
  unfold V1.verify_image.
  destruct (V1.verify_image_try E p mode) as [r | e] eqn:Htry; [done |].
  exfalso. revert Htry. unfold V1.verify_image_try.
  destruct (V1.path_exists E p); [| discriminate].
  destruct (V1.imread E p) as [img |]; [| discriminate].
  pose proof (V1_quality_shape E img) as Hshape.
  destruct (V1.validate_image_quality E img) as [[|] msg]; [| discriminate].
  destruct (Hshape eq_refl) as [Hh Hw]. cbn [negb].
  destruct (V1.detect_car E img) as [[|] [b |]]; try discriminate.
  destruct b as [[[x1 y1] x2] y2].
  unfold V1.evaluate, V1.check_size_ratio, V1.check_car_orientation_left.
  cbn [fst snd]. rewrite !true_div_ok by nia. discriminate.
Qed.

(** The record of the simple pipeline after a detection. *)
Lemma V1_verify_image_found E p mode img b :
  V1.path_exists E p = true ->
  V1.imread E p = Some img ->
  (V1.validate_image_quality E img).1 = true ->
  V1.detect_car E img = (true, Some b) ->
  exists size_ok fl,
    V1.verify_image E p mode =
      V1.report E p true size_ok (V1.check_background_white img b)
        (V1.heuristic_orientation_check b) fl.
Proof.
  intros Hp Hi Hq Hd.
  destruct (V1_verify_car_found E p mode img b) as (s & f & _ & _ & Hr);
    [done |].
  eauto.
Qed.

Lemma V1_verify_image_shape (E : V1.collaborators) (p mode : string) :
  coherent_record (V1.now E) (V1.verify_image E p mode)
  /\ (dict_get "criteria" (V1.verify_image E p mode) = None ->
      verdict (V1.verify_image E p mode) "Error").
Proof.
  destruct (V1.path_exists E p) eqn:Hp.
  2: { unfold V1.verify_image, V1.verify_image_try. rewrite Hp.
       split; [coherent_cases | reflexivity]. }
  destruct (V1.imread E p) as [img |] eqn:Hi.
  2: { unfold V1.verify_image, V1.verify_image_try. rewrite Hp, Hi.
       split; [coherent_cases | reflexivity]. }
  destruct (V1.validate_image_quality E img) as [valid msg] eqn:Hq.
  destruct valid.
  2: { unfold V1.verify_image, V1.verify_image_try. rewrite Hp, Hi, Hq.
       split; [coherent_cases | reflexivity]. }
  destruct (V1.detect_car E img) as [found bb] eqn:Hd.
  assert (Hno : found = false \/ bb = None ->
                V1.verify_image E p mode =
                  [("result", JStr "No");
                   ("criteria", JObj V1.no_car_criteria);
                   ("failure_reasons", strings ["No car detected in image"]);
                   ("timestamp", JStr (V1.now E));
                   ("model_used", JStr "yolov8n + opencv");
                   ("image_path", JStr p)]).
  { intros Hcase. unfold V1.verify_image, V1.verify_image_try.
    rewrite Hp, Hi, Hq, Hd. cbn [negb].
    destruct found, bb as [b |]; try reflexivity.
    destruct Hcase; discriminate. }
  destruct found, bb as [b |];
    try (rewrite Hno by tauto; split; [coherent_cases | discriminate]).
  destruct (V1_verify_image_found E p mode img b) as (s & f & Hr);
    [done | done | by rewrite Hq | done |].
  rewrite Hr. split; [apply V1_report_coherent |].
  rewrite V1_report_criteria. discriminate.
Qed.

(** X1. Every record the simple pipeline returns has one of the three
    verdicts; it carries [error] exactly when the verdict is "Error",
    [failure_reasons] exactly when it is "No", criteria exactly when it is
    not "Error", and always the time stamp. *)
Theorem V1_records_are_coherent (E : V1.collaborators) (p mode : string) :
  coherent_record (V1.now E) (V1.verify_image E p mode)
  /\ (dict_get "criteria" (V1.verify_image E p mode) = None
      <-> verdict (V1.verify_image E p mode) "Error").
Proof.
  destruct (V1_verify_image_shape E p mode) as [Hcoh Hcrit].
  split; [done |]. split; [done |].
  by destruct Hcoh as (_ & _ & _ & Hnone & _).
Qed.

(** X2. Every record the richer pipeline returns has one of the three
    verdicts; it carries [error] exactly when the verdict is "Error",
    [failure_reasons] exactly when it is "No", the time stamp always, and
    criteria exactly when the mode is "detailed" and the verdict is not
    "Error". *)
Theorem V2_records_are_coherent (E : V2.collaborators) (p mode : string) :
  coherent_record (V2.now E) (V2.verify_image E p mode)
  /\ (is_Some (dict_get "criteria" (V2.verify_image E p mode))
      <-> mode = "detailed" /\ ~ verdict (V2.verify_image E p mode) "Error").
Proof.
  assert (Hgate : forall r : dict,
            dict_get "result" r = Some (JStr "Error") ->
            dict_get "criteria" r = None ->
            is_Some (dict_get "criteria" r)
            <-> mode = "detailed" /\ ~ verdict r "Error").
  { intros r Hres Hcrit. rewrite Hcrit. unfold verdict.
    split; [by intros [? ?] | tauto]. }
  assert (Hrun : forall (r : dict) v,
            dict_get "result" r = Some (JStr v) ->
            v <> "Error" ->
            (if String.eqb mode "detailed"
             then is_Some (dict_get "criteria" r)
             else dict_get "criteria" r = None) ->
            is_Some (dict_get "criteria" r)
            <-> mode = "detailed" /\ ~ verdict r "Error").
  { intros r v Hres Hv Hcrit. unfold verdict. rewrite Hres.
    destruct (String.eqb_spec mode "detailed") as [-> | Hmode].
    - split; [| done]. intros _. split; [done | congruence].
    - rewrite Hcrit. split; [by intros [? ?] | tauto]. }
  unfold V2.verify_image, V2.verify_image_try.
  destruct (V2.path_exists E p);
    [| split; [coherent_cases | by apply Hgate]].
  destruct (V2.imread E p) as [img |];
    [| split; [coherent_cases | by apply Hgate]].
  destruct (V2.validate_image_quality E img) as [[[|] q] issues];
    [| split; [coherent_cases | by apply Hgate]].
  cbn [negb].
  destruct (V2.detect_car E img) as [[found bb] | e];
    [| split; [coherent_cases | by apply Hgate]].
  cbn [mbind res_bind].
  assert (Hno : let r :=
                  if String.eqb mode "detailed"
                  then dict_update
                         [("criteria", JObj V2.no_car_criteria);
                          ("image_path", JStr p);
                          ("quality_score", JFloat q)]
                         [("result", JStr "No");
                          ("failure_reasons",
                           strings ["No car detected in image"]);
                          ("timestamp", JStr (V2.now E));
                          ("model_used", JStr "yolov8n + sam + classifier")]
                  else [("result", JStr "No");
                        ("failure_reasons",
                         strings ["No car detected in image"]);
                        ("timestamp", JStr (V2.now E));
                        ("model_used", JStr "yolov8n + sam + classifier")] in
                coherent_record (V2.now E) r
                /\ (is_Some (dict_get "criteria" r)
                    <-> mode = "detailed" /\ ~ verdict r "Error")).
  { cbv zeta. split.
    - destruct (String.eqb mode "detailed"); coherent_cases.
    - apply (Hrun _ "No"); [by destruct (String.eqb mode "detailed") | done |].
      by destruct (String.eqb mode "detailed"). }
  destruct found, bb as [b |]; try exact Hno.
  unfold V2.evaluate.
  destruct (V2.classify_orientation img b) as [o | e];
    [| split; [coherent_cases | by apply Hgate]].
  cbn [mbind res_bind mret res_ret].
  split; [apply V2_report_coherent |].
  set (area_ok := V2.check_area_ratio _).
  set (bg := V2.check_white_background _ _).
  destruct o as [sv fl scores].
  apply (Hrun _ (if forallb id [true; area_ok; bg; sv; fl] then "Yes" else "No")).
  - unfold V2.report. destruct (String.eqb mode "detailed");
      by destruct area_ok, bg, sv, fl.
  - by destruct (forallb id _).
  - unfold V2.report. destruct (String.eqb mode "detailed");
      by destruct area_ok, bg, sv, fl.
Qed.

(** X3. In the simple pipeline an "Error" record comes from the three
    gates only: a missing file, a file that is no image, or the quality
    gate.  Past them the body of [verify_image] returns; its exception
    handler is never entered. *)
Theorem V1_error_only_from_gates (E : V1.collaborators) (p mode : string) :
  V1.verify_image_try E p mode = Ok (V1.verify_image E p mode)
  /\ (verdict (V1.verify_image E p mode) "Error" <->
      V1.path_exists E p = false
      \/ V1.imread E p = None
      \/ exists img,
           V1.imread E p = Some img
           /\ (V1.validate_image_quality E img).1 = false).
Proof.
  split; [apply V1_verify_image_try_returns |].
  destruct (V1.path_exists E p) eqn:Hp.
  2: { unfold V1.verify_image, V1.verify_image_try. rewrite Hp.
       split; [tauto | reflexivity]. }
  destruct (V1.imread E p) as [img |] eqn:Hi.
  2: { unfold V1.verify_image, V1.verify_image_try. rewrite Hp, Hi.
       split; [tauto | reflexivity]. }
  destruct (V1.validate_image_quality E img) as [valid msg] eqn:Hq.
  destruct valid.
  2: { unfold V1.verify_image, V1.verify_image_try. rewrite Hp, Hi, Hq.
       split; [| reflexivity]. intros _. right. right. exists img.
       by rewrite Hq. }
  split.
  - intros Herr. exfalso.
    assert (Hc : is_Some (dict_get "criteria" (V1.verify_image E p mode))).
    { unfold V1.verify_image, V1.verify_image_try.
      rewrite Hp, Hi, Hq. cbn [negb].
      destruct (V1.detect_car E img) as [[|] [b |]] eqn:Hd; try (by eexists).
      destruct (V1_verify_image_found E p mode img b) as (s & f & Hr);
        [done | done | by rewrite Hq | done |].
      unfold V1.verify_image, V1.verify_image_try in Hr.
      rewrite Hp, Hi, Hq, Hd in Hr. cbn [negb] in Hr. rewrite Hr.
      rewrite V1_report_criteria. by eexists. }
    destruct (V1_verify_image_shape E p mode) as [Hcoh _].
    destruct Hcoh as (_ & _ & _ & Hnone & _).
    rewrite (Hnone Herr) in Hc. by destruct Hc.
  - intros [H | [H | (img' & Himg & Hbad)]]; try discriminate.
    injection Himg as <-. rewrite Hq in Hbad. discriminate.
Qed.

(** ** The detector *)

Lemma accepted_car_test (r : detection) :
  (int_of_float (det_cls r) =? 2) && gt (det_conf r) 0.5 = true
  <-> accepted_car r.
Proof.
  unfold accepted_car. rewrite andb_true_iff, Z.eqb_eq, gt_true. done.
Qed.

Lemma accepted_car_filter (r : detection) :
  int_of_float (det_cls r) = 2 /\ gt (det_conf r) 0.5 = true
  <-> accepted_car r.
Proof. unfold accepted_car. by rewrite gt_true. Qed.

(** The loop of version 1 from a row already kept. *)
Lemma best_car_fold_some (d : detection) (rows : list detection) :
  foldl V1.best_car_step (Some (det_bbox d), det_conf d) rows
  = let b := foldl better d
               (filter (fun r => int_of_float (det_cls r) = 2
                                 /\ gt (det_conf r) 0.5 = true) rows) in
    (Some (det_bbox b), det_conf b).
Proof.
  revert d. induction rows as [| r rows IH]; intros d; [done |].
  rewrite filter_cons. cbn [foldl]. unfold V1.best_car_step at 2.
  destruct (decide _) as [Hr | Hr].
  - rewrite (proj2 (accepted_car_test r)) by (by apply accepted_car_filter).
    cbn [foldl].
    destruct (gt (det_conf r) (det_conf d)) eqn:Hgt.
    + replace (better d r) with r by (unfold better; by rewrite Hgt).
      apply IH.
    + replace (better d r) with d by (unfold better; by rewrite Hgt).
      apply IH.
  - destruct ((int_of_float (det_cls r) =? 2) && gt (det_conf r) 0.5) eqn:Ht.
    { exfalso. apply Hr. apply accepted_car_filter.
      by apply accepted_car_test. }
    apply IH.
Qed.

(** The loop of version 1 from the start. *)
Lemma best_car_fold_none (rows : list detection) :
  foldl V1.best_car_step (None, 0%Q) rows
  = match filter (fun r => int_of_float (det_cls r) = 2
                           /\ gt (det_conf r) 0.5 = true) rows with
    | [] => (None, 0%Q)
    | d :: ds =>
        let b := foldl better d ds in (Some (det_bbox b), det_conf b)
    end.
Proof.
  induction rows as [| r rows IH]; [done |].
  rewrite filter_cons. cbn [foldl]. unfold V1.best_car_step at 2.
  destruct (decide _) as [Hr | Hr].
  - rewrite (proj2 (accepted_car_test r)) by (by apply accepted_car_filter).
    assert (Hpos : gt (det_conf r) 0 = true).
    { apply gt_true. destruct Hr as [_ Hr]. apply gt_true in Hr. lra. }
    rewrite Hpos. apply best_car_fold_some.
  - destruct ((int_of_float (det_cls r) =? 2) && gt (det_conf r) 0.5) eqn:Ht.
    { exfalso. apply Hr. apply accepted_car_filter.
      by apply accepted_car_test. }
    apply IH.
Qed.

(** The row [foldl better] keeps is the first of greatest confidence. *)
Lemma better_fold_first (d : detection) (ds : list detection) :
  exists pre post,
    d :: ds = pre ++ foldl better d ds :: post
    /\ (forall x, x ∈ pre -> (det_conf x < det_conf (foldl better d ds))%Q)
    /\ (forall x, x ∈ post -> (det_conf x <= det_conf (foldl better d ds))%Q).
Proof.
  induction ds as [| x ds IH] using rev_ind.
  { exists [], []. split; [done |].
    split; intros x Hx; by apply elem_of_nil in Hx. }
  destruct IH as (pre & post & Heq & Hpre & Hpost).
  rewrite foldl_app. cbn [foldl]. set (b := foldl better d ds) in *.
  unfold better. destruct (gt (det_conf x) (det_conf b)) eqn:Hgt.
  - apply gt_true in Hgt.
    exists (pre ++ b :: post), []. split.
    { by rewrite app_comm_cons, Heq. }
    split; [| intros y Hy; by apply elem_of_nil in Hy].
    intros y Hy. apply elem_of_app in Hy as [Hy | Hy].
    + specialize (Hpre y Hy). lra.
    + apply elem_of_cons in Hy as [-> | Hy]; [lra |].
      specialize (Hpost y Hy). lra.
  - exists pre, (post ++ [x]). split.
    { rewrite app_comm_cons, Heq. by rewrite <- app_assoc. }
    split; [done |].
    intros y Hy. apply elem_of_app in Hy as [Hy | Hy]; [by apply Hpost |].
    apply list_elem_of_singleton in Hy as ->.
    unfold gt in Hgt. apply negb_false_iff in Hgt. by apply Qle_bool_iff.
Qed.

Lemma filter_app_cons_inv {A} (P : A -> Prop) `{!forall x, Decision (P x)}
  (l l1 l2 : list A) (x : A) :
  filter P l = l1 ++ x :: l2 ->
  exists k1 k2, l = k1 ++ x :: k2 /\ filter P k1 = l1 /\ filter P k2 = l2.
Proof.
  revert l1. induction l as [| y l IH]; intros l1 Hf.
  { by destruct l1. }
  rewrite filter_cons in Hf. destruct (decide (P y)) as [Hy | Hy].
  - destruct l1 as [| z l1]; simpl in Hf; injection Hf; intros Hl Hyz;
      subst y.
    + exists [], l. by rewrite filter_nil.
    + destruct (IH l1 Hl) as (k1 & k2 & -> & <- & <-).
      exists (z :: k1), k2. by rewrite filter_cons_True.
  - destruct (IH l1 Hf) as (k1 & k2 & -> & <- & <-).
    exists (y :: k1), k2. by rewrite filter_cons_False.
Qed.

(** The first best row of the accepted ones is the first best of all. *)
Lemma first_best_of_filter (rows ds : list detection) (d : detection) :
  filter (fun r => int_of_float (det_cls r) = 2
                   /\ gt (det_conf r) 0.5 = true) rows = d :: ds ->
  first_best rows (foldl better d ds).
Proof.
  intros Hf. set (P := fun r => int_of_float (det_cls r) = 2
                                /\ gt (det_conf r) 0.5 = true) in *.
  destruct (better_fold_first d ds) as (pre & post & Heq & Hpre & Hpost).
  set (b := foldl better d ds) in *.
  rewrite Heq in Hf.
  destruct (filter_app_cons_inv P rows pre post b Hf)
    as (k1 & k2 & Hrows & Hk1 & Hk2).
  exists k1, k2. split; [done |]. split.
  { apply accepted_car_filter.
    assert (Hb : b ∈ filter P rows)
      by (rewrite Hf; apply elem_of_app; right; apply elem_of_cons; by left).
    by apply list_elem_of_filter in Hb as [Hb _]. }
  split.
  - intros x Hx Hacc. apply Hpre. rewrite <- Hk1.
    apply list_elem_of_filter. split; [by apply accepted_car_filter | done].
  - intros x Hx Hacc. apply Hpost. rewrite <- Hk2.
    apply list_elem_of_filter. split; [by apply accepted_car_filter | done].
Qed.

(** X4. [detect_car] of version 1 answers (False, None) or (True, box),
    never a mixed pair.  When the model ran, it answers (False, None)
    exactly when no row is a car (class 2) of confidence above 0.5, and
    otherwise the box of the most confident such row, the first one among
    equals. *)
Theorem V1_detect_car_picks_first_best :
  (forall E img,
      V1.detect_car E img = (false, None)
      \/ exists b, V1.detect_car E img = (true, Some b))
  /\ (forall E img run rows,
         V1.model E = Some run ->
         run img = Ok rows ->
         (V1.detect_car E img = (false, None)
          /\ forall r, r ∈ rows -> ~ accepted_car r)
         \/ exists r,
              V1.detect_car E img = (true, Some (det_bbox r))
              /\ first_best rows r).
Proof.
  split.
  - intros E img. unfold V1.detect_car.
    destruct (V1.model E) as [run |]; [| by left].
    destruct (run img) as [rows | e]; [| by left].
    destruct (foldl V1.best_car_step (None, 0%Q) rows).1; eauto.
  - intros E img run rows Hm Hrun. unfold V1.detect_car.
    rewrite Hm, Hrun, best_car_fold_none.
    destruct (filter _ rows) as [| d ds] eqn:Hf.
    + left. split; [done |]. intros r Hr Hacc.
      eapply filter_nil_not_elem_of; [exact Hf | | exact Hr].
      by apply accepted_car_filter.
    + right. exists (foldl better d ds). split; [done |].
      by apply first_best_of_filter.
Qed.

(** X5. On the same rows of the model both detectors give the same
    answer: version 2 collects the accepted rows and takes the maximum,
    version 1 keeps a running best, and both keep the first of equals. *)
Theorem detectors_agree (E1 : V1.collaborators) (E2 : V2.collaborators)
  (img : list (list pixel)) (run : list (list pixel) -> res (list detection))
  (rows : list detection) :
  V1.model E1 = Some run ->
  run img = Ok rows ->
  V2.model E2 img = Ok rows ->
  V2.detect_car E2 img = Ok (V1.detect_car E1 img).
Proof.
  intros Hm Hrun Hm2. unfold V2.detect_car, V1.detect_car.
  rewrite Hm, Hrun, Hm2, best_car_fold_none. cbn [mbind res_bind].
  destruct rows as [| r rows]; [done |].
  cbn [length Nat.eqb].
  destruct (filter _ (r :: rows)) as [| d ds]; done.
Qed.

(** ** The list of vehicles *)

Lemma insert_by_confidence_perm (x : Q * bbox) (l : list (Q * bbox)) :
  V1.insert_by_confidence x l ≡ₚ x :: l.
Proof.
  induction l as [| y l IH]; [done |]. simpl.
  destruct (gt y.1 x.1); [| done]. rewrite IH. apply Permutation_swap.
Qed.

Lemma insert_by_confidence_sorted (x : Q * bbox) (l : list (Q * bbox)) :
  StronglySorted by_confidence l ->
  StronglySorted by_confidence (V1.insert_by_confidence x l).
Proof.
  induction l as [| y l IH]; intros Hs.
  { simpl. repeat constructor. }
  simpl. apply StronglySorted_cons in Hs as [Hall Hs].
  destruct (gt y.1 x.1) eqn:Hgt.
  - apply StronglySorted_cons. split; [| by apply IH].
    rewrite insert_by_confidence_perm. apply Forall_cons. split; [| done].
    apply gt_true in Hgt. unfold by_confidence. lra.
  - assert (Hle : (y.1 <= x.1)%Q).
    { unfold gt in Hgt. apply negb_false_iff in Hgt. by apply Qle_bool_iff. }
    apply StronglySorted_cons. split.
    + apply Forall_cons. split; [done |].
      eapply Forall_impl; [exact Hall |]. intros z Hz.
      unfold by_confidence in *. lra.
    + apply StronglySorted_cons. done.
Qed.

Lemma sort_by_confidence_perm (l : list (Q * bbox)) :
  V1.sort_by_confidence l ≡ₚ l.
Proof.
  induction l as [| x l IH]; [done |].
  cbn [V1.sort_by_confidence foldr]. fold (V1.sort_by_confidence l).
  by rewrite insert_by_confidence_perm, IH.
Qed.

Lemma sort_by_confidence_sorted (l : list (Q * bbox)) :
  StronglySorted by_confidence (V1.sort_by_confidence l).
Proof.
  induction l as [| x l IH]; [constructor |].
  cbn [V1.sort_by_confidence foldr]. fold (V1.sort_by_confidence l).
  by apply insert_by_confidence_sorted.
Qed.

(** Insertion passes over strictly more confident entries only, so it
    leaves the entries of any one confidence in their order. *)
Lemma insert_by_confidence_stable (q : Q) (x : Q * bbox)
  (l : list (Q * bbox)) :
  of_confidence q (V1.insert_by_confidence x l) = of_confidence q (x :: l).
Proof.
  unfold of_confidence.
  induction l as [| y l IH]; [done |]. simpl.
  destruct (gt y.1 x.1) eqn:Hgt; [| done].
  apply gt_true in Hgt.
  rewrite (filter_cons _ y), IH, (filter_cons _ x), (filter_cons _ x),
    (filter_cons _ y).
  destruct (decide (Qeq_bool y.1 q = true)) as [Hy | Hy]; [| done].
  destruct (decide (Qeq_bool x.1 q = true)) as [Hx | Hx]; [| done].
  apply Qeq_bool_iff in Hx, Hy. lra.
Qed.

Lemma sort_by_confidence_stable (q : Q) (l : list (Q * bbox)) :
  of_confidence q (V1.sort_by_confidence l) = of_confidence q l.
Proof.
  induction l as [| x l IH]; [done |].
  cbn [V1.sort_by_confidence foldr]. fold (V1.sort_by_confidence l).
  rewrite insert_by_confidence_stable. unfold of_confidence in *.
  by rewrite !(filter_cons _ x), IH.
Qed.

Lemma get_multiple_cars_rows E img run rows :
  V1.model E = Some run ->
  run img = Ok rows ->
  V1.get_multiple_cars E img = V1.sort_by_confidence (vehicles rows).
Proof. intros Hm Hrun. unfold V1.get_multiple_cars. by rewrite Hm, Hrun. Qed.

(** X6. [get_multiple_cars] returns the accepted vehicle rows (class 2, 3,
    5 or 7, confidence above 0.5) of the model, each once, ordered by
    decreasing confidence. *)
Theorem get_multiple_cars_sorted (E : V1.collaborators)
  (img : list (list pixel)) (run : list (list pixel) -> res (list detection))
  (rows : list detection) :
  V1.model E = Some run ->
  run img = Ok rows ->
  StronglySorted by_confidence (V1.get_multiple_cars E img)
  /\ V1.get_multiple_cars E img ≡ₚ vehicles rows
  /\ (forall c, c ∈ V1.get_multiple_cars E img <->
        exists r, r ∈ rows
                  /\ int_of_float (det_cls r) ∈ [2; 3; 5; 7]
                  /\ (0.5 < det_conf r)%Q
                  /\ c = (det_conf r, det_bbox r)).
Proof.
  intros Hm Hrun. rewrite (get_multiple_cars_rows E img run rows Hm Hrun).
  split; [apply sort_by_confidence_sorted |].
  split; [apply sort_by_confidence_perm |].
  intros c. rewrite sort_by_confidence_perm. unfold vehicles.
  rewrite list_elem_of_fmap. split.
  - intros (r & -> & Hr). apply list_elem_of_filter in Hr as [[Hcls Hconf] Hr].
    exists r. apply gt_true in Hconf. done.
  - intros (r & Hr & Hcls & Hconf & ->). exists r. split; [done |].
    apply list_elem_of_filter. split; [| done].
    split; [done | by apply gt_true].
Qed.

(** X7. The sort of [get_multiple_cars] is stable: the vehicles of any one
    confidence come out in the order in which the model listed them. *)
Theorem get_multiple_cars_stable (E : V1.collaborators)
  (img : list (list pixel)) (run : list (list pixel) -> res (list detection))
  (rows : list detection) (q : Q) :
  V1.model E = Some run ->
  run img = Ok rows ->
  of_confidence q (V1.get_multiple_cars E img)
  = of_confidence q (vehicles rows).
Proof.
  intros Hm Hrun. rewrite (get_multiple_cars_rows E img run rows Hm Hrun).
  apply sort_by_confidence_stable.
Qed.

(** ** The quality gates *)

Lemma lt_false (x y : Q) : lt x y = false <-> (y <= x)%Q.
Proof. unfold lt. rewrite negb_false_iff. apply Qle_bool_iff. Qed.

Lemma gt_false (x y : Q) : gt x y = false <-> (x <= y)%Q.
Proof. unfold gt. rewrite negb_false_iff. apply Qle_bool_iff. Qed.

Ltac tests_to_props :=
  repeat match goal with
         | H : bool_decide _ = true |- _ => apply bool_decide_eq_true in H
         | H : bool_decide _ = false |- _ => apply bool_decide_eq_false in H
         | H : lt _ _ = true |- _ => apply lt_true in H
         | H : lt _ _ = false |- _ => apply lt_false in H
         | H : gt _ _ = true |- _ => apply gt_true in H
         | H : gt _ _ = false |- _ => apply gt_false in H
         end.

(** X8. The quality gate of the simple pipeline lets an image through
    exactly when both sides have at least 100 pixels and the mean gray
    level lies between 30 and 250, bounds included; its message is "OK"
    exactly then, and a low resolution is reported before any brightness
    problem. *)
Theorem V1_quality_gate (E : V1.collaborators) (img : list (list pixel)) :
  ((V1.validate_image_quality E img).1 = true <->
   (100 <= shape0 img)%nat /\ (100 <= shape1 img)%nat
   /\ (30 <= V1.gray_mean E img)%Q /\ (V1.gray_mean E img <= 250)%Q)
  /\ ((V1.validate_image_quality E img).1 = true <->
      (V1.validate_image_quality E img).2 = "OK")
  /\ ((shape0 img < 100)%nat \/ (shape1 img < 100)%nat ->
      V1.validate_image_quality E img = (false, "Image resolution too low")).
Proof.
  unfold V1.validate_image_quality.
  destruct (bool_decide (shape0 img < 100)%nat) eqn:Hh;
    destruct (bool_decide (shape1 img < 100)%nat) eqn:Hw;
    cbn [orb];
    try destruct (lt (V1.gray_mean E img) 30) eqn:Hdark;
    try destruct (gt (V1.gray_mean E img) 250) eqn:Hbright;
    cbn [fst snd]; tests_to_props;
    repeat match goal with |- _ /\ _ => split end;
    try (split; intros; try done; try lia; try lra;
         repeat match goal with H : _ /\ _ |- _ => destruct H end;
         try lia; try lra);
    try (intros; done); try (intros [? | ?]; lia).
  repeat split; first [lia | done].
Qed.

Ltac settle P :=
  first
    [ assert P
        by (unfold low_resolution, bad_light, low_contrast, blurry;
            first [lia | lra | left; lia | right; lia | left; lra | right; lra])
    | assert (~ P)
        by (unfold low_resolution, bad_light, low_contrast, blurry;
            first [lia | lra | intros [? | ?]; lia | intros [? | ?]; lra]) ].

(** X9. The quality gate of the richer pipeline accepts an image exactly
    when it is neither low in resolution nor blurry, or when one of these
    two is its only finding.  Its score stays between 0 and 1, a score
    above 0.5 already means fewer than three findings, and the list of
    issues is empty exactly when there is no finding. *)
Theorem V2_quality_gate (E : V2.collaborators) (img : list (list pixel)) :
  ((V2.validate_image_quality E img).1.1 = true <->
   (~ low_resolution img /\ ~ blurry E img)
   \/ (~ bad_light E img /\ ~ low_contrast E img
       /\ ~ (low_resolution img /\ blurry E img)))
  /\ (0 <= (V2.validate_image_quality E img).1.2)%Q
  /\ ((V2.validate_image_quality E img).1.2 <= 1)%Q
  /\ (gt (V2.validate_image_quality E img).1.2 0.5 = true ->
      (length (V2.validate_image_quality E img).2 < 3)%nat)
  /\ ((V2.validate_image_quality E img).2 = [] <->
      ~ low_resolution img /\ ~ bad_light E img
      /\ ~ low_contrast E img /\ ~ blurry E img).
Proof.
  destruct (V2.validate_image_quality E img) as [[valid score] issues] eqn:Hq.
  unfold V2.validate_image_quality in Hq. cbn [fst snd].
  destruct (bool_decide (shape0 img < 200)%nat) eqn:Hh;
    destruct (bool_decide (shape1 img < 200)%nat) eqn:Hw;
    (destruct (lt (V2.gray_mean E img) 50) eqn:Hdark;
     [| destruct (gt (V2.gray_mean E img) 240) eqn:Hbright]);
    destruct (lt (V2.gray_std E img) 20) eqn:Hcontrast;
    destruct (lt (V2.laplacian_var E img) 100) eqn:Hblur;
    vm_compute in Hq; injection Hq as <- <- <-;
    tests_to_props;
    settle (low_resolution img); settle (bad_light E img);
    settle (low_contrast E img); settle (blurry E img);
    (split; [split; [first [discriminate | tauto] | first [reflexivity | tauto]] |]);
    (split; [lra |]); (split; [lra |]);
    (split; [first [discriminate | (intros _; vm_compute; lia)] |]);
    (split; [first [discriminate | tauto] | first [reflexivity | tauto]]).
Qed.

(** ** Orientation *)

(** X10. The simple facing check returns true exactly when the image has
    a positive width [w] and the centre column [c] of the box, the floor of
    (x1 + x2) / 2, satisfies 3 w <= 10 c <= 8 w; it raises
    [ZeroDivisionError] exactly when the width is 0.  In particular a box
    centred in an image at least 2 pixels wide passes. *)
Theorem check_car_orientation_left_spec (b : bbox) (h w : nat) :
  (V1.check_car_orientation_left b (h, w) = Ok true <->
   (0 < w)%nat
   /\ 3 * Z.of_nat w <= 10 * ((box_left b + box_right b) / 2)
   /\ 10 * ((box_left b + box_right b) / 2) <= 8 * Z.of_nat w)
  /\ (V1.check_car_orientation_left b (h, w) = Raise ZeroDivisionError
      <-> w = 0%nat)
  /\ (box_left b + box_right b = Z.of_nat w -> (2 <= w)%nat ->
      V1.check_car_orientation_left b (h, w) = Ok true).
Proof.
  destruct b as [[[x1 y1] x2] y2].
  unfold V1.check_car_orientation_left, box_left, box_right. cbn [fst snd].
  assert (Hiff : (0 < w)%nat ->
            le 0.3 (inject_Z ((x1 + x2) / 2) / inject_Z (Z.of_nat w))
            && le (inject_Z ((x1 + x2) / 2) / inject_Z (Z.of_nat w)) 0.8 = true
            <-> 3 * Z.of_nat w <= 10 * ((x1 + x2) / 2)
                /\ 10 * ((x1 + x2) / 2) <= 8 * Z.of_nat w).
  { intros Hw. rewrite andb_true_iff, !le_true.
    rewrite quotient_ge, quotient_le by lia. lia. }
  destruct (Nat.eq_dec w 0%nat) as [-> | Hw].
  { cbn. split; [split; [discriminate | lia] |]. split; [done | lia]. }
  rewrite true_div_ok by lia. cbn [mbind res_bind mret res_ret].
  split; [| split].
  - split.
    + intros [= Ht]. split; [lia |]. apply Hiff; [lia | done].
    + intros [_ Hc]. f_equal. apply Hiff; [lia | done].
  - split; [discriminate | lia].
  - intros Hcentre Hw2. f_equal. apply Hiff; [lia |]. rewrite Hcentre.
    pose proof (Z.div_mod (Z.of_nat w) 2 ltac:(lia)).
    pose proof (Z.mod_pos_bound (Z.of_nat w) 2 ltac:(lia)). lia.
Qed.

Lemma check_car_orientation_left_spec_witness :
  V1.check_car_orientation_left (10, 0, 90, 40) (100, 100)%nat = Ok true.
Proof.
  apply (proj2 (proj2 (check_car_orientation_left_spec (10, 0, 90, 40)
                         100 100))).
  - reflexivity.
  - lia.
Defined.

(** What [classify_orientation] returns is fixed by the side-view bands. *)
Lemma classify_orientation_ok (img : list (list pixel)) (b : bbox)
  (o : V2.orientation) :
  V2.classify_orientation img b = Ok o ->
  (0 < shape1 img)%nat
  /\ V2.side_view o = V2.side_view_of (V2.aspect_ratio b)
  /\ (V2.side_view o = true ->
      Z.of_nat (shape1 img) - box_right b + 1 <> 0).
Proof.
  destruct b as [[[x1 y1] x2] y2].
  unfold V2.classify_orientation, true_div, box_right.
  destruct (Z.eqb_spec (Z.of_nat (shape1 img)) 0) as [H0 | H0];
    [discriminate |].
  cbn [mbind res_bind].
  destruct (V2.side_view_of _) eqn:Hside.
  - destruct (Z.eqb_spec (Z.of_nat (shape1 img) - x2 + 1) 0) as [H1 | H1];
      [discriminate |].
    cbn [mbind res_bind mret res_ret]. intros [= <-]. cbn.
    split; [lia | done].
  - cbn [mret res_ret]. intros [= <-]. cbn. split; [lia | done].
Qed.

(** X11. The only exception of [classify_orientation] is a division by
    zero, and it occurs exactly when the image has width 0, or when the
    box is a side view whose right edge is at image_width + 1.  For a box
    whose right edge lies within an image of positive width the call
    returns. *)
Theorem classify_orientation_raises (img : list (list pixel)) (b : bbox) :
  (forall e,
      V2.classify_orientation img b = Raise e <->
      e = ZeroDivisionError
      /\ (shape1 img = 0%nat
          \/ (V2.side_view_of (V2.aspect_ratio b) = true
              /\ Z.of_nat (shape1 img) - box_right b + 1 = 0)))
  /\ ((0 < shape1 img)%nat -> box_right b <= Z.of_nat (shape1 img) ->
      exists o, V2.classify_orientation img b = Ok o).
Proof.
  assert (Hraise : forall e,
            V2.classify_orientation img b = Raise e <->
            e = ZeroDivisionError
            /\ (shape1 img = 0%nat
                \/ (V2.side_view_of (V2.aspect_ratio b) = true
                    /\ Z.of_nat (shape1 img) - box_right b + 1 = 0))).
  { intros e. destruct b as [[[x1 y1] x2] y2].
    unfold V2.classify_orientation, true_div, box_right.
    destruct (Z.eqb_spec (Z.of_nat (shape1 img)) 0) as [H0 | H0].
    { cbn. split; [intros [= <-]; split; [done | left; lia] | by intros [-> _]]. }
    cbn [mbind res_bind].
    destruct (V2.side_view_of _) eqn:Hside.
    - destruct (Z.eqb_spec (Z.of_nat (shape1 img) - x2 + 1) 0) as [H1 | H1].
      + cbn. split; [intros [= <-]; tauto | by intros [-> _]].
      + cbn. split; [discriminate |]. intros [_ [H | [_ H]]]; lia.
    - cbn. split; [discriminate |].
      intros [_ [H | [H _]]]; [lia | discriminate]. }
  split; [exact Hraise |].
  intros Hw Hr.
  destruct (V2.classify_orientation img b) as [o | e] eqn:Hc; [by exists o |].
  destruct (proj1 (Hraise e) eq_refl) as [_ [H | [_ H]]]; lia.
Qed.

Lemma classify_orientation_raises_witness :
  exists o, V2.classify_orientation thumbnail thumbnail_box = Ok o.
Proof.
  apply (proj2 (classify_orientation_raises thumbnail thumbnail_box)).
  - vm_compute; lia.
  - vm_compute; discriminate.
Defined.

(** X12. The orientation classifier is the stricter judge of side views:
    a box it calls a side view has positive height and also passes the
    side-view check of the simple pipeline. *)
Theorem classifier_side_view_is_stricter (img : list (list pixel)) (b : bbox)
  (o : V2.orientation) :
  V2.classify_orientation img b = Ok o ->
  V2.side_view o = true ->
  0 < box_height b /\ V1.heuristic_orientation_check b = true.
Proof.
  intros Ho Hside.
  destruct (classify_orientation_ok img b o Ho) as (_ & Heq & _).
  rewrite Heq in Hside. apply side_view_of_true in Hside.
  rewrite V2_aspect_ratio_eq in Hside.
  assert (Hh : 0 < box_height b).
  { destruct (Z.lt_ge_cases 0 (box_height b)) as [Hpos | Hneg]; [done |].
    rewrite V1_aspect_ratio_flat in Hside by lia.
    destruct Hside as [H | [H _]]; lra. }
  split; [done |].
  unfold V1.heuristic_orientation_check. apply ge_true.
  destruct Hside as [H | [H _]]; lra.
Qed.

Lemma classifier_side_view_is_stricter_witness :
  0 < box_height thumbnail_box
  /\ V1.heuristic_orientation_check thumbnail_box = true.
Proof.
  eapply (classifier_side_view_is_stricter thumbnail thumbnail_box).
  - vm_compute. reflexivity.
  - reflexivity.
Defined.

(** ** Counting through slice assignments *)

Section Counting.

Context {A : Type} (P : A -> Prop) `{!forall x, Decision (P x)}.

Lemma filter_none (l : list A) : Forall (fun x => ~ P x) l -> filter P l = [].
Proof.
  induction 1 as [| x l Hx _ IH]; [done |].
  by rewrite filter_cons_False.
Qed.

(** A slice assignment into a sequence without hits keeps the hits of the
    assigned values only. *)
Lemma filter_set_slice (a b : Z) (vals l : list A) :
  Forall (fun x => ~ P x) l ->
  filter P (set_slice a b vals l) = filter P vals.
Proof.
  intros Hl. unfold set_slice. rewrite !filter_app.
  rewrite (filter_none (take _ l)) by (by apply Forall_take).
  rewrite (filter_none (drop _ l)) by (by apply Forall_drop).
  by rewrite app_nil_r.
Qed.

Lemma filter_concat_none (m : list (list A)) :
  Forall (Forall (fun x => ~ P x)) m -> filter P (concat m) = [].
Proof.
  induction 1 as [| row m Hrow _ IH]; [done |].
  cbn [concat]. by rewrite filter_app, IH, filter_none.
Qed.

Lemma filter_concat_zip_set_slice (a b : Z) (blk rows : list (list A)) :
  Forall (Forall (fun x => ~ P x)) rows ->
  (length blk <= length rows)%nat ->
  filter P (concat (zip_with (set_slice a b) blk rows))
  = filter P (concat blk).
Proof.
  intros Hrows. revert blk.
  induction Hrows as [| row rows Hrow _ IH]; intros blk Hlen.
  { destruct blk; [done | simpl in Hlen; lia]. }
  destruct blk as [| brow blk]; [done |].
  cbn [zip_with concat]. rewrite !filter_app, filter_set_slice by done.
  rewrite IH by (simpl in Hlen; lia). done.
Qed.

Lemma filter_concat_set_slice (a b : Z) (vals m : list (list A)) :
  Forall (Forall (fun x => ~ P x)) m ->
  filter P (concat (set_slice a b vals m)) = filter P (concat vals).
Proof.
  intros Hm. unfold set_slice. rewrite !concat_app, !filter_app.
  rewrite (filter_concat_none (take _ m)) by (by apply Forall_take).
  rewrite (filter_concat_none (drop _ m)) by (by apply Forall_drop).
  by rewrite app_nil_r.
Qed.

(** The same for a region assignment into an array without hits. *)
Lemma filter_set_region (y1 y2 x1 x2 : Z) (blk m : list (list A)) :
  Forall (Forall (fun x => ~ P x)) m ->
  length blk
  = (slice_index (length m) y2 - slice_index (length m) y1)%nat ->
  filter P (ravel (set_region y1 y2 x1 x2 blk m)) = filter P (ravel blk).
Proof.
  intros Hm Hlen. unfold ravel, set_region.
  rewrite filter_concat_set_slice by done.
  apply filter_concat_zip_set_slice.
  - unfold slice. apply Forall_take. by apply Forall_drop.
  - rewrite length_slice. lia.
Qed.

End Counting.

Lemma full_rows (h w : nat) (v : Z) (Q : Z -> Prop) :
  Q v -> Forall (Forall Q) (full h w v).
Proof.
  intros Hv. unfold full. apply Forall_replicate. by apply Forall_replicate.
Qed.

(** ** What the segmentation keeps *)

Lemma raw_car_mask_ones (img : list (list pixel)) (b : bbox) :
  (count (fun x => x = 1%Z) (raw_car_mask img b) + excluded img b
   = length (box_pixels img b))%nat.
Proof.
  destruct b as [[[x1 y1] x2] y2].
  unfold raw_car_mask, excluded, box_pixels, count, ravel.
  rewrite concat_fmap_fmap, length_filter_fmap.
  set (ps := concat (region y1 y2 x1 x2 img)).
  pose proof (length_filter_split (fun p => V2.very_white p = true) ps) as Hs.
  rewrite (length_filter_ext
             (fun p => (if negb (V2.very_white p) then 1 else 0) = 1%Z)
             (fun p => ~ V2.very_white p = true)).
  2: { intros p. destruct (V2.very_white p); simpl; split; intros; done. }
  lia.
Qed.

Lemma full_like_ones (m : list (list Z)) :
  count (fun x => x = 1%Z) (full_like m 1) = size m.
Proof.
  unfold count, size, ravel, full_like.
  induction m as [| row m IH]; [done |].
  cbn [fmap list_fmap concat]. rewrite filter_app, !length_app, IH.
  f_equal. clear IH. induction row as [| x row IH]; [done |].
  cbn [length replicate]. rewrite filter_cons_True by done.
  cbn [length]. by rewrite IH.
Qed.

Lemma raw_car_mask_size (img : list (list pixel)) (b : bbox) :
  size (raw_car_mask img b) = length (box_pixels img b).
Proof.
  destruct b as [[[x1 y1] x2] y2].
  unfold raw_car_mask, box_pixels, size, ravel.
  by rewrite concat_fmap_fmap, length_fmap.
Qed.

(** The car pixels of the mask are those of the block put into it. *)
Lemma segment_car_ones (img : list (list pixel)) (b : bbox) :
  count (fun x => x = 1%Z) (V2.segment_car img b)
  = if over_excluded img b then length (box_pixels img b)
    else (length (box_pixels img b) - excluded img b)%nat.
Proof.
  pose proof (safety_valve img b) as Hvalve.
  pose proof (raw_car_mask_ones img b) as Hones.
  pose proof (raw_car_mask_size img b) as Hsize.
  destruct b as [[[x1 y1] x2] y2]. cbv zeta in Hvalve.
  unfold V2.segment_car. rewrite Hvalve. clear Hvalve.
  unfold raw_car_mask in Hones, Hsize.
  set (car_mask := fmap (M:=list) _ <$> region y1 y2 x1 x2 img) in *.
  unfold count at 1.
  rewrite filter_set_region.
  - fold (count (fun x => x = 1%Z)
            (if over_excluded img (x1, y1, x2, y2)
             then full_like car_mask 1 else car_mask)).
    destruct (over_excluded _ _).
    + by rewrite full_like_ones.
    + lia.
  - apply full_rows. discriminate.
  - unfold full. rewrite length_replicate. unfold shape0.
    destruct (over_excluded _ _); unfold car_mask, full_like;
      by rewrite !length_fmap, length_region.
Qed.

(** X13. The safety valve of [segment_car] does what its comment promises:
    whatever the pixels are, the mask marks as car at least 60% of the
    pixels of the box (as clipped to the image) and never more than all of
    them; and the mask has one row per image row. *)
Theorem segment_car_keeps_most_of_box (img : list (list pixel)) (b : bbox) :
  (6 * length (box_pixels img b)
   <= 10 * count (fun x => x = 1%Z) (V2.segment_car img b))%nat
  /\ (count (fun x => x = 1%Z) (V2.segment_car img b)
      <= length (box_pixels img b))%nat
  /\ length (V2.segment_car img b) = shape0 img.
Proof.
  rewrite segment_car_ones.
  pose proof (raw_car_mask_ones img b) as Hones.
  unfold over_excluded.
  destruct (bool_decide _) eqn:Hover;
    [apply bool_decide_eq_true in Hover | apply bool_decide_eq_false in Hover].
  all: split; [lia |]; split; [lia |].
  all: destruct b as [[[x1 y1] x2] y2]; unfold V2.segment_car, set_region.
  all: rewrite length_set_slice;
    [unfold full; by rewrite length_replicate |].
  all: rewrite length_zip_with, length_slice.
  all: destruct (lt _ _); unfold full_like;
    rewrite !length_fmap, length_region; unfold full, shape0;
    rewrite length_replicate; lia.
Qed.

(** ** Shapes *)

Lemma length_concat_rows {A} (m : list (list A)) (w : nat) :
  Forall (fun row => length row = w) m ->
  length (concat m) = (length m * w)%nat.
Proof.
  induction 1 as [| row m Hrow _ IH]; [done |].
  cbn [concat length]. rewrite length_app, IH, Hrow. lia.
Qed.

(** A region assignment of a block of the shape of the region keeps the
    shape of the array. *)
Lemma set_region_shape {A} (y1 y2 x1 x2 : Z) (blk m : list (list A))
  (w : nat) :
  Forall (fun row => length row = w) m ->
  length blk
  = (slice_index (length m) y2 - slice_index (length m) y1)%nat ->
  Forall (fun brow => length brow
                      = (slice_index w x2 - slice_index w x1)%nat) blk ->
  length (set_region y1 y2 x1 x2 blk m) = length m
  /\ Forall (fun row => length row = w) (set_region y1 y2 x1 x2 blk m).
Proof.
  intros Hm Hlen Hblk. split.
  { unfold set_region. apply length_set_slice.
    rewrite length_zip_with, length_slice. lia. }
  apply Forall_lookup. intros r row Hrow.
  rewrite lookup_set_region in Hrow by done.
  destruct (in_slice (length m) y1 y2 r).
  - destruct (blk !! _) as [brow |] eqn:Hbrow; [| done]. simpl in Hrow.
    destruct (m !! r) as [row0 |] eqn:Hrow0; [| done]. simpl in Hrow.
    injection Hrow as <-.
    assert (Hw : length row0 = w)
      by (eapply (proj1 (Forall_lookup _ _) Hm); eauto).
    rewrite length_set_slice; [done |]. rewrite Hw.
    eapply (proj1 (Forall_lookup _ _) Hblk); eauto.
  - eapply (proj1 (Forall_lookup _ _) Hm); eauto.
Qed.

Lemma region_row_lengths {A} (y1 y2 x1 x2 : Z) (a : list (list A)) :
  rectangular a ->
  Forall (fun row => length row
                     = (slice_index (shape1 a) x2
                        - slice_index (shape1 a) x1)%nat)
    (region y1 y2 x1 x2 a).
Proof.
  intros Hrect. unfold region. apply Forall_fmap.
  unfold slice at 2. apply Forall_take, Forall_drop.
  eapply Forall_impl; [exact Hrect |]. intros row Hrow. simpl.
  by rewrite length_slice, Hrow.
Qed.

Lemma full_shape (h w : nat) (v : Z) :
  length (full h w v) = h
  /\ Forall (fun row => length row = w) (full h w v).
Proof.
  unfold full. split; [by rewrite length_replicate |].
  apply Forall_replicate. by rewrite length_replicate.
Qed.

(** The mask of [segment_car] has the shape of the image. *)
Lemma segment_car_shape (img : list (list pixel)) (b : bbox) :
  rectangular img ->
  length (V2.segment_car img b) = shape0 img
  /\ Forall (fun row => length row = shape1 img) (V2.segment_car img b).
Proof.
  intros Hrect. destruct b as [[[x1 y1] x2] y2]. unfold V2.segment_car.
  destruct (full_shape (shape0 img) (shape1 img) 0) as [Hh Hw].
  pose proof (region_row_lengths y1 y2 x1 x2 img Hrect) as Hreg.
  set (blk := if lt _ _ then _ else _).
  destruct (set_region_shape y1 y2 x1 x2 blk
              (full (shape0 img) (shape1 img) 0) (shape1 img)) as [H1 H2];
    [done | | | by rewrite H1].
  - rewrite Hh. unfold shape0, blk.
    destruct (lt _ _); unfold full_like;
      by rewrite !length_fmap, length_region.
  - unfold blk. destruct (lt _ _); unfold full_like; rewrite !Forall_fmap;
      (eapply Forall_impl; [exact Hreg |]); intros row Hrow; simpl;
      by rewrite ?length_replicate, length_fmap.
Qed.

Lemma segment_car_size (img : list (list pixel)) (b : bbox) :
  rectangular img ->
  size (V2.segment_car img b) = (shape0 img * shape1 img)%nat.
Proof.
  intros Hrect. destruct (segment_car_shape img b Hrect) as [Hh Hw].
  unfold size, ravel. by rewrite (length_concat_rows _ _ Hw), Hh.
Qed.

Lemma segment_car_ones_bounds (img : list (list pixel)) (b : bbox) :
  (6 * length (box_pixels img b)
   <= 10 * count (fun x => x = 1%Z) (V2.segment_car img b))%nat
  /\ (count (fun x => x = 1%Z) (V2.segment_car img b)
      <= length (box_pixels img b))%nat.
Proof.
  rewrite segment_car_ones.
  pose proof (raw_car_mask_ones img b) as Hones.
  unfold over_excluded.
  destruct (bool_decide _) eqn:Hover;
    [apply bool_decide_eq_true in Hover | apply bool_decide_eq_false in Hover];
    lia.
Qed.

(** X14. Taken together, segmentation and area check depend on the pixels
    only in a middle range: a box that covers at least a third of the image
    always passes the size criterion of the richer pipeline, and a box that
    covers less than a fifth of it never does. *)
Theorem area_check_by_box_cover (img : list (list pixel)) (b : bbox) :
  rectangular img ->
  ((0 < shape0 img * shape1 img)%nat ->
   (shape0 img * shape1 img <= 3 * length (box_pixels img b))%nat ->
   V2.check_area_ratio (V2.segment_car img b) = true)
  /\ ((5 * length (box_pixels img b) < shape0 img * shape1 img)%nat ->
      V2.check_area_ratio (V2.segment_car img b) = false).
Proof.
  intros Hrect.
  pose proof (segment_car_size img b Hrect) as Hsize.
  destruct (segment_car_ones_bounds img b) as [Hlow Hhigh].
  pose proof (check_area_ratio_true (V2.segment_car img b)) as Hiff.
  rewrite Hsize in Hiff. split.
  - intros Hpos Hcover. apply Hiff. lia.
  - intros Hsmall. apply not_true_is_false. intros Ht. apply Hiff in Ht. lia.
Qed.

Lemma area_check_by_box_cover_witness :
  V2.check_area_ratio (V2.segment_car thumbnail thumbnail_box) = true.
Proof.
  apply (proj1 (area_check_by_box_cover thumbnail thumbnail_box
                  ltac:(unfold rectangular; repeat constructor))).
  - vm_compute; lia.
  - vm_compute; lia.
Defined.

(** ** The vision-model adapter and its caller *)

Lemma dict_get_set (k k' : string) (v : json) (d : dict) :
  dict_get k (dict_set k' v d)
  = if String.eqb k k' then Some v else dict_get k d.
Proof.
  induction d as [| [k0 v0] d IH]; cbn [dict_set dict_get].
  { by destruct (String.eqb k k'). }
  destruct (String.eqb_spec k' k0) as [<- | Hk0]; cbn [dict_get].
  - by destruct (String.eqb k k').
  - rewrite IH. destruct (String.eqb_spec k k0) as [-> | Hk]; [| done].
    destruct (String.eqb_spec k0 k'); [congruence | done].
Qed.

Lemma set_item_dict (k : string) (v r : json) :
  (forall kv, r = JObj kv -> V3.set_item k v r = Ok (JObj (dict_set k v kv)))
  /\ ((forall kv, r <> JObj kv) -> exists e, V3.set_item k v r = Raise e).
Proof.
  split.
  - by intros kv ->.
  - intros Hr. destruct r; cbn; eauto. by destruct (Hr kv).
Qed.

(** X15. [validate_single_image] always returns a record with the time
    stamp.  For a missing file it is the "File not found" record, and the
    model is not asked.  Otherwise the record names the image; when the
    adapter returned a dict, that dict is handed on with the three stamps
    written over it and every other entry untouched; when the adapter
    raised or returned something else than a dict, the record says
    "Error", with an error text and without criteria. *)
Theorem validate_single_image_record (E : V3.environment) (p mode : string) :
  exists r,
    V3.validate_single_image E p mode = JObj r
    /\ dict_get "timestamp" r = Some (JStr (V3.now E))
    /\ (V3.path_exists E p = false ->
        r = [("result", JStr "Error");
             ("error", JStr "File not found");
             ("timestamp", JStr (V3.now E))])
    /\ (V3.path_exists E p = true ->
        dict_get "image_path" r = Some (JStr p))
    /\ (forall a,
           V3.path_exists E p = true ->
           V3.check_car_image (V3.adapter E) p = Ok (JObj a) ->
           dict_get "model_used" r = Some (JStr "gpt-4o")
           /\ forall k,
                k <> "timestamp" -> k <> "model_used" -> k <> "image_path" ->
                dict_get k r = dict_get k a)
    /\ (V3.path_exists E p = true ->
        (forall a, V3.check_car_image (V3.adapter E) p <> Ok (JObj a)) ->
        verdict r "Error"
        /\ is_Some (dict_get "error" r)
        /\ dict_get "criteria" r = None).
Proof.
  unfold V3.validate_single_image, V3.validate_single_image_try.
  destruct (V3.path_exists E p) eqn:Hp; cbn [negb].
  2: { eexists. split; [reflexivity |]. split; [reflexivity |].
       split; [done |]. repeat split; intros; discriminate. }
  destruct (V3.check_car_image (V3.adapter E) p) as [a | e] eqn:Hc;
    cbn [mbind res_bind].
  2: { eexists. split; [reflexivity |]. split; [reflexivity |].
       split; [discriminate |]. split; [reflexivity |].
       split; [intros; discriminate |]. intros _ _.
       split; [reflexivity |]. split; [by eexists | reflexivity]. }
  destruct a as [| b | z | q | s | l | kv].
  7: { cbn. eexists. split; [reflexivity |].
       rewrite !dict_get_set. cbn.
       split; [reflexivity |]. split; [discriminate |].
       split; [reflexivity |]. split.
       - intros a _ [= <-]. split; [reflexivity |].
         intros k H1 H2 H3. rewrite !dict_get_set.
         destruct (String.eqb_spec k "image_path"); [done |].
         destruct (String.eqb_spec k "model_used"); [done |].
         by destruct (String.eqb_spec k "timestamp").
       - intros _ Hn. by destruct (Hn kv). }
  all: cbn; eexists; (split; [reflexivity |]); (split; [reflexivity |]);
    (split; [discriminate |]); (split; [reflexivity |]);
    (split; [intros; discriminate |]); intros _ _;
    (split; [reflexivity |]); (split; [by eexists | reflexivity]).
Qed.

Lemma validate_single_image_record_witness :
  exists r,
    V3.validate_single_image
      {| V3.adapter := prose_model;
         V3.path_exists := fun _ => true;
         V3.now := "2025-01-01T12:00:00" |} "car.jpg" "detailed" = JObj r
    /\ verdict r "No"
    /\ dict_get "image_path" r = Some (JStr "car.jpg").
Proof.
  set (E := {| V3.adapter := prose_model;
               V3.path_exists := fun _ => true;
               V3.now := "2025-01-01T12:00:00" |}).
  destruct (validate_single_image_record E "car.jpg" "detailed")
    as (r & Hr & _ & _ & Hpath & Hdict & _).
  exists r. split; [exact Hr |].
  destruct (Hdict V3.fallback eq_refl eq_refl) as [_ Hkeep].
  split.
  - unfold verdict. rewrite Hkeep by discriminate. reflexivity.
  - apply Hpath. reflexivity.
Defined.

(** X16. What the adapter does to an answer that parses as a dict.  The
    verdict is never changed.  An answer with criteria is returned as it
    is, and so is one whose verdict is neither "Yes" nor "No".  An answer
    "Yes" or "No" without criteria is given the five criteria, all true
    for "Yes" and all false for "No"; for "No" its reasons are replaced
    by "Detailed analysis not available".  Hence a "Yes" or "No" record
    of the adapter always carries criteria. *)
Theorem check_car_image_completes (E : V3.collaborators)
  (p content : string) (kv : dict) :
  V3.ask_model E p = Ok content ->
  V3.json_loads E (V3.clean content) = Some (JObj kv) ->
  exists r,
    V3.check_car_image E p = Ok (JObj r)
    /\ dict_get "result" r = dict_get "result" kv
    /\ (is_Some (dict_get "criteria" kv) -> r = kv)
    /\ (~ verdict kv "Yes" -> ~ verdict kv "No" -> r = kv)
    /\ (dict_get "criteria" kv = None -> verdict kv "Yes" ->
        dict_get "criteria" r = Some (JObj (V3.criteria_all true))
        /\ dict_get "failure_reasons" r = dict_get "failure_reasons" kv)
    /\ (dict_get "criteria" kv = None -> verdict kv "No" ->
        dict_get "criteria" r = Some (JObj (V3.criteria_all false))
        /\ dict_get "failure_reasons" r
           = Some (strings ["Detailed analysis not available"]))
    /\ (verdict r "Yes" \/ verdict r "No" ->
        is_Some (dict_get "criteria" r)).
Proof.
  intros Hask Hparse. unfold V3.check_car_image.
  rewrite Hask. cbn [mbind res_bind]. rewrite Hparse.
  unfold V3.complete, verdict.
  destruct (dict_get "criteria" kv) as [cs |] eqn:Hcs.
  { rewrite bool_decide_eq_true_2 by (by eexists). cbn.
    exists kv. rewrite Hcs.
    repeat match goal with |- _ /\ _ => split end;
      try done; by eexists. }
  rewrite bool_decide_eq_false_2 by (by intros [? ?]). cbn [negb andb].
  assert (Hyes : forall v, from_option (V3.is_str "Yes") false v = true
                           <-> v = Some (JStr "Yes")).
  { intros [[| | | | s | |] |]; cbn; try (split; [discriminate | done]);
      try (split; discriminate).
    destruct (String.eqb_spec s "Yes") as [-> | Hs]; split; try done.
    intros [= ->]. done. }
  assert (Hno : forall v, from_option (V3.is_str "No") false v = true
                          <-> v = Some (JStr "No")).
  { intros [[| | | | s | |] |]; cbn; try (split; [discriminate | done]);
      try (split; discriminate).
    destruct (String.eqb_spec s "No") as [-> | Hs]; split; try done.
    intros [= ->]. done. }
  destruct (from_option (V3.is_str "Yes") false (dict_get "result" kv))
    eqn:Hy.
  - apply Hyes in Hy.
    assert (Hn : from_option (V3.is_str "No") false (dict_get "result" kv)
                 = false) by (by rewrite Hy).
    rewrite Hn. cbn. eexists. split; [reflexivity |].
    rewrite !dict_get_set. cbn. rewrite Hy.
    repeat match goal with |- _ /\ _ => split end;
      try done; try (by intros [? ?]); try (by eexists).
  - destruct (from_option (V3.is_str "No") false (dict_get "result" kv))
      eqn:Hn.
    + apply Hno in Hn. cbn. eexists. split; [reflexivity |].
      rewrite !dict_get_set. cbn. rewrite Hn.
      repeat match goal with |- _ /\ _ => split end;
        try done; try (by intros [? ?]); try (by eexists).
    + cbn. exists kv. split; [reflexivity |].
      assert (Hy' : dict_get "result" kv <> Some (JStr "Yes")).
      { intros H. apply Hyes in H. congruence. }
      assert (Hn' : dict_get "result" kv <> Some (JStr "No")).
      { intros H. apply Hno in H. congruence. }
      repeat match goal with |- _ /\ _ => split end;
        try done. intros [H | H]; done.
Qed.

Lemma check_car_image_completes_witness :
  exists r,
    V3.check_car_image
      {| V3.ask_model := fun _ => Ok "(a bare verdict)";
         V3.json_loads := fun _ => Some (JObj [("result", JStr "Yes")]) |}
      "car.jpg" = Ok (JObj r)
    /\ dict_get "criteria" r = Some (JObj (V3.criteria_all true)).
Proof.
  destruct (check_car_image_completes
              {| V3.ask_model := fun _ => Ok "(a bare verdict)";
                 V3.json_loads :=
                   fun _ => Some (JObj [("result", JStr "Yes")]) |}
              "car.jpg" "(a bare verdict)" [("result", JStr "Yes")]
              eq_refl eq_refl)
    as (r & Hr & _ & _ & _ & Hyes & _).
  exists r. split; [exact Hr |].
  apply Hyes; reflexivity.
Defined.

(** ** The clean-up of the model's answer *)

Lemma chars_app (s t : string) : chars (s +:+ t) = chars s ++ chars t.
Proof.
  unfold chars. induction s as [| c s IH]; [done |].
  simpl. by rewrite IH.
Qed.

Lemma chars_of_chars (l : list ascii) : chars (of_chars l) = l.
Proof. apply list_ascii_of_string_of_list_ascii. Qed.

Lemma of_chars_chars (s : string) : of_chars (chars s) = s.
Proof. apply string_of_list_ascii_of_string. Qed.

Lemma length_of_chars (l : list ascii) :
  String.length (of_chars l) = length l.
Proof.
  unfold of_chars. induction l as [| c l IH]; [done |].
  simpl. by rewrite IH.
Qed.

(** A plain byte is no white space and no part of a longer one. *)
Lemma plain_alone (c x y : ascii) :
  plain c = true ->
  is_space c = false
  /\ is_space2 c x = false /\ is_space2 x c = false
  /\ is_space3 c x y = false /\ is_space3 x y c = false.
Proof.
  unfold plain. rewrite andb_true_iff, negb_true_iff, Nat.ltb_lt.
  intros [Hs Hc]. split; [done |].
  unfold is_space2, is_space3. cbv zeta.
  set (n := nat_of_ascii c) in *.
  assert (H194 : (n =? 194)%nat = false) by (apply Nat.eqb_neq; lia).
  assert (H133 : (n =? 133)%nat = false) by (apply Nat.eqb_neq; lia).
  assert (H160 : (n =? 160)%nat = false) by (apply Nat.eqb_neq; lia).
  assert (H225 : (n =? 225)%nat = false) by (apply Nat.eqb_neq; lia).
  assert (H226 : (n =? 226)%nat = false) by (apply Nat.eqb_neq; lia).
  assert (H227 : (n =? 227)%nat = false) by (apply Nat.eqb_neq; lia).
  assert (H128 : (n =? 128)%nat = false) by (apply Nat.eqb_neq; lia).
  assert (H168 : (n =? 168)%nat = false) by (apply Nat.eqb_neq; lia).
  assert (H169 : (n =? 169)%nat = false) by (apply Nat.eqb_neq; lia).
  assert (H175 : (n =? 175)%nat = false) by (apply Nat.eqb_neq; lia).
  assert (H159 : (n =? 159)%nat = false) by (apply Nat.eqb_neq; lia).
  assert (Hle : (128 <=? n)%nat = false) by (apply Nat.leb_gt; lia).
  rewrite H194, H133, H160, H225, H226, H227, H128, H168, H169, H175, H159,
    Hle.
  repeat first [progress cbn [andb orb] | rewrite andb_false_r].
  done.
Qed.

Lemma lstrip_bytes_blank (back : bool) (ws : list ascii) (c : ascii)
  (l : list ascii) :
  Forall (fun c => is_space c = true) ws ->
  plain c = true ->
  lstrip_bytes back (ws ++ c :: l) = c :: l.
Proof.
  intros Hws Hc. induction Hws as [| w ws Hw _ IH].
  - cbn [app lstrip_bytes].
    destruct (plain_alone c c c Hc) as [-> _].
    destruct l as [| x l]; [done |].
    destruct (plain_alone c x x Hc) as (_ & -> & -> & _).
    destruct l as [| y l]; [by destruct back |].
    destruct (plain_alone c x y Hc) as (_ & _ & _ & -> & _).
    destruct (plain_alone c y x Hc) as (_ & _ & _ & _ & ->).
    by destruct back.
  - cbn [app lstrip_bytes]. by rewrite Hw.
Qed.

Lemma lstrip_chars_blank (ws : list ascii) (c : ascii) (l : list ascii) :
  Forall (fun c => is_space c = true) ws ->
  plain c = true ->
  lstrip_chars (ws ++ c :: l) = c :: l.
Proof. apply lstrip_bytes_blank. Qed.

Lemma rstrip_chars_blank (ws : list ascii) (c : ascii) (l : list ascii) :
  Forall (fun c => is_space c = true) ws ->
  plain c = true ->
  rstrip_chars (l ++ c :: ws) = l ++ [c].
Proof.
  intros Hws Hc. unfold rstrip_chars.
  rewrite reverse_app, reverse_cons, <- app_assoc. cbn [app].
  rewrite lstrip_bytes_blank; [| by apply Forall_reverse | done].
  by rewrite reverse_cons, reverse_involutive.
Qed.

(** [strip] removes the whitespace around a text that begins and ends with
    other characters, and nothing else. *)
Lemma strip_of_chars (ws1 ws2 mid : list ascii) (c d : ascii) :
  Forall (fun c => is_space c = true) ws1 ->
  Forall (fun c => is_space c = true) ws2 ->
  plain c = true ->
  plain d = true ->
  strip (of_chars (ws1 ++ c :: mid ++ d :: ws2)) = of_chars (c :: mid ++ [d]).
Proof.
  intros H1 H2 Hc Hd. unfold strip. rewrite chars_of_chars.
  rewrite lstrip_chars_blank by done.
  change (c :: mid ++ d :: ws2) with ((c :: mid) ++ d :: ws2).
  by rewrite rstrip_chars_blank.
Qed.

Lemma prefix_cons (a b : ascii) (p s : string) :
  String.prefix (String a p) (String b s)
  = if ascii_dec a b then String.prefix p s else false.
Proof. reflexivity. Qed.

Lemma prefix_of_chars (p : string) (rest : list ascii) :
  String.prefix p (of_chars (chars p ++ rest)) = true.
Proof.
  unfold of_chars, chars. induction p as [| c p IH]; simpl.
  - by destruct (string_of_list_ascii rest).
  - by destruct (ascii_dec c c).
Qed.

Lemma startswith_fence (rest : list ascii) :
  startswith (of_chars (chars "```json" ++ rest)) "```json" = true.
Proof. apply prefix_of_chars. Qed.

Lemma str_from_fence (rest : list ascii) :
  str_from 7 (of_chars (chars "```json" ++ rest)) = of_chars rest.
Proof.
  unfold str_from, str_slice, slice.
  rewrite length_of_chars, chars_of_chars.
  set (l := chars "```json" ++ rest).
  assert (Hl : length l = (7 + length rest)%nat) by done.
  replace (slice_index (length l) 7) with 7%nat
    by (unfold slice_index; cbn; lia).
  replace (slice_index (length l) (Z.of_nat (length l))) with (length l)
    by (unfold slice_index;
        destruct (Z.ltb_spec (Z.of_nat (length l)) 0); lia).
  rewrite take_ge by (rewrite length_drop; lia). done.
Qed.

Lemma endswith_fence (x : list ascii) :
  endswith (of_chars (x ++ chars "```")) "```" = true.
Proof.
  unfold endswith. rewrite chars_of_chars, reverse_app.
  apply (prefix_of_chars "```").
Qed.

Lemma str_slice_fence (x : list ascii) :
  str_slice 0 (-3) (of_chars (x ++ chars "```")) = of_chars x.
Proof.
  unfold str_slice, slice. rewrite chars_of_chars.
  set (l := x ++ chars "```").
  assert (Hl : length l = (length x + 3)%nat)
    by (unfold l; by rewrite length_app).
  replace (slice_index (length l) 0) with 0%nat
    by (unfold slice_index; cbn; lia).
  replace (slice_index (length l) (-3)) with (length x)
    by (unfold slice_index; cbn; lia).
  rewrite Nat.sub_0_r, drop_0. unfold l. by rewrite take_app_length.
Qed.

Lemma endswith_brace (x : list ascii) :
  endswith (of_chars (x ++ chars "}")) "```" = false.
Proof.
  unfold endswith. rewrite chars_of_chars, reverse_app. reflexivity.
Qed.

(** After an opening fence without the word json comes whitespace or the
    answer, so the text does not start with the fence the adapter looks
    for. *)
Lemma startswith_bare_fence (gap rest : list ascii) :
  Forall (fun c => is_space c = true) gap ->
  startswith (of_chars (chars "```" ++ gap ++ chars "{" ++ rest)) "```json"
  = false.
Proof.
  intros Hgap. destruct Hgap as [| c gap Hc _]; [reflexivity |].
  unfold startswith.
  change (String.prefix "```json"
            (String "`" (String "`" (String "`"
               (String c (of_chars (gap ++ chars "{" ++ rest))))))
          = false).
  do 3 (rewrite prefix_cons; destruct (ascii_dec _ _) as [_ | _];
        [| done]).
  rewrite prefix_cons. destruct (ascii_dec _ _) as [<- | _]; [| done].
  discriminate.
Qed.

Ltac same_chars :=
  repeat first [progress simpl | rewrite <- app_assoc]; reflexivity.

Lemma clean_of_chars (L G1 G2 T B : list ascii) :
  Forall (fun c => is_space c = true) L ->
  Forall (fun c => is_space c = true) G1 ->
  Forall (fun c => is_space c = true) G2 ->
  Forall (fun c => is_space c = true) T ->
  V3.clean (of_chars (L ++ chars "{" ++ B ++ chars "}" ++ T))
  = of_chars (chars "{" ++ B ++ chars "}")
  /\ V3.clean (of_chars (L ++ chars "```json" ++ G1 ++ chars "{" ++ B
                          ++ chars "}" ++ G2 ++ chars "```" ++ T))
     = of_chars (chars "{" ++ B ++ chars "}")
  /\ V3.clean (of_chars (L ++ chars "```" ++ G1 ++ chars "{" ++ B
                          ++ chars "}" ++ G2 ++ chars "```" ++ T))
     = of_chars (chars "```" ++ G1 ++ chars "{" ++ B ++ chars "}").
Proof.
  intros HL HG1 HG2 HT.
  assert (Hcore : strip (of_chars ("{"%char :: B ++ ["}"%char]))
                  = of_chars ("{"%char :: B ++ ["}"%char])).
  { apply (strip_of_chars [] [] B "{" "}"); done. }
  split; [| split]; unfold V3.clean.
  - replace (L ++ chars "{" ++ B ++ chars "}" ++ T)
      with (L ++ "{"%char :: B ++ "}"%char :: T) by same_chars.
    rewrite strip_of_chars by done.
    change (startswith (of_chars ("{"%char :: B ++ ["}"%char])) "```json")
      with false. cbv iota.
    rewrite (endswith_brace ("{"%char :: B)
             : endswith (of_chars ("{"%char :: B ++ ["}"%char])) "```"
               = false).
    exact Hcore.
  - replace (L ++ chars "```json" ++ G1 ++ chars "{" ++ B ++ chars "}"
               ++ G2 ++ chars "```" ++ T)
      with (L ++ "`"%char
              :: (chars "``json" ++ G1 ++ "{"%char :: B ++ "}"%char :: G2
                    ++ chars "``")
              ++ "`"%char :: T) by same_chars.
    rewrite strip_of_chars by done.
    replace ("`"%char
               :: (chars "``json" ++ G1 ++ "{"%char :: B ++ "}"%char :: G2
                     ++ chars "``") ++ ["`"%char])
      with (chars "```json"
              ++ (G1 ++ "{"%char :: B ++ "}"%char :: G2) ++ chars "```")
      by same_chars.
    rewrite startswith_fence, str_from_fence, endswith_fence, str_slice_fence.
    apply strip_of_chars; done.
  - replace (L ++ chars "```" ++ G1 ++ chars "{" ++ B ++ chars "}"
               ++ G2 ++ chars "```" ++ T)
      with (L ++ "`"%char
              :: (chars "``" ++ G1 ++ "{"%char :: B ++ "}"%char :: G2
                    ++ chars "``")
              ++ "`"%char :: T) by same_chars.
    rewrite strip_of_chars by done.
    replace ("`"%char
               :: (chars "``" ++ G1 ++ "{"%char :: B ++ "}"%char :: G2
                     ++ chars "``") ++ ["`"%char])
      with (chars "```" ++ G1 ++ chars "{"
              ++ (B ++ "}"%char :: G2 ++ chars "```"))
      by same_chars.
    rewrite startswith_bare_fence by done.
    replace (chars "```" ++ G1 ++ chars "{"
               ++ (B ++ "}"%char :: G2 ++ chars "```"))
      with ((chars "```" ++ G1 ++ "{"%char :: B ++ "}"%char :: G2)
              ++ chars "```")
      by same_chars.
    rewrite endswith_fence, str_slice_fence.
    replace (chars "```" ++ G1 ++ "{"%char :: B ++ "}"%char :: G2)
      with ([] ++ "`"%char :: (chars "``" ++ G1 ++ "{"%char :: B)
              ++ "}"%char :: G2)
      by same_chars.
    rewrite strip_of_chars by done.
    f_equal. same_chars.
Qed.

(** X17. The clean-up of the answer.  Around an answer that is a JSON
    object, whitespace is dropped; a fence opened by three backticks and
    the word json and closed by three backticks is dropped as well, with
    the whitespace inside it.  An opening fence without the word json is
    not recognised: the closing fence goes and the opening one stays, so
    that such an answer will not parse. *)
Theorem clean_unwraps_fence (lead gap1 gap2 trail body : string) :
  blank lead -> blank gap1 -> blank gap2 -> blank trail ->
  V3.clean (lead +:+ "{" +:+ body +:+ "}" +:+ trail) = "{" +:+ body +:+ "}"
  /\ V3.clean (lead +:+ "```json" +:+ gap1 +:+ "{" +:+ body +:+ "}"
               +:+ gap2 +:+ "```" +:+ trail)
     = "{" +:+ body +:+ "}"
  /\ V3.clean (lead +:+ "```" +:+ gap1 +:+ "{" +:+ body +:+ "}"
               +:+ gap2 +:+ "```" +:+ trail)
     = "```" +:+ gap1 +:+ "{" +:+ body +:+ "}".
Proof.
  unfold blank. intros Hlead Hgap1 Hgap2 Htrail.
  destruct (clean_of_chars (chars lead) (chars gap1) (chars gap2)
              (chars trail) (chars body) Hlead Hgap1 Hgap2 Htrail)
    as (H1 & H2 & H3).
  rewrite <- (of_chars_chars ("```" +:+ gap1 +:+ "{" +:+ body +:+ "}")).
  rewrite <- (of_chars_chars ("{" +:+ body +:+ "}")) at 1 2.
  rewrite <- (of_chars_chars (lead +:+ "{" +:+ _)).
  rewrite <- (of_chars_chars (lead +:+ "```json" +:+ _)).
  rewrite <- (of_chars_chars (lead +:+ "```" +:+ _)).
  rewrite !chars_app. done.
Qed.

Lemma clean_unwraps_fence_witness :
  V3.clean ("" +:+ "```json" +:+ " " +:+ "{" +:+ "0" +:+ "}" +:+ " "
            +:+ "```" +:+ "")
  = "{" +:+ "0" +:+ "}".
Proof.
  apply (proj1 (proj2 (clean_unwraps_fence "" " " " " "" "0"
                         ltac:(constructor)
                         ltac:(repeat constructor)
                         ltac:(repeat constructor)
                         ltac:(constructor)))).
Defined.

(** ** Directory runs of the simple pipeline and of the vision model *)

Lemma dict_set_fresh (k : string) (v : json) (d : dict) :
  k ∉ d.*1 -> dict_set k v d = d ++ [(k, v)].
Proof.
  induction d as [| [k' v'] d IH]; [done |].
  cbn [fmap list_fmap fst dict_set app]. intros Hk.
  apply not_elem_of_cons in Hk as [Hne Hk].
  destruct (String.eqb_spec k k'); [done |]. by rewrite IH.
Qed.

Lemma dict_get_absent (k : string) (d : dict) :
  k ∉ d.*1 -> dict_get k d = None.
Proof.
  induction d as [| [k' v'] d IH]; [done |].
  cbn [fmap list_fmap fst dict_get]. intros Hk.
  apply not_elem_of_cons in Hk as [Hne Hk].
  destruct (String.eqb_spec k k'); [done |]. by apply IH.
Qed.

Lemma results_of_keys (g : string -> json) (files : list string) :
  (results_of g files).*1 = files.
Proof.
  unfold results_of. rewrite <- list_fmap_compose.
  induction files as [| f files IH]; [done |]. cbn. by rewrite IH.
Qed.

Lemma results_of_values (g : string -> json) (files : list string) :
  (results_of g files).*2 = g <$> files.
Proof. unfold results_of. by rewrite <- list_fmap_compose. Qed.

(** The loop of a batch: it runs through when every report does, and the
    first report that raises ends it. *)
Lemma batch_loop_ok (g : string -> json) (pr : json -> res unit)
  (acc : dict) (fs : list string) :
  NoDup (acc.*1 ++ fs) ->
  Forall (fun f => pr (g f) = Ok tt) fs ->
  foldl (fun acc f =>
           results ← acc;
           _ ← pr (g f);
           mret (dict_set f (g f) results)) (Ok acc) fs
  = Ok (acc ++ results_of g fs).
Proof.
  revert acc. induction fs as [| f fs IH]; intros acc Hnd Hpr.
  { cbn. by rewrite app_nil_r. }
  apply Forall_cons in Hpr as [Hf Hpr].
  cbn [foldl mbind res_bind]. rewrite Hf. cbn [mbind res_bind mret res_ret].
  rewrite dict_set_fresh.
  2: { apply NoDup_app in Hnd as (_ & Hdis & _). intros Hin.
       apply (Hdis f Hin). by left. }
  rewrite IH; [| | done].
  - unfold results_of. cbn [fmap list_fmap]. by rewrite <- app_assoc.
  - rewrite fmap_app. cbn. by rewrite <- app_assoc.
Qed.

Lemma batch_loop_raised (g : string -> json) (pr : json -> res unit)
  (e : exn) (fs : list string) :
  foldl (fun acc f =>
           results ← acc;
           _ ← pr (g f);
           mret (dict_set f (g f) results)) (Raise e) fs
  = Raise e.
Proof. induction fs as [| f fs IH]; [done |]. apply IH. Qed.

Lemma batch_loop_raise (g : string -> json) (pr : json -> res unit)
  (acc : dict) (fs : list string) :
  Exists (fun f => pr (g f) <> Ok tt) fs ->
  exists e,
    foldl (fun acc f =>
             results ← acc;
             _ ← pr (g f);
             mret (dict_set f (g f) results)) (Ok acc) fs
    = Raise e.
Proof.
  revert acc. induction fs as [| f fs IH]; intros acc Hex.
  { by apply Exists_nil in Hex. }
  cbn [foldl mbind res_bind].
  destruct (pr (g f)) as [[] | e] eqn:Hf.
  - cbn [mbind res_bind mret res_ret]. apply IH.
    apply Exists_cons in Hex as [Hex | Hex]; [done | done].
  - exists e. apply batch_loop_raised.
Qed.

Lemma has_result_true (v : string) (r : dict) :
  has_result v r = true <-> verdict r v.
Proof.
  unfold has_result, verdict.
  destruct (dict_get "result" r) as [[| | | | s | |] |];
    try (split; discriminate).
  destruct (String.eqb_spec s v) as [-> | Hs]; split; try done.
  intros [= ->]. done.
Qed.

(** The three counts of the summary never raise on records, they count
    no record twice, and they miss none that has one of the verdicts. *)
Lemma count_results_sum (rs : list json) :
  Forall is_record rs ->
  exists passed failed errors,
    count_results "Yes" rs = Ok passed
    /\ count_results "No" rs = Ok failed
    /\ count_results "Error" rs = Ok errors
    /\ (passed + failed + errors <= length rs)%nat
    /\ (Forall has_verdict rs ->
        (passed + failed + errors)%nat = length rs).
Proof.
  induction 1 as [| v rs [r ->] _ IH].
  { exists 0%nat, 0%nat, 0%nat. cbn. repeat split; done. }
  destruct IH as (p & f & e & Hp & Hf & He & Hle & Heq).
  cbn [count_results]. rewrite Hp, Hf, He. cbn [mbind res_bind mret res_ret].
  do 3 eexists. split; [reflexivity |]. split; [reflexivity |].
  split; [reflexivity |].
  pose proof (has_result_true "Yes" r) as HY.
  pose proof (has_result_true "No" r) as HN.
  pose proof (has_result_true "Error" r) as HE.
  unfold verdict in *.
  split.
  - cbn [length].
    destruct (has_result "Yes" r), (has_result "No" r),
      (has_result "Error" r); try lia;
      repeat match goal with
             | H : true = true <-> _ |- _ => apply proj1 in H; specialize (H eq_refl)
             end; congruence.
  - intros Hall. apply Forall_cons in Hall as [(r' & [= <-] & Hv) Hall].
    specialize (Heq Hall). cbn [length].
    destruct (has_result "Yes" r), (has_result "No" r),
      (has_result "Error" r);
      repeat match goal with
             | H : true = true <-> _ |- _ => apply proj1 in H; specialize (H eq_refl)
             | H : false = true <-> _ |- _ => apply proj2 in H
             end; try congruence; try lia.
    destruct Hv as [Hv | [Hv | Hv]]; [by apply HY in Hv | by apply HN in Hv | by apply HE in Hv].
Qed.

Lemma print_result_record (mode : string) (v : json) :
  is_record v ->
  (print_result mode v = Ok tt <-> ~ unprintable mode v)
  /\ (print_result mode v <> Ok tt ->
      exists e, print_result mode v = Raise e).
Proof.
  intros [r ->]. split.
  2: { intros Hn. destruct (print_result mode (JObj r)) as [[] | e]; eauto.
       done. }
  unfold print_result, unprintable.
  pose proof (has_result_true "No" r) as HN.
  destruct (dict_get "failure_reasons" r) as [reasons |] eqn:Hr.
  2: { split; [| done]. intros _ (_ & r' & reasons & [= <-] & _ & Hr' & _).
       congruence. }
  destruct (String.eqb_spec mode "detailed") as [-> | Hm]; cbn [andb].
  2: { split; [| done]. by intros _ [Hm' _]. }
  destruct (has_result "No" r).
  2: { split; [| done]. intros _ (_ & r' & reasons' & [= <-] & Hv & _).
       apply HN in Hv. discriminate. }
  split.
  - intros Hok (_ & r' & reasons' & [= <-] & _ & Hr' & Hbad).
    rewrite Hr in Hr'. injection Hr' as <-.
    destruct reasons; try done; discriminate.
  - intros Hn. destruct reasons; try done; exfalso; apply Hn;
      (split; [done |]); exists r; eexists;
      (split; [done |]); (split; [by apply HN |]); (split; [done |]); done.
Qed.

(** The failure reasons of a record of the simple pipeline are a list. *)
Lemma V1_verify_image_reasons (E : V1.collaborators) (p mode : string) :
  dict_get "failure_reasons" (V1.verify_image E p mode) = None
  \/ exists l,
       dict_get "failure_reasons" (V1.verify_image E p mode)
       = Some (strings l).
Proof.
  destruct (V1.path_exists E p) eqn:Hp.
  2: { unfold V1.verify_image, V1.verify_image_try. rewrite Hp. by left. }
  destruct (V1.imread E p) as [img |] eqn:Hi.
  2: { unfold V1.verify_image, V1.verify_image_try. rewrite Hp, Hi.
       by left. }
  destruct (V1.validate_image_quality E img) as [valid msg] eqn:Hq.
  destruct valid.
  2: { unfold V1.verify_image, V1.verify_image_try. rewrite Hp, Hi, Hq.
       by left. }
  destruct (V1.detect_car E img) as [found bb] eqn:Hd.
  destruct found, bb as [b |].
  2-4: unfold V1.verify_image, V1.verify_image_try;
    rewrite Hp, Hi, Hq, Hd; cbn; right; by eexists.
  destruct (V1_verify_image_found E p mode img b) as (s & f & Hr);
    [done | done | by rewrite Hq | done |].
  rewrite Hr. unfold V1.report.
  destruct s, (V1.check_background_white img b),
    (V1.heuristic_orientation_check b), f; cbn;
    first [by left | right; by eexists].
Qed.

Lemma V1_print_result (E : V1.collaborators) (p mode : string) :
  print_result mode (JObj (V1.verify_image E p mode)) = Ok tt.
Proof.
  apply print_result_record; [by eexists |].
  intros (_ & r & reasons & [= <-] & _ & Hr & Hbad).
  destruct (V1_verify_image_reasons E p mode) as [Hn | [l Hl]].
  - congruence.
  - rewrite Hl in Hr. injection Hr as <-. done.
Qed.

Lemma summary_of_results (g : string -> json) (files : list string) :
  "error" ∉ files ->
  Forall is_record (g <$> files) ->
  exists passed failed errors,
    summary (results_of g files)
    = Ok (Some (length files, passed, failed, errors))
    /\ (passed + failed + errors <= length files)%nat
    /\ (Forall has_verdict (g <$> files) ->
        (passed + failed + errors)%nat = length files).
Proof.
  intros Herr Hrec.
  destruct (count_results_sum _ Hrec) as (p & f & e & Hp & Hf & He & Hle & Heq).
  rewrite length_fmap in Hle, Heq.
  exists p, f, e. split; [| done].
  unfold summary.
  rewrite dict_get_absent by (by rewrite results_of_keys).
  rewrite bool_decide_eq_false_2 by (by intros [? ?]).
  rewrite results_of_values, Hp, Hf, He. cbn.
  unfold results_of. by rewrite length_fmap.
Qed.

Lemma image_files_no_error (D : directory) (names : list string)
  (exts : list string) :
  (splitext D (lower D "error")).2 ∉ exts ->
  "error" ∉ filter (fun f => (splitext D (lower D f)).2 ∈ exts) names.
Proof.
  intros Hext Hin. apply list_elem_of_filter in Hin as [Hin _]. done.
Qed.

(** X18. A directory run of the simple pipeline.  When the directory
    exists and its listing succeeds, [validate_multiple_images] returns,
    with one record per image file of the listing, keyed by the file name
    and in the order of the listing; and the numbers of the summary add
    up: passed + failed + errors = total = the number of image files. *)
Theorem V1_batch_counts_add_up (E : V1.collaborators) (D : directory)
  (image_dir mode : string) (names : list string) :
  V1.path_exists E image_dir = true ->
  listdir D image_dir = Ok names ->
  NoDup names ->
  (splitext D (lower D "error")).2 ∉ V1.image_extensions ->
  exists results passed failed errors,
    V1.validate_multiple_images E D image_dir mode = Ok results
    /\ results
       = results_of
           (fun f => JObj (V1.verify_image E (path_join D image_dir f) mode))
           (V1.image_files D names)
    /\ summary results
       = Ok (Some (length (V1.image_files D names), passed, failed, errors))
    /\ (passed + failed + errors)%nat = length (V1.image_files D names).
Proof.
  intros Hdir Hlist Hnd Hext.
  set (g := fun f => JObj (V1.verify_image E (path_join D image_dir f) mode)).
  destruct (summary_of_results g (V1.image_files D names))
    as (p & f & e & Hsum & _ & Heq).
  { by apply image_files_no_error. }
  { apply Forall_fmap, Forall_forall. intros x _. by eexists. }
  exists (results_of g (V1.image_files D names)), p, f, e.
  split; [| split; [done | split; [done |]]].
  - unfold V1.validate_multiple_images. rewrite Hdir, Hlist.
    cbn [negb mbind res_bind].
    apply (batch_loop_ok g (print_result mode) []).
    + cbn. by apply NoDup_filter.
    + apply Forall_forall. intros x _. apply V1_print_result.
  - apply Heq. apply Forall_fmap, Forall_forall. intros x _.
    eexists. split; [reflexivity |].
    by destruct (V1_verify_image_shape E (path_join D image_dir x) mode)
      as [[Hv _] _].
Qed.

Lemma V1_batch_counts_add_up_witness :
  exists results passed failed errors,
    V1.validate_multiple_images
      (studio_v1 studio_photo [car_row studio_box]) sample_directory
      "photos" "detailed" = Ok results
    /\ results
       = results_of
           (fun f =>
              JObj (V1.verify_image
                      (studio_v1 studio_photo [car_row studio_box])
                      (path_join sample_directory "photos" f) "detailed"))
           (V1.image_files sample_directory ["car.jpg"; "notes.txt"])
    /\ summary results
       = Ok (Some (length (V1.image_files sample_directory
                             ["car.jpg"; "notes.txt"]),
                   passed, failed, errors))
    /\ (passed + failed + errors)%nat
       = length (V1.image_files sample_directory ["car.jpg"; "notes.txt"]).
Proof.
  apply (V1_batch_counts_add_up
           (studio_v1 studio_photo [car_row studio_box]) sample_directory
           "photos" "detailed" ["car.jpg"; "notes.txt"]).
  - reflexivity.
  - reflexivity.
  - apply (bool_decide_unpack _). vm_compute. exact I.
  - apply (bool_decide_unpack _). vm_compute. exact I.
Defined.

Lemma validate_single_image_is_record (E : V3.environment)
  (p mode : string) :
  is_record (V3.validate_single_image E p mode).
Proof.
  unfold V3.validate_single_image, V3.validate_single_image_try.
  destruct (V3.path_exists E p); cbn [negb]; [| by eexists].
  destruct (V3.check_car_image (V3.adapter E) p) as [a | e];
    cbn [mbind res_bind]; [| by eexists].
  destruct a; cbn; by eexists.
Qed.

(** X19. A directory run over the vision model.  When the directory
    exists and its listing succeeds, [validate_multiple_images] returns
    one record per image file, keyed by the file name, unless in detailed
    mode some record says "No" with reasons that are null, a boolean or a
    number; with such a record the loop over the reasons raises and the
    run is lost.  In the summary of the returned results no record is
    counted twice: passed + failed + errors is at most the total, and
    equal to it when every record has one of the three verdicts. *)
Theorem V3_batch_may_raise (E : V3.environment) (D : directory)
  (image_dir mode : string) (names : list string) :
  V3.path_exists E image_dir = true ->
  listdir D image_dir = Ok names ->
  NoDup names ->
  (splitext D (lower D "error")).2 ∉ V3.image_extensions ->
  ((forall f, f ∈ V3.image_files D names ->
      ~ unprintable mode
          (V3.validate_single_image E (path_join D image_dir f) mode)) ->
   V3.validate_multiple_images E D image_dir mode
   = Ok (results_of
           (fun f => V3.validate_single_image E (path_join D image_dir f) mode)
           (V3.image_files D names)))
  /\ ((exists f, f ∈ V3.image_files D names
         /\ unprintable mode
              (V3.validate_single_image E (path_join D image_dir f) mode)) ->
      exists e, V3.validate_multiple_images E D image_dir mode = Raise e)
  /\ exists passed failed errors,
       summary (results_of
                  (fun f =>
                     V3.validate_single_image E (path_join D image_dir f) mode)
                  (V3.image_files D names))
       = Ok (Some (length (V3.image_files D names), passed, failed, errors))
       /\ (passed + failed + errors <= length (V3.image_files D names))%nat
       /\ ((forall f, f ∈ V3.image_files D names ->
              has_verdict
                (V3.validate_single_image E (path_join D image_dir f) mode)) ->
           (passed + failed + errors)%nat
           = length (V3.image_files D names)).
Proof.
  intros Hdir Hlist Hnd Hext.
  set (g := fun f => V3.validate_single_image E (path_join D image_dir f) mode).
  assert (Hrec : forall f, is_record (g f))
    by (intros f; apply validate_single_image_is_record).
  split; [| split].
  - intros Hall. unfold V3.validate_multiple_images. rewrite Hdir, Hlist.
    cbn [negb mbind res_bind].
    apply (batch_loop_ok g (print_result mode) []).
    + cbn. by apply NoDup_filter.
    + apply Forall_forall. intros x Hx.
      apply print_result_record; [apply Hrec | by apply Hall].
  - intros (f & Hf & Hbad). unfold V3.validate_multiple_images.
    rewrite Hdir, Hlist. cbn [negb mbind res_bind].
    apply (batch_loop_raise g (print_result mode) []).
    apply Exists_exists. exists f. split; [done |].
    intros Hok. by apply (print_result_record mode (g f) (Hrec f)) in Hok.
  - destruct (summary_of_results g (V3.image_files D names))
      as (p & f & e & Hsum & Hle & Heq).
    { by apply image_files_no_error. }
    { apply Forall_fmap, Forall_forall. intros x _. apply Hrec. }
    exists p, f, e. split; [done |]. split; [done |].
    intros Hall. apply Heq. apply Forall_fmap, Forall_forall.
    intros x Hx. by apply Hall.
Qed.

Lemma V3_batch_may_raise_witness :
  exists e,
    V3.validate_multiple_images
      {| V3.adapter := terse_model;
         V3.path_exists := fun _ => true;
         V3.now := "2025-01-01T12:00:00" |}
      sample_directory "photos" "detailed" = Raise e.
Proof.
  apply (proj1 (proj2 (V3_batch_may_raise
                         {| V3.adapter := terse_model;
                            V3.path_exists := fun _ => true;
                            V3.now := "2025-01-01T12:00:00" |}
                         sample_directory "photos" "detailed"
                         ["car.jpg"; "notes.txt"]
                         eq_refl eq_refl
                         ltac:(apply (bool_decide_unpack _); vm_compute;
                               exact I)
                         ltac:(apply (bool_decide_unpack _); vm_compute;
                               exact I)))).
  exists "car.jpg". split.
  - apply (bool_decide_unpack _). vm_compute. exact I.
  - split; [reflexivity |]. do 2 eexists.
    split; [reflexivity |]. split; [reflexivity |].
    split; [reflexivity | exact I].
Defined.

(** ** The directory run of the richer pipeline *)

(** What the directory run needs to know of a record of the richer
    pipeline: its verdict is one of the three, and its reasons, if any,
    are a list. *)
Lemma V2_verify_image_printable (E : V2.collaborators) (p mode : string) :
  (exists s,
      dict_get "result" (V2.verify_image E p mode) = Some (JStr s)
      /\ (s = "Yes" \/ s = "No" \/ s = "Error"))
  /\ (dict_get "failure_reasons" (V2.verify_image E p mode) = None
      \/ exists l,
           dict_get "failure_reasons" (V2.verify_image E p mode)
           = Some (strings l)).
Proof.
  unfold V2.verify_image, V2.verify_image_try.
  destruct (V2.path_exists E p);
    [| split; [eexists; split; [reflexivity | tauto] | by left]].
  destruct (V2.imread E p) as [img |];
    [| split; [eexists; split; [reflexivity | tauto] | by left]].
  destruct (V2.validate_image_quality E img) as [[[|] q] issues];
    [| split; [eexists; split; [reflexivity | tauto] | by left]].
  cbn [negb].
  destruct (V2.detect_car E img) as [[found bb] | e];
    [| split; [eexists; split; [reflexivity | tauto] | by left]].
  cbn [mbind res_bind].
  assert (Hno : let r :=
                  if String.eqb mode "detailed"
                  then dict_update
                         [("criteria", JObj V2.no_car_criteria);
                          ("image_path", JStr p);
                          ("quality_score", JFloat q)]
                         [("result", JStr "No");
                          ("failure_reasons",
                           strings ["No car detected in image"]);
                          ("timestamp", JStr (V2.now E));
                          ("model_used", JStr "yolov8n + sam + classifier")]
                  else [("result", JStr "No");
                        ("failure_reasons",
                         strings ["No car detected in image"]);
                        ("timestamp", JStr (V2.now E));
                        ("model_used", JStr "yolov8n + sam + classifier")] in
                (exists s,
                    dict_get "result" r = Some (JStr s)
                    /\ (s = "Yes" \/ s = "No" \/ s = "Error"))
                /\ (dict_get "failure_reasons" r = None
                    \/ exists l,
                         dict_get "failure_reasons" r = Some (strings l))).
  { cbv zeta. destruct (String.eqb mode "detailed");
      (split; [eexists; split; [reflexivity | tauto]
              | right; eexists; reflexivity]). }
  destruct found, bb as [b |]; try exact Hno.
  unfold V2.evaluate.
  destruct (V2.classify_orientation img b) as [o | e];
    [| split; [eexists; split; [reflexivity | tauto] | by left]].
  cbn [mbind res_bind mret res_ret].
  set (area_ok := V2.check_area_ratio _).
  set (bg := V2.check_white_background _ _).
  destruct o as [sv fl scores]. unfold V2.report.
  destruct (String.eqb mode "detailed"), area_ok, bg, sv, fl; cbn;
    (split; [eexists; split; [reflexivity | tauto]
            | first [by left | right; eexists; reflexivity]]).
Qed.

Lemma V2_print_progress (E : V2.collaborators) (p mode : string) :
  V2.print_progress (V2.verify_image E p mode) = Ok tt.
Proof.
  destruct (V2_verify_image_printable E p mode)
    as [(s & Hs & Hv) Hreasons].
  unfold V2.print_progress, get_item. rewrite Hs.
  cbn [mbind res_bind mret res_ret].
  destruct Hv as [-> | [-> | ->]]; try reflexivity.
  destruct Hreasons as [-> | [l ->]]; reflexivity.
Qed.

Lemma dict_set_values (P : json -> Prop) (k : string) (v : json) (d : dict) :
  P v -> Forall P d.*2 -> Forall P (dict_set k v d).*2.
Proof.
  intros Hv. induction d as [| [k' v'] d IH]; intros Hd.
  { cbn. by constructor. }
  cbn [dict_set]. cbn in Hd. apply Forall_cons in Hd as [Hv' Hd].
  destruct (String.eqb k k'); cbn; constructor; auto.
Qed.

Lemma dict_set_length (k : string) (v : json) (d : dict) :
  (length (dict_set k v d) <= S (length d))%nat.
Proof.
  induction d as [| [k' v'] d IH]; [done |].
  cbn [dict_set]. destruct (String.eqb k k'); cbn [length]; lia.
Qed.

(** The loop of the directory run never raises; every value it stores has
    one of the three verdicts. *)
Lemma V2_batch_loop (E : V2.collaborators) (D : directory)
  (directory_path mode : string) (fs : list string) (acc : dict) :
  Forall has_verdict acc.*2 ->
  (mode = "simple" -> Forall bare_verdict acc.*2) ->
  exists results,
    foldl (fun acc filename =>
             results ← acc;
             let file_path := path_join D directory_path filename in
             let result := V2.verify_image E file_path mode in
             let clean_key :=
               replace ".jpeg" ""
                 (replace ".jpg" "" (replace ".png" "" filename)) in
             results ←
               (if String.eqb mode "simple" then
                  verdict ← get_item "result" result;
                  mret (dict_set clean_key (JObj [("result", verdict)])
                          results)
                else mret (dict_set filename (JObj result) results));
             _ ← V2.print_progress result;
             mret results)
      (Ok acc) fs
    = Ok results
    /\ Forall has_verdict results.*2
    /\ (mode = "simple" -> Forall bare_verdict results.*2)
    /\ (length results <= length acc + length fs)%nat
    /\ (mode <> "simple" -> NoDup (acc.*1 ++ fs) ->
        results
        = acc ++ results_of
                   (fun f =>
                      JObj (V2.verify_image E (path_join D directory_path f)
                              mode)) fs).
Proof.
  match goal with
  | |- context [foldl ?F _ _] => set (step := F)
  end.
  revert acc. induction fs as [| f fs IH]; intros acc Hacc Hbare.
  { exists acc. cbn. repeat split; try done; try lia.
    intros _ _. by rewrite app_nil_r. }
  destruct (V2_verify_image_printable E (path_join D directory_path f) mode)
    as [(s & Hs & Hv) _].
  set (record := V2.verify_image E (path_join D directory_path f) mode) in *.
  set (clean_key :=
         replace ".jpeg" "" (replace ".jpg" "" (replace ".png" "" f))).
  assert (Hstep : step (Ok acc) f
                  = Ok (if String.eqb mode "simple"
                        then dict_set clean_key (JObj [("result", JStr s)]) acc
                        else dict_set f (JObj record) acc)).
  { unfold step. cbn [mbind res_bind]. cbv zeta.
    rewrite V2_print_progress. unfold get_item. fold record. rewrite Hs.
    by destruct (String.eqb mode "simple"). }
  cbn [foldl]. rewrite Hstep.
  assert (Hverdict : has_verdict (JObj record)).
  { eexists. split; [reflexivity |]. unfold verdict. rewrite Hs.
    destruct Hv as [-> | [-> | ->]]; tauto. }
  assert (Hshort : has_verdict (JObj [("result", JStr s)])).
  { eexists. split; [reflexivity |]. unfold verdict. cbn.
    destruct Hv as [-> | [-> | ->]]; tauto. }
  destruct (String.eqb_spec mode "simple") as [Hmode | Hmode].
  - destruct (IH (dict_set clean_key (JObj [("result", JStr s)]) acc))
      as (results & Hrun & Hall & Hb & Hlen & _).
    + by apply dict_set_values.
    + intros _. apply dict_set_values; [by eexists | by apply Hbare].
    + exists results. split; [done |]. split; [done |].
      split; [done |]. split; [| done].
      pose proof (dict_set_length clean_key (JObj [("result", JStr s)]) acc).
      cbn [length]. lia.
  - destruct (IH (dict_set f (JObj record) acc))
      as (results & Hrun & Hall & Hb & Hlen & Heq).
    + by apply dict_set_values.
    + done.
    + exists results. split; [done |]. split; [done |].
      split; [done |]. split.
      * pose proof (dict_set_length f (JObj record) acc).
        cbn [length]. lia.
      * intros _ Hnd.
        assert (Hfresh : f ∉ acc.*1).
        { apply NoDup_app in Hnd as (_ & Hdis & _). intros Hin.
          apply (Hdis f Hin). by left. }
        rewrite Heq; [| done |]; rewrite dict_set_fresh by done.
        -- unfold results_of. cbn [fmap list_fmap].
           by rewrite <- app_assoc.
        -- rewrite fmap_app. cbn. by rewrite <- app_assoc.
Qed.

Lemma is_dict_with_true (v : string) (r : json) :
  V2.is_dict_with v r = true <-> exists kv, r = JObj kv /\ verdict kv v.
Proof.
  destruct r; cbn; try (split; [discriminate | by intros (? & ? & _)]).
  rewrite has_result_true. split; [by eexists | by intros (? & [= <-] & ?)].
Qed.

(** Among records with verdicts, the three tallies make up the whole. *)
Lemma tally_sum (rs : list json) :
  Forall has_verdict rs ->
  (tally "Yes" rs + tally "No" rs + tally "Error" rs)%nat = length rs.
Proof.
  unfold tally. induction 1 as [| r rs (kv & -> & Hv) _ IH]; [done |].
  rewrite !filter_cons. cbn [length]. rewrite <- IH.
  pose proof (is_dict_with_true "Yes" (JObj kv)) as HY.
  pose proof (is_dict_with_true "No" (JObj kv)) as HN.
  pose proof (is_dict_with_true "Error" (JObj kv)) as HE.
  assert (Hone : forall a b, verdict kv a -> verdict kv b -> a = b).
  { unfold verdict. intros a b Ha Hb. congruence. }
  destruct Hv as [Hv | [Hv | Hv]].
  - rewrite (decide_True (P := V2.is_dict_with "Yes" _ = true))
      by (apply HY; eauto).
    rewrite (decide_False (P := V2.is_dict_with "No" _ = true)).
    2: { intros H. apply HN in H as (? & [= <-] & H).
         by specialize (Hone _ _ Hv H). }
    rewrite (decide_False (P := V2.is_dict_with "Error" _ = true)).
    2: { intros H. apply HE in H as (? & [= <-] & H).
         by specialize (Hone _ _ Hv H). }
    cbn [length]. lia.
  - rewrite (decide_True (P := V2.is_dict_with "No" _ = true))
      by (apply HN; eauto).
    rewrite (decide_False (P := V2.is_dict_with "Yes" _ = true)).
    2: { intros H. apply HY in H as (? & [= <-] & H).
         by specialize (Hone _ _ Hv H). }
    rewrite (decide_False (P := V2.is_dict_with "Error" _ = true)).
    2: { intros H. apply HE in H as (? & [= <-] & H).
         by specialize (Hone _ _ Hv H). }
    cbn [length]. lia.
  - rewrite (decide_True (P := V2.is_dict_with "Error" _ = true))
      by (apply HE; eauto).
    rewrite (decide_False (P := V2.is_dict_with "Yes" _ = true)).
    2: { intros H. apply HY in H as (? & [= <-] & H).
         by specialize (Hone _ _ Hv H). }
    rewrite (decide_False (P := V2.is_dict_with "No" _ = true)).
    2: { intros H. apply HN in H as (? & [= <-] & H).
         by specialize (Hone _ _ Hv H). }
    cbn [length]. lia.
Qed.

Lemma V2_summary_tallies (results : dict) :
  dict_get "error" results = None ->
  V2.summary results
  = Some (length results, tally "Yes" results.*2, tally "No" results.*2,
          Z.of_nat (length results) - Z.of_nat (tally "Yes" results.*2)
          - Z.of_nat (tally "No" results.*2)).
Proof.
  intros Herr. unfold V2.summary. rewrite Herr.
  rewrite bool_decide_eq_false_2 by (by intros [? ?]).
  unfold tally. do 4 f_equal.
  - f_equal. apply list_filter_iff. intros r.
    by rewrite orb_diag.
  - f_equal. apply list_filter_iff. intros r. by rewrite orb_diag.
  - do 2 f_equal. f_equal. apply list_filter_iff. intros r.
    by rewrite orb_diag.
  - do 2 f_equal. apply list_filter_iff. intros r. by rewrite orb_diag.
Qed.

Lemma str_le_total : Total str_le.
Proof. intros a b. apply String.leb_total. Qed.

(** X20. A directory run of the richer pipeline.  When the directory
    exists and its listing succeeds, [validate_multiple_images] returns:
    the "No image files" record when no name of the listing ends in an
    image extension; otherwise at most one value per image file, each
    with one of the three verdicts.  In simple mode a value holds the
    verdict and nothing else.  In the other modes, for distinct names,
    the records are keyed by the file names, in sorted order.  In the
    summary the errors, found by subtraction, are exactly the records with
    the verdict "Error". *)
Theorem V2_batch_errors_by_subtraction (E : V2.collaborators)
  (D : directory) (directory_path mode : string) (names : list string) :
  V2.path_exists E directory_path = true ->
  listdir D directory_path = Ok names ->
  exists results,
    V2.validate_multiple_images E D directory_path mode = Ok results
    /\ (V2.image_files D names = [] ->
        results = [("error", JStr "No image files found in directory")])
    /\ (V2.image_files D names <> [] ->
        Forall has_verdict results.*2
        /\ (length results <= length (V2.image_files D names))%nat
        /\ (mode = "simple" -> Forall bare_verdict results.*2)
        /\ (mode <> "simple" -> NoDup names ->
            results
            = results_of
                (fun f =>
                   JObj (V2.verify_image E (path_join D directory_path f)
                           mode))
                (sorted (V2.image_files D names))
            /\ Sorted str_le results.*1
            /\ results.*1 ≡ₚ V2.image_files D names)
        /\ (dict_get "error" results = None ->
            exists passed failed errors,
              V2.summary results
              = Some (length results, passed, failed, errors)
              /\ errors = Z.of_nat (tally "Error" results.*2)
              /\ (passed + failed + Z.to_nat errors)%nat = length results)).
Proof.
  intros Hdir Hlist. unfold V2.validate_multiple_images.
  rewrite Hdir, Hlist. cbn [negb mbind res_bind]. cbv zeta.
  destruct (Nat.eqb_spec (length (V2.image_files D names)) 0) as [H0 | H0].
  { eexists. split; [reflexivity |]. split; [done |].
    apply nil_length_inv in H0. done. }
  destruct (V2_batch_loop E D directory_path mode
              (sorted (V2.image_files D names)) [])
    as (results & Hrun & Hall & Hbare & Hlen & Heq);
    [by constructor | intros _; by constructor |].
  exists results. split; [exact Hrun |].
  split; [intros H; by rewrite H in H0 |]. intros _.
  assert (Hperm : sorted (V2.image_files D names) ≡ₚ V2.image_files D names)
    by apply merge_sort_Permutation.
  split; [done |]. split.
  { rewrite <- Hperm. exact Hlen. }
  split; [done |]. split.
  - intros Hmode Hnd. rewrite Heq; [| done |].
    + cbn [app]. split; [done |]. rewrite results_of_keys.
      split; [apply (@Sorted_merge_sort _ str_le _ str_le_total) | done].
    + cbn. rewrite Hperm. by apply NoDup_filter.
  - intros Herr. rewrite (V2_summary_tallies results Herr).
    pose proof (tally_sum _ Hall) as Hsum.
    rewrite length_fmap in Hsum.
    do 3 eexists. split; [reflexivity |]. split; lia.
Qed.

Lemma V2_batch_errors_by_subtraction_witness :
  exists results,
    V2.validate_multiple_images
      (studio_v2 thumbnail [car_row thumbnail_box]) sample_directory
      "photos" "simple" = Ok results
    /\ (length results <= 1)%nat.
Proof.
  destruct (V2_batch_errors_by_subtraction
              (studio_v2 thumbnail [car_row thumbnail_box]) sample_directory
              "photos" "simple" ["car.jpg"; "notes.txt"] eq_refl eq_refl)
    as (results & Hrun & _ & Hsome).
  exists results. split; [exact Hrun |].
  destruct Hsome as (_ & Hlen & _); [discriminate | exact Hlen].
Defined.

(** ** Sample runs of the detectors *)

Lemma V1_detect_car_picks_first_best_witness :
  (V1.detect_car (studio_v1 studio_photo street) studio_photo = (false, None)
   /\ forall r, r ∈ street -> ~ accepted_car r)
  \/ exists r,
       V1.detect_car (studio_v1 studio_photo street) studio_photo
       = (true, Some (det_bbox r))
       /\ first_best street r.
Proof.
  apply (proj2 V1_detect_car_picks_first_best
           (studio_v1 studio_photo street) studio_photo
           (fun _ => Ok street) street); reflexivity.
Defined.

Lemma detectors_agree_witness :
  V2.detect_car (studio_v2 studio_photo street) studio_photo
  = Ok (V1.detect_car (studio_v1 studio_photo street) studio_photo).
Proof.
  apply (detectors_agree (studio_v1 studio_photo street)
           (studio_v2 studio_photo street) studio_photo
           (fun _ => Ok street) street); reflexivity.
Defined.

Lemma get_multiple_cars_sorted_witness :
  StronglySorted by_confidence
    (V1.get_multiple_cars (studio_v1 studio_photo street) studio_photo)
  /\ V1.get_multiple_cars (studio_v1 studio_photo street) studio_photo
     ≡ₚ vehicles street
  /\ (forall c,
         c ∈ V1.get_multiple_cars (studio_v1 studio_photo street) studio_photo
         <-> exists r,
               r ∈ street
               /\ int_of_float (det_cls r) ∈ [2; 3; 5; 7]
               /\ (0.5 < det_conf r)%Q
               /\ c = (det_conf r, det_bbox r)).
Proof.
  apply (get_multiple_cars_sorted (studio_v1 studio_photo street)
           studio_photo (fun _ => Ok street) street); reflexivity.
Defined.

Lemma get_multiple_cars_stable_witness :
  of_confidence 0.9
    (V1.get_multiple_cars (studio_v1 studio_photo street) studio_photo)
  = of_confidence 0.9 (vehicles street).
Proof.
  apply (get_multiple_cars_stable (studio_v1 studio_photo street)
           studio_photo (fun _ => Ok street) street 0.9%Q); reflexivity.
Defined.

(** ** Where the errors of the richer pipeline come from *)

Lemma V2_detect_car_raises (E : V2.collaborators) (img : list (list pixel))
  (e : exn) :
  V2.detect_car E img = Raise e <-> V2.model E img = Raise e.
Proof.
  unfold V2.detect_car. destruct (V2.model E img) as [rows | e'];
    cbn [mbind res_bind]; [| split; by intros [= ->]].
  split; [| discriminate].
  destruct (length rows =? 0)%nat; [discriminate |].
  destruct (filter _ rows); discriminate.
Qed.

(** X21. In the richer pipeline an "Error" record has five sources: a
    missing file, a file that is no image, the quality gate, an exception
    of the detector model, and an exception of the orientation scorer on
    the detected box.  The last two go through the exception handler,
    whose record carries the text of the exception after
    "Processing error: ". *)
Theorem V2_error_sources (E : V2.collaborators) (p mode : string) :
  (verdict (V2.verify_image E p mode) "Error" <->
   V2.path_exists E p = false
   \/ V2.imread E p = None
   \/ exists img,
        V2.imread E p = Some img
        /\ ((V2.validate_image_quality E img).1.1 = false
            \/ (exists e, V2.model E img = Raise e)
            \/ exists b e,
                 V2.detect_car E img = Ok (true, Some b)
                 /\ V2.classify_orientation img b = Raise e))
  /\ (forall img b e,
         V2_car_found E p img b ->
         V2.classify_orientation img b = Raise e ->
         V2.verify_image E p mode
         = [("result", JStr "Error");
            ("error", JStr ("Processing error: " +:+ str e));
            ("timestamp", JStr (V2.now E))]).
Proof.
  split.
  2: { intros img b e (Hp & Hi & Hq & Hd) Hc.
       unfold V2.verify_image, V2.verify_image_try, V2.evaluate.
       rewrite Hp, Hi. cbn [negb].
       destruct (V2.validate_image_quality E img) as [[v q] issues].
       simpl in Hq. subst v. cbn [negb].
       rewrite Hd. cbn [mbind res_bind]. by rewrite Hc. }
  unfold V2.verify_image, V2.verify_image_try, verdict.
  destruct (V2.path_exists E p); [| split; [tauto | reflexivity]].
  destruct (V2.imread E p) as [img |]; [| split; [tauto | reflexivity]].
  cbn [negb].
  destruct (V2.validate_image_quality E img) as [[valid q] issues] eqn:Hq.
  destruct valid; cbn [negb].
  2: { split; [| reflexivity]. intros _. right. right. exists img.
       split; [done |]. left. by rewrite Hq. }
  destruct (V2.detect_car E img) as [[found bb] | e] eqn:Hd;
    cbn [mbind res_bind].
  2: { split; [| reflexivity]. intros _. right. right. exists img.
       split; [done |]. right. left. exists e.
       by apply V2_detect_car_raises. }
  assert (Hmodel : forall e, V2.model E img <> Raise e).
  { intros e He. apply V2_detect_car_raises in He. congruence. }
  assert (Hno : forall d : dict,
            d = [("result", JStr "No");
                 ("failure_reasons", strings ["No car detected in image"]);
                 ("timestamp", JStr (V2.now E));
                 ("model_used", JStr "yolov8n + sam + classifier")] ->
            dict_get "result"
              (if String.eqb mode "detailed"
               then dict_update
                      [("criteria", JObj V2.no_car_criteria);
                       ("image_path", JStr p);
                       ("quality_score", JFloat q)] d
               else d) = Some (JStr "No")).
  { intros d ->. by destruct (String.eqb mode "detailed"). }
  destruct found, bb as [b |];
    try (cbn [mret res_ret]; rewrite Hno by done; split; [discriminate |];
         intros [H | [H | (img' & [= <-] & [H | [[e H] | (b' & e & H & _)]])]];
         try discriminate; try (rewrite ?Hq in H; cbn in H; discriminate);
         try (rewrite Hd in H; discriminate);
         by destruct (Hmodel e)).
  unfold V2.evaluate.
  destruct (V2.classify_orientation img b) as [o | e] eqn:Hc;
    cbn [mbind res_bind mret res_ret].
  - set (area_ok := V2.check_area_ratio _).
    set (bg := V2.check_white_background _ _).
    destruct o as [sv fl scores].
    assert (Hres : dict_get "result"
                     (V2.report E p mode q true area_ok bg
                        {| V2.side_view := sv; V2.facing_left := fl;
                           V2.confidence_scores := scores |})
                   <> Some (JStr "Error")).
    { unfold V2.report. destruct (String.eqb mode "detailed");
        by destruct area_ok, bg, sv, fl. }
    split; [done |].
    intros [H | [H | (img' & [= <-] & [H | [[e H] | (b' & e & H & H')]])]];
      try discriminate; try (rewrite ?Hq in H; cbn in H; discriminate).
    + by destruct (Hmodel e).
    + rewrite Hd in H. injection H as <-. congruence.
  - split; [| reflexivity]. intros _. right. right. exists img.
    split; [done |]. right. right. by exists b, e.
Qed.

Lemma V2_error_sources_witness :
  V2.verify_image
    (studio_v2 thumbnail [car_row (0, 1, 13, 4)]) "car.jpg" "detailed"
  = [("result", JStr "Error");
     ("error", JStr ("Processing error: " +:+ str ZeroDivisionError));
     ("timestamp",
      JStr (V2.now (studio_v2 thumbnail [car_row (0, 1, 13, 4)])))].
Proof.
  apply (proj2 (V2_error_sources
                  (studio_v2 thumbnail [car_row (0, 1, 13, 4)])
                  "car.jpg" "detailed") thumbnail (0, 1, 13, 4)).
  - repeat split; reflexivity.
  - reflexivity.
Defined.

(** ** A box that fills the frame *)

Lemma set_slice_whole {A} (b : Z) (vals l : list A) :
  Z.of_nat (length l) <= b -> set_slice 0 b vals l = vals.
Proof.
  intros Hb. unfold set_slice.
  replace (slice_index (length l) 0) with 0%nat
    by (unfold slice_index; cbn; lia).
  replace (slice_index (length l) b) with (length l).
  2: { unfold slice_index. destruct (Z.ltb_spec b 0); lia. }
  rewrite take_0, Nat.add_0_l, Nat.sub_0_r, drop_all. cbn.
  by rewrite app_nil_r.
Qed.

Lemma zip_with_set_slice_whole {A} (P : A -> Prop) (x2 : Z)
  (blk rows : list (list A)) :
  Forall (Forall P) blk ->
  Forall (fun row => Z.of_nat (length row) <= x2) rows ->
  Forall (Forall P) (zip_with (set_slice 0 x2) blk rows).
Proof.
  intros Hblk. revert rows.
  induction Hblk as [| brow blk Hbrow _ IH]; intros rows Hrows; [done |].
  destruct Hrows as [| row rows Hrow Hrows]; [done |].
  cbn [zip_with]. constructor; [| by apply IH].
  by rewrite set_slice_whole.
Qed.

Lemma full_like_rows {A} (a : list (list A)) (v : Z) :
  Forall (Forall (fun x => x = v)) (full_like a v).
Proof.
  unfold full_like. apply Forall_fmap, Forall_forall. intros row _.
  cbn. by apply Forall_replicate.
Qed.

Lemma filter_zip_none {A B} (P : A * B -> Prop)
  `{!forall ab, Decision (P ab)} (Q : B -> Prop) (l : list A) (m : list B) :
  (forall ab, P ab -> Q ab.2) ->
  Forall (fun y => ~ Q y) m ->
  filter P (zip l m) = [].
Proof.
  intros HPQ Hm. revert l. induction Hm as [| y m Hy _ IH]; intros l.
  { by destruct l. }
  destruct l as [| x l]; [done |].
  cbn [zip zip_with]. rewrite filter_cons_False; [apply IH |].
  intros HP. by apply HPQ in HP.
Qed.

(** A mask without the value selects nothing. *)
Lemma select_none {A} (a : list (list A)) (m : list (list Z)) (v : Z) :
  Forall (Forall (fun x => x <> v)) m -> select a m v = [].
Proof.
  intros Hm. unfold select.
  rewrite (filter_zip_none _ (fun x => x = v)); [done | done |].
  unfold ravel. by apply Forall_concat.
Qed.

Lemma background_mask_whole {A} (img : list (list A)) (x2 y2 : Z) :
  Z.of_nat (shape1 img) <= x2 ->
  Z.of_nat (shape0 img) <= y2 ->
  Forall (Forall (fun x => x = 0)) (V1.background_mask img (0, 0, x2, y2)).
Proof.
  intros Hx Hy. unfold V1.background_mask, fill_region, set_region.
  rewrite set_slice_whole
    by (unfold full; by rewrite length_replicate).
  apply zip_with_set_slice_whole; [apply full_like_rows |].
  unfold slice. apply Forall_take, Forall_drop.
  unfold full. apply Forall_replicate. by rewrite length_replicate.
Qed.

Lemma bg_pixels_whole {A} (img : list (list A)) (x2 y2 : Z) :
  Z.of_nat (shape1 img) <= x2 ->
  Z.of_nat (shape0 img) <= y2 ->
  V1.bg_pixels img (0, 0, x2, y2) = [].
Proof.
  intros Hx Hy. unfold V1.bg_pixels. apply select_none.
  eapply Forall_impl; [by apply background_mask_whole |].
  intros row Hrow. eapply Forall_impl; [exact Hrow |].
  intros x ->. done.
Qed.

(** X22. A box that fills the frame leaves no background, and the
    whiteness check of the simple pipeline then fails, on a colour image
    and on a grayscale one.  A photo on which the detector reports such a
    box is therefore never accepted: the verdict is "No", and the
    background is among the reasons. *)
Theorem V1_full_frame_box_is_rejected (img : list (list pixel))
  (gray : list (list Z)) (x2 y2 : Z) :
  (Z.of_nat (shape1 img) <= x2 -> Z.of_nat (shape0 img) <= y2 ->
   V1.check_background_white img (0, 0, x2, y2) = false
   /\ forall E p mode,
        V1_car_found E p img (0, 0, x2, y2) ->
        verdict (V1.verify_image E p mode) "No"
        /\ exists l,
             dict_get "failure_reasons" (V1.verify_image E p mode)
             = Some (strings l)
             /\ V1.background_reason ∈ l)
  /\ (Z.of_nat (shape1 gray) <= x2 -> Z.of_nat (shape0 gray) <= y2 ->
      V1.check_background_white_gray gray (0, 0, x2, y2) = false).
Proof.
  split.
  - intros Hx Hy.
    assert (Hbg : V1.check_background_white img (0, 0, x2, y2) = false).
    { unfold V1.check_background_white. by rewrite bg_pixels_whole. }
    split; [done |]. intros E p mode Hfound.
    destruct (V1_verify_car_found E p mode img (0, 0, x2, y2) Hfound)
      as (s & f & _ & _ & ->).
    rewrite Hbg. unfold verdict, V1.report.
    destruct s, (V1.heuristic_orientation_check (0, 0, x2, y2)), f; cbn;
      (split; [reflexivity |]); eexists; (split; [reflexivity |]);
      unfold V1.background_reason;
      repeat first [by (apply elem_of_cons; left)
                   | apply elem_of_cons; right].
  - intros Hx Hy. unfold V1.check_background_white_gray.
    by rewrite bg_pixels_whole.
Qed.

Lemma V1_full_frame_box_is_rejected_witness :
  verdict (V1.verify_image
             (studio_v1 studio_photo [car_row (0, 0, 100, 100)])
             "car.jpg" "detailed") "No".
Proof.
  destruct (proj1 (V1_full_frame_box_is_rejected studio_photo [] 100 100)
              ltac:(vm_compute; discriminate)
              ltac:(vm_compute; discriminate)) as [_ Hrun].
  apply Hrun. repeat split; vm_compute; reflexivity.
Defined.

(** ** The choice of the mode *)





(** * The background criterion, on the pixels themselves *)

(** ** What a mask selects *)

Lemma row_where_ext {A} (keep keep' : nat -> bool) (c : nat) (row : list A) :
  (forall i, (i < length row)%nat -> keep (c + i)%nat = keep' (c + i)%nat) ->
  row_where keep c row = row_where keep' c row.
Proof.
  revert c. induction row as [| px row IH]; intros c Hk; [done |].
  cbn [row_where].
  assert (H0 : keep c = keep' c).
  { rewrite <- (Nat.add_0_r c). apply Hk. cbn. lia. }
  rewrite H0, (IH (S c)); [done |].
  intros i Hi. replace (S c + i)%nat with (c + S i)%nat by lia.
  apply Hk. cbn. lia.
Qed.

Lemma rows_where_ext {A} (keep keep' : nat -> nat -> bool) (r : nat)
  (a : list (list A)) :
  (forall i j px, at2 a i j = Some px ->
                  keep (r + i)%nat j = keep' (r + i)%nat j) ->
  rows_where keep r a = rows_where keep' r a.
Proof.
  revert r. induction a as [| row a IH]; intros r Hk; [done |].
  cbn [rows_where]. f_equal.
  - apply row_where_ext. intros j Hj. cbn [Nat.add].
    destruct (lookup_lt_is_Some_2 row j Hj) as [px Hpx].
    specialize (Hk 0%nat j px). rewrite Nat.add_0_r in Hk. by apply Hk.
  - apply IH. intros i j px Hpx.
    replace (S r + i)%nat with (r + S i)%nat by lia.
    by apply (Hk (S i) j px).
Qed.

(** On one row, the selection by the mask is the selection by position. *)
Lemma select_row_where {A} (v : Z) (row : list A) (mrow : list Z)
  (keep : nat -> bool) (c : nat) :
  length row = length mrow ->
  (forall i, keep (c + i)%nat = bool_decide (mrow !! i = Some v)) ->
  fst <$> filter (fun am : A * Z => am.2 = v) (zip row mrow)
  = row_where keep c row.
Proof.
  revert mrow c. induction row as [| px row IH]; intros mrow c Hlen Hk.
  { by destruct mrow. }
  destruct mrow as [| y mrow]; [done |].
  cbn [zip zip_with row_where].
  pose proof (Hk 0%nat) as H0. rewrite Nat.add_0_r in H0. cbn in H0.
  rewrite H0. rewrite filter_cons. cbn [snd].
  assert (Htail : fst <$> filter (fun am : A * Z => am.2 = v) (zip row mrow)
                  = row_where keep (S c) row).
  { apply IH; [by injection Hlen |].
    intros i. replace (S c + i)%nat with (c + S i)%nat by lia.
    by rewrite Hk. }
  destruct (decide (y = v)) as [-> | Hy].
  - rewrite bool_decide_eq_true_2 by done. cbn [fmap list_fmap fst].
    f_equal. exact Htail.
  - rewrite bool_decide_eq_false_2 by congruence. exact Htail.
Qed.

(** On an array and a mask of its shape, [a[m == v]] holds the entries at
    the positions where the mask is [v], in row-major order. *)
Lemma select_rows_where {A} (v : Z) (a : list (list A)) (m : list (list Z))
  (keep : nat -> nat -> bool) (r : nat) :
  same_shape a m ->
  (forall i j, keep (r + i)%nat j = bool_decide (at2 m i j = Some v)) ->
  select a m v = rows_where keep r a.
Proof.
  intros Hshape. revert r.
  induction Hshape as [| row mrow a m Hlen _ IH]; intros r Hk; [done |].
  unfold select, ravel in *. cbn [concat rows_where].
  rewrite zip_with_app by done. rewrite filter_app, fmap_app.
  f_equal.
  - apply select_row_where; [done |]. intros j. cbn [Nat.add].
    specialize (Hk 0%nat j). rewrite Nat.add_0_r in Hk. by rewrite Hk.
  - apply IH. intros i j.
    replace (S r + i)%nat with (r + S i)%nat by lia. by rewrite Hk.
Qed.

Lemma select_masked {A} (v : Z) (a : list (list A)) (m : list (list Z)) :
  same_shape a m -> select a m v = masked a m v.
Proof. intros Hshape. by apply select_rows_where. Qed.

Lemma same_shape_of_widths {A B} (w : nat) (a : list (list A))
  (m : list (list B)) :
  length a = length m ->
  Forall (fun row => length row = w) a ->
  Forall (fun row => length row = w) m ->
  same_shape a m.
Proof.
  intros Hlen Ha. revert m Hlen.
  induction Ha as [| row a Hrow _ IH]; intros m Hlen Hm.
  { destruct m; [constructor | done]. }
  destruct m as [| mrow m]; [done |].
  apply Forall_cons in Hm as [Hmrow Hm].
  constructor; [congruence | apply IH; [by injection Hlen | done]].
Qed.

(** ** The mask of the simple pipeline *)

Lemma V1_background_mask_shape {A} (img : list (list A)) (b : bbox) :
  rectangular img -> same_shape img (V1.background_mask img b).
Proof.
  intros Hrect. destruct b as [[[x1 y1] x2] y2].
  unfold V1.background_mask, fill_region.
  destruct (full_shape (shape0 img) (shape1 img) 1) as [Hh Hw].
  set (mask := full (shape0 img) (shape1 img) 1) in *.
  destruct (set_region_shape y1 y2 x1 x2
              (full_like (region y1 y2 x1 x2 mask) 0) mask (shape1 img))
    as [H1 H2]; [done | | |].
  - unfold full_like. by rewrite length_fmap, length_region.
  - unfold full_like, region. rewrite !Forall_fmap.
    unfold slice at 2. apply Forall_take, Forall_drop.
    eapply Forall_impl; [exact Hw |]. intros row Hrow. cbn.
    by rewrite length_replicate, length_slice, Hrow.
  - apply (same_shape_of_widths (shape1 img)); [| done | done].
    rewrite H1, Hh. done.
Qed.

(** The background of the simple pipeline is what lies outside the box. *)
Lemma V1_bg_pixels_outside {A} (img : list (list A)) (b : bbox) :
  rectangular img -> V1.bg_pixels img b = outside_box img b.
Proof.
  intros Hrect. unfold V1.bg_pixels.
  rewrite select_masked by (by apply V1_background_mask_shape).
  unfold masked, outside_box, pixels_where. apply rows_where_ext.
  intros i j px Hpx. cbn [Nat.add].
  rewrite (V1_background_mask_at img b i j px Hrect Hpx).
  destruct (in_box img b i j); cbn [negb].
  - by rewrite bool_decide_eq_false_2.
  - by rewrite bool_decide_eq_true_2.
Qed.

(** ** The criterion *)

(** C6, as the code has it.  The whiteness check fails on an empty
    background.  On a non-empty one the simple pipeline passes exactly
    when the average colour of the pixels outside the box exceeds 180 in
    every channel (in the single channel of a grayscale array).  The
    mask-based pipeline passes exactly when the average colour of the
    pixels at which the mask is 0 exceeds 200 in every channel and the
    largest channel of the average minus the smallest stays below 20, so
    that an unbalanced background fails however bright it is. *)
Theorem background_whiteness (img : list (list pixel)) (gray : list (list Z))
  (b : bbox) (mask : list (list Z)) :
  rectangular img ->
  rectangular gray ->
  same_shape img mask ->
  (V1.bg_pixels img b = outside_box img b
   /\ V1.bg_pixels gray b = outside_box gray b
   /\ select img mask 0 = masked img mask 0)
  /\ (outside_box img b = [] -> V1.check_background_white img b = false)
  /\ (outside_box img b <> [] ->
      (V1.check_background_white img b = true
       <-> exceeds 180 (outside_box img b)))
  /\ (outside_box gray b = [] ->
      V1.check_background_white_gray gray b = false)
  /\ (outside_box gray b <> [] ->
      (V1.check_background_white_gray gray b = true
       <-> (180 < mean (outside_box gray b))%Q))
  /\ (masked img mask 0 = [] -> V2.check_white_background img mask = false)
  /\ (masked img mask 0 <> [] ->
      (V2.check_white_background img mask = true
       <-> exceeds 200 (masked img mask 0)
           /\ balanced 20 (masked img mask 0)))
  /\ (~ balanced 20 (masked img mask 0) ->
      V2.check_white_background img mask = false).
Proof.
  intros Himg Hgray Hmask.
  pose proof (V1_check_background_white_true img b) as H1.
  pose proof (V1_check_background_white_gray_true gray b) as Hg.
  pose proof (V2_check_white_background_true img mask) as H2.
  rewrite (V1_bg_pixels_outside img b Himg) in H1.
  rewrite (V1_bg_pixels_outside gray b Hgray) in Hg.
  rewrite (select_masked 0 img mask Hmask) in H2.
  split.
  { split; [by apply V1_bg_pixels_outside |].
    split; [by apply V1_bg_pixels_outside | by apply select_masked]. }
  repeat match goal with |- _ /\ _ => split end.
  - intros Hbg. apply not_true_is_false. tauto.
  - tauto.
  - intros Hbg. apply not_true_is_false. tauto.
  - tauto.
  - intros Hbg. apply not_true_is_false. tauto.
  - tauto.
  - intros Hn. apply not_true_is_false. tauto.
Qed.

Lemma background_whiteness_witness :
  V2.check_white_background thumbnail (V2.segment_car thumbnail thumbnail_box)
  = true
  <-> exceeds 200
        (masked thumbnail (V2.segment_car thumbnail thumbnail_box) 0)
      /\ balanced 20
           (masked thumbnail (V2.segment_car thumbnail thumbnail_box) 0).
Proof.
  apply (background_whiteness thumbnail [] thumbnail_box
           (V2.segment_car thumbnail thumbnail_box)).
  - unfold rectangular. vm_compute. repeat constructor.
  - constructor.
  - unfold same_shape. vm_compute. repeat constructor.
  - vm_compute. discriminate.
Defined.

(** An even gray background of level 190 exceeds 180 in every channel and
    is perfectly balanced, and the mask-based check rejects it: its own
    brightness bound is 200. *)
Lemma balanced_gray_background_is_rejected :
  masked gray_wall no_car_mask 0 <> []
  /\ exceeds 180 (masked gray_wall no_car_mask 0)
  /\ balanced 20 (masked gray_wall no_car_mask 0)
  /\ V2.check_white_background gray_wall no_car_mask = false.
Proof.
  split; [vm_compute; discriminate |].
  split; [| split; [| vm_compute; reflexivity]].
  - unfold exceeds. vm_compute mean_axis0. repeat constructor.
  - unfold balanced. vm_compute mean_axis0. repeat constructor.
Qed.

(** ** White space beyond ASCII *)

(** An answer followed by a no-break space (U+00A0, the bytes C2 A0) is
    taken as it is by [get_user_choice]; a zero-width space (U+200B, the
    bytes E2 80 8B) is no white space and spoils the answer. *)
Example get_user_choice_strips_no_break_space :
  get_user_choice
    ["1" +:+ of_chars (ascii_of_nat <$> [194; 160]%nat); "2"]
  = Ok ("simple", ["2"])
  /\ get_user_choice
       ["1" +:+ of_chars (ascii_of_nat <$> [226; 128; 139]%nat); "2"]
     = Ok ("detailed", []).
Proof. split; vm_compute; reflexivity. Qed.

(** The adapter's clean-up drops an ideographic space (U+3000, the bytes
    E3 80 80) around the answer as well. *)
Example clean_strips_ideographic_space :
  V3.clean (of_chars (ascii_of_nat <$> [227; 128; 128]%nat) +:+ "{}"
            +:+ of_chars (ascii_of_nat <$> [226; 128; 168]%nat))
  = "{}".
Proof. vm_compute. reflexivity. Qed.
